(** * LaTeX table generator (script-generator.js): model and properties

    The generator is the click handler of [generateBtn].  It reads seven form
    fields, validates the two counts, and builds two strings: [latexOutput]
    (a [tabular] environment, shown in the [output] text area) and
    [latexPreview] (an [array] environment of at most 5 x 5 data cells,
    handed to [renderTablePreview]).

    Conventions of the model.
    - A JavaScript string is a [string]: the UTF-8 bytes of its text.  The
      handler only concatenates strings and compares them with ASCII
      literals, so the encoding does not influence any result below.
    - An integral Number is a [Z]; counts are exact (the source's Numbers are
      exact below 2^53) and strings are unbounded.
    - A fractional Number is the exact rational it was parsed from.  The
      values that occur have at most four decimals, and such decimals pass
      unchanged through a double and back.
    - [Math.random] is a sequence [rnd : nat -> Q] together with the index of
      the next draw, which is part of the state.
    - The listeners for resetting and downloading, [saveSettings] (the
      second click listener of the generate button) and [loadSettings] act
      on a [Page]: the world of the generator, the item of localStorage and
      the files handed over for download.  The listener for copying is left
      out.

    Plan of the file: the JavaScript primitives; the script; functions that
    read lines, rows, cells and markers back from a string; the table as a
    list of lines ([layout]); then the proofs: the two loops build the
    layout ([build_layout]), a rendered layout is read back line by line,
    and the properties C1 to C10 of the two strings and of the handler.
    The last parts are about the cells and the text given to the page, the
    counts read by [parseInt], and the stored settings. *)

From Stdlib Require Import String Ascii List ZArith QArith Qround Lia Bool.
From Stdlib Require Import DecimalString.
From Stdlib Require Qabs DecimalFacts DecimalPos DecimalZ.
Import ListNotations.

Open Scope string_scope.
Open Scope Z_scope.

(** ** JavaScript primitives used by the script *)

Module JS.

(** Result of [parseInt]: [NaN] or an integer. *)
Inductive num : Type :=
| NaN
| Int (z : Z).

(** Result of [parseFloat]: [FNaN] or a finite value. *)
Inductive flt : Type :=
| FNaN
| Fin (q : Q).

Definition isNaN (n : num) : bool :=
  match n with NaN => true | Int _ => false end.

(** [n <= 0]; every comparison with NaN is false. *)
Definition le0 (n : num) : bool :=
  match n with NaN => false | Int z => z <=? 0 end.

Definition LF : string := String (ascii_of_nat 10) "".

Definition code (c : ascii) : Z := Z.of_nat (nat_of_ascii c).

(** TAB, LF, VT, FF, CR, SP. *)
Definition ws1 (c : ascii) : bool :=
  ((9 <=? code c) && (code c <=? 13)) || (code c =? 32).

(** U+00A0 as two bytes. *)
Definition ws2 (a b : ascii) : bool :=
  (code a =? 194) && (code b =? 160).

(** U+1680, U+2000..U+200A, U+2028, U+2029, U+202F, U+205F, U+3000 and
    U+FEFF as three bytes. *)
Definition ws3 (a b c : ascii) : bool :=
  ((code a =? 225) && (code b =? 154) && (code c =? 128))
  || ((code a =? 226) && (code b =? 128)
      && (((128 <=? code c) && (code c <=? 138))
          || (code c =? 168) || (code c =? 169) || (code c =? 175)))
  || ((code a =? 226) && (code b =? 129) && (code c =? 159))
  || ((code a =? 227) && (code b =? 128) && (code c =? 128))
  || ((code a =? 239) && (code b =? 187) && (code c =? 191)).

(** Leading white space and line terminators are skipped by [parseInt] and
    [parseFloat]. *)
Fixpoint trimStart (s : string) : string :=
  match s with
  | "" => ""
  | String a r =>
      if ws1 a then trimStart r
      else
        match r with
        | String b r2 =>
            if ws2 a b then trimStart r2
            else
              match r2 with
              | String c r3 => if ws3 a b c then trimStart r3 else s
              | "" => s
              end
        | "" => s
        end
  end.

(** Value of a character as a digit in the given radix. *)
Definition digit_val (radix : Z) (c : ascii) : option Z :=
  let n := code c in
  let v :=
    if (48 <=? n) && (n <=? 57) then Some (n - 48)
    else if (97 <=? n) && (n <=? 122) then Some (n - 87)
    else if (65 <=? n) && (n <=? 90) then Some (n - 55)
    else None in
  match v with
  | Some d => if d <? radix then Some d else None
  | None => None
  end.

(** Value of the longest prefix of digits; [acc] is [None] until a digit
    has been read. *)
Fixpoint digits_prefix (radix : Z) (acc : option Z) (s : string) : option Z :=
  match s with
  | "" => acc
  | String c r =>
      match digit_val radix c with
      | Some d =>
          digits_prefix radix
            (Some (match acc with Some a => a * radix + d | None => d end)) r
      | None => acc
      end
  end.

(** [parseInt(s)] with the radix left out: skip white space, read a sign,
    switch to radix 16 after [0x] or [0X], read the longest run of digits;
    NaN when that run is empty.  The result is the exact integer; it is the
    source's Number for magnitudes up to 2^53, beyond which the source
    rounds to the nearest double. *)
Definition parseInt (s : string) : num :=
  let s1 := trimStart s in
  let '(sign, s2) :=
    match s1 with
    | String "-" r => (-1, r)
    | String "+" r => (1, r)
    | _ => (1, s1)
    end in
  let '(radix, s3) :=
    match s2 with
    | String "0" (String "x" r) => (16, r)
    | String "0" (String "X" r) => (16, r)
    | _ => (10, s2)
    end in
  match digits_prefix radix None s3 with
  | Some v => Int (sign * v)
  | None => NaN
  end.

(** [s.repeat(n)]; the script calls it with counts that are not negative. *)
Fixpoint repeat (s : string) (n : nat) : string :=
  match n with
  | O => ""
  | S k => s ++ repeat s k
  end.

(** [a.join(sep)]. *)
Fixpoint join (sep : string) (l : list string) : string :=
  match l with
  | [] => ""
  | [x] => x
  | x :: r => x ++ sep ++ join sep r
  end.

(** The indexes [i, i+1, ..., i+n-1]. *)
Fixpoint range (i : Z) (n : nat) : list Z :=
  match n with
  | O => []
  | S k => i :: range (i + 1) k
  end.

(** [Array.from({ length: n }, (_, i) => f(i))]. *)
Definition Array_from {A : Type} (n : Z) (f : Z -> A) : list A :=
  map f (range 0 (Z.to_nat n)).

(** [for (let i = start; ...; i++) body] run for [n] iterations. *)
Fixpoint for_loop {S : Type} (n : nat) (i : Z) (body : Z -> S -> S) (s : S) : S :=
  match n with
  | O => s
  | Datatypes.S k => for_loop k (i + 1) body (body i s)
  end.

(** [z.toString()] of an integer. *)
Definition Z_toString (z : Z) : string :=
  NilEmpty.string_of_int (Z.to_int z).

(** The digits of [n], at least five of them, with a point before the
    last four. *)
Definition with_point4 (n : Z) : string :=
  let m := Z_toString n in
  let m := repeat "0" (5 - String.length m) ++ m in
  let k := (String.length m - 4)%nat in
  substring 0 k m ++ "." ++ substring k 4 m.

(** [x.toFixed(4)]: the sign, then the integer [n] with [n / 10^4]
    nearest to the magnitude of [x] (the larger one on a tie), written
    with the point. *)
Definition toFixed4 (x : Q) : string :=
  let neg := Qlt_le_dec x 0 in
  let a := if neg then Qopp x else x in
  let n := Qfloor (a * 10000 + (1 # 2)) in
  (if neg then "-" else "") ++ with_point4 n.

Definition is_digit (c : ascii) : bool :=
  (48 <=? code c) && (code c <=? 57).

(** Value and length of the longest prefix of decimal digits, and the
    rest of the string. *)
Fixpoint dec_run (v : Z) (len : nat) (s : string) : Z * nat * string :=
  match s with
  | "" => (v, len, s)
  | String c r =>
      if is_digit c then dec_run (v * 10 + (code c - 48)) (Datatypes.S len) r
      else (v, len, s)
  end.

(** [parseFloat(s)] on decimal literals without exponent, which is what
    [toFixed] and [toString] produce in the range the script uses: skip
    white space, read a sign, digits, and a point followed by digits; NaN
    when no digit was read. *)
Definition parseFloat (s : string) : flt :=
  let s1 := trimStart s in
  let '(sign, s2) :=
    match s1 with
    | String "-" r => (-1, r)
    | String "+" r => (1, r)
    | _ => (1, s1)
    end in
  let '(iv, il, s3) := dec_run 0 0 s2 in
  let '(fv, fl) :=
    match s3 with
    | String "." r => let '(v, l, _) := dec_run 0 0 r in (v, l)
    | _ => (0, O)
    end in
  if ((il + fl)%nat =? 0)%nat then FNaN
  else Fin (Qmake (sign * (iv * 10 ^ Z.of_nat fl + fv))
                  (Z.to_pos (10 ^ Z.of_nat fl))).

(** Decimals of [r], [0 <= r < 1], up to the last one that is not zero. *)
Fixpoint frac_digits (fuel : nat) (r : Q) : string :=
  match fuel with
  | O => ""
  | Datatypes.S f =>
      if Qeq_bool r 0 then ""
      else
        let d := Qfloor (r * 10) in
        Z_toString d ++ frac_digits f (Qred (r * 10 - inject_Z d))
  end.

(** [v.toString()] of a Number in the range where no exponent is printed:
    the integer part, then a point and the decimals when there are some. *)
Definition Number_toString (v : flt) : string :=
  match v with
  | FNaN => "NaN"
  | Fin q =>
      let neg := Qlt_le_dec q 0 in
      let a := if neg then Qopp q else q in
      let i := Qfloor a in
      let r := Qred (a - inject_Z i) in
      (if neg then "-" else "") ++ Z_toString i
        ++ (if Qeq_bool r 0 then "" else "." ++ frac_digits 20 r)
  end.

End JS.

(** ** The script: state, helpers and the click handler *)

Import JS.

(** The form fields the handler reads. *)
Record Form : Type := mkForm {
  rows_value : string;        (* #rows.value *)
  columns_value : string;     (* #columns.value *)
  style_value : string;       (* #style.value *)
  header_checked : bool;      (* #header.checked *)
  autoNumber_checked : bool;  (* #autoNumber.checked *)
  fontStyle_value : string;   (* #fontStyle.value *)
  isNumeric_checked : bool    (* #isNumeric.checked *)
}.

(** The variables declared with [let] next to the handler, which live from
    one click to the next.  A variable that has not been assigned yet is
    represented by an arbitrary value. *)
Record Vars : Type := mkVars {
  rows : num;
  columns : num;
  style : string;
  hasHeader : bool;
  autoNumber : bool;
  fontStyle : string;
  isNumeric : bool;
  previewRows : Z;
  previewColumns : Z;
  totalColumns : Z;
  totalPreviewColumns : Z;
  latexOutput : string;
  latexPreview : string
}.

(** What a click can read or change. *)
Record World : Type := mkWorld {
  form : Form;
  vars : Vars;
  output_value : string;    (* output.value *)
  tablePreview : string;    (* innerHTML given to the preview container *)
  alerts : list string;     (* messages shown by alert, oldest first *)
  draws : nat               (* number of Math.random() calls made so far *)
}.

Definition applyFontStyle (text fontStyle : string) : string :=
  if String.eqb fontStyle "bold" then "\textbf{" ++ text ++ "}" else text.

(** [parseFloat((Math.random()).toFixed(4))] for the draw [x]. *)
Definition generateRandomValue (x : Q) : flt :=
  parseFloat (toFixed4 x).

Definition value_of (n : num) : Z :=
  match n with NaN => 0 | Int z => z end.

(** [renderTablePreview(latex)]: the container is emptied and receives one
    element whose innerHTML is the text between inline-math delimiters. *)
Definition renderTablePreview (latex : string) : string :=
  "\(" ++ latex ++ "\)".

Definition alert_text : string :=
  "Proszę wprowadzić prawidłową liczbę wierszy i kolumn.".

Section Generator.

(** The values [Math.random()] returns, in the order of the calls. *)
Variable rnd : nat -> Q.

Variables (columns previewColumns : Z) (fontStyle : string) (isNumeric : bool).

(** Body of the loop over [j]; the state is [rowOutput], [rowPreview] and
    the number of draws made. *)
Definition cell_step (j : Z) (st : string * string * nat) : string * string * nat :=
  let '(rowOutput, rowPreview, d) := st in
  let '(cellText, d) :=
    if isNumeric then (Number_toString (generateRandomValue (rnd d)), S d)
    else ("Kolumna" ++ Z_toString (j + 1), d) in
  let rowOutput :=
    rowOutput ++ applyFontStyle cellText fontStyle
      ++ (if j <? columns - 1 then " & " else "") in
  let rowPreview :=
    if j <? previewColumns then
      rowPreview ++ applyFontStyle cellText fontStyle
        ++ (if j <? previewColumns - 1 then " & " else "")
    else rowPreview in
  (rowOutput, rowPreview, d).

Variables (rows previewRows : Z) (style : string) (autoNumber : bool).

(** Body of the loop over [i]; the state is [latexOutput], [latexPreview]
    and the number of draws made. *)
Definition row_step (i : Z) (st : string * string * nat) : string * string * nat :=
  let '(latexOutput, latexPreview, d) := st in
  let rowOutput :=
    if autoNumber then applyFontStyle (Z_toString i) fontStyle ++ " & " else "" in
  let rowPreview :=
    if autoNumber then applyFontStyle (Z_toString i) fontStyle ++ " & " else "" in
  let '(rowOutput, rowPreview, d) :=
    for_loop (Z.to_nat columns) 0 cell_step (rowOutput, rowPreview, d) in
  let latexOutput := latexOutput ++ rowOutput ++ " \\" ++ LF in
  let latexPreview :=
    if i <=? previewRows then latexPreview ++ rowPreview ++ " \\" ++ LF
    else latexPreview in
  let '(latexOutput, latexPreview) :=
    if String.eqb style "horizontal" && (i <? rows) then
      (latexOutput ++ "\hline" ++ LF,
       if i <? previewRows then latexPreview ++ "\hline" ++ LF else latexPreview)
    else (latexOutput, latexPreview) in
  let '(latexOutput, latexPreview) :=
    if String.eqb style "full" && (i <? rows) then
      (latexOutput ++ "\hline" ++ LF,
       if i <? previewRows then latexPreview ++ "\hline" ++ LF else latexPreview)
    else (latexOutput, latexPreview) in
  (latexOutput, latexPreview, d).

End Generator.

(** The handler after its validation: [rows] and [columns] are the parsed
    counts and [d] the number of draws made before the click.  The result
    is the new value of the variables and of the draw counter. *)
Definition build (rnd : nat -> Q) (d : nat) (rows columns : Z) (style : string)
    (hasHeader autoNumber : bool) (fontStyle : string) (isNumeric : bool)
    : Vars * nat :=
  let previewRows := Z.min rows 5 in
  let previewColumns := Z.min columns 5 in
  let totalColumns := if autoNumber then columns + 1 else columns in
  let totalPreviewColumns :=
    if autoNumber then previewColumns + 1 else previewColumns in
  let latexOutput := "\begin{tabular}{" in
  let latexPreview := "\begin{array}{" in
  let '(latexOutput, latexPreview) :=
    if String.eqb style "full" then
      (latexOutput ++ "|" ++ repeat "c|" (Z.to_nat totalColumns) ++ "}" ++ LF
         ++ "\hline" ++ LF,
       latexPreview ++ "|" ++ repeat "c|" (Z.to_nat totalPreviewColumns) ++ "}" ++ LF
         ++ "\hline" ++ LF)
    else if String.eqb style "horizontal" then
      (latexOutput
         ++ (if autoNumber
             then "c|" ++ repeat "c " (Z.to_nat (totalColumns - 1)) ++ "}" ++ LF
             else repeat "c " (Z.to_nat totalColumns) ++ "}" ++ LF),
       latexPreview
         ++ (if autoNumber
             then "c|" ++ repeat "c " (Z.to_nat (totalPreviewColumns - 1)) ++ "}" ++ LF
             else repeat "c " (Z.to_nat totalPreviewColumns) ++ "}" ++ LF))
    else
      (latexOutput ++ repeat "c " (Z.to_nat totalColumns) ++ "}" ++ LF,
       latexPreview ++ repeat "c " (Z.to_nat totalPreviewColumns) ++ "}" ++ LF) in
  let '(latexOutput, latexPreview) :=
    if hasHeader then
      let '(latexOutput, latexPreview) :=
        if autoNumber then
          (latexOutput ++ applyFontStyle "Numer wiersza" fontStyle ++ " & ",
           latexPreview ++ applyFontStyle "Numer wiersza" fontStyle ++ " & ")
        else (latexOutput, latexPreview) in
      let headers :=
        join " & "
          (Array_from columns
             (fun i => applyFontStyle ("Nagłówek " ++ Z_toString (i + 1)) fontStyle)) in
      let previewHeaders :=
        join " & "
          (Array_from previewColumns
             (fun i => applyFontStyle ("Nagłówek " ++ Z_toString (i + 1)) fontStyle)) in
      let latexOutput := latexOutput ++ headers ++ " \\" ++ LF in
      let latexPreview := latexPreview ++ previewHeaders ++ " \\" ++ LF in
      if negb (String.eqb style "none") then
        (latexOutput ++ "\hline" ++ LF, latexPreview ++ "\hline" ++ LF)
      else (latexOutput, latexPreview)
    else (latexOutput, latexPreview) in
  let '(latexOutput, latexPreview, d) :=
    for_loop (Z.to_nat rows) 1
      (row_step rnd columns previewColumns fontStyle isNumeric
         rows previewRows style autoNumber)
      (latexOutput, latexPreview, d) in
  let '(latexOutput, latexPreview) :=
    if String.eqb style "full" then
      (latexOutput ++ "\hline" ++ LF, latexPreview ++ "\hline" ++ LF)
    else (latexOutput, latexPreview) in
  let latexOutput := latexOutput ++ "\end{tabular}" in
  let latexPreview := latexPreview ++ "\end{array}" in
  (mkVars (Int rows) (Int columns) style hasHeader autoNumber fontStyle isNumeric
     previewRows previewColumns totalColumns totalPreviewColumns
     latexOutput latexPreview,
   d).

(** The first listener of [generateBtn]'s click event. *)
Definition click (rnd : nat -> Q) (w : World) : World :=
  let f := form w in
  let rows := parseInt (rows_value f) in
  let columns := parseInt (columns_value f) in
  let style := style_value f in
  let hasHeader := header_checked f in
  let autoNumber := autoNumber_checked f in
  let fontStyle := fontStyle_value f in
  let isNumeric := isNumeric_checked f in
  if isNaN rows || isNaN columns || le0 rows || le0 columns then
    let v := vars w in
    mkWorld f
      (mkVars rows columns style hasHeader autoNumber fontStyle isNumeric
         (previewRows v) (previewColumns v) (totalColumns v)
         (totalPreviewColumns v) (latexOutput v) (latexPreview v))
      (output_value w) (tablePreview w)
      (alerts w ++ [alert_text]) (draws w)
  else
    let '(v, d) :=
      build rnd (draws w) (value_of rows) (value_of columns) style
        hasHeader autoNumber fontStyle isNumeric in
    mkWorld f v (latexOutput v) (renderTablePreview (latexPreview v))
      (alerts w) d.

(** The two strings of a successful generation, as functions of the parsed
    configuration. *)
Definition full (rnd : nat -> Q) (d : nat) (rows columns : Z) (style : string)
    (hasHeader autoNumber : bool) (fontStyle : string) (isNumeric : bool) : string :=
  latexOutput (fst (build rnd d rows columns style hasHeader autoNumber fontStyle isNumeric)).

Definition preview (rnd : nat -> Q) (d : nat) (rows columns : Z) (style : string)
    (hasHeader autoNumber : bool) (fontStyle : string) (isNumeric : bool) : string :=
  latexPreview (fst (build rnd d rows columns style hasHeader autoNumber fontStyle isNumeric)).

(** ** Reading a generated string

    The properties speak of the lines, rows, cells and markers of the two
    strings.  These functions read them back from the text. *)

(** The lines of a text: the pieces between line feeds. *)
Fixpoint split_lines (s : string) : list string :=
  match s with
  | "" => [""]
  | String c r =>
      if Ascii.eqb c (ascii_of_nat 10) then "" :: split_lines r
      else
        match split_lines r with
        | l :: ls => String c l :: ls
        | [] => [String c ""]
        end
  end.

(** The pieces of [s] between occurrences of [sep]; [skip] counts the
    characters of a separator still to be passed over. *)
Fixpoint split_on (sep : string) (skip : nat) (s : string) : list string :=
  match s with
  | "" => [""]
  | String c r =>
      match skip with
      | S k => split_on sep k r
      | O =>
          if prefix sep s then "" :: split_on sep (String.length sep - 1) r
          else
            match split_on sep 0 r with
            | l :: ls => String c l :: ls
            | [] => [String c ""]
            end
      end
  end.

(** [Some a] when [s] is [a ++ suf]. *)
Fixpoint strip_suffix (suf s : string) : option string :=
  if String.eqb s suf then Some ""
  else
    match s with
    | "" => None
    | String c r => option_map (String c) (strip_suffix suf r)
    end.

(** The row-end marker and the cell separator. *)
Definition row_end : string := "\\".
Definition cell_sep : string := " & ".

(** The cells of a line that ends with the row-end marker. *)
Definition row_cells (l : string) : option (list string) :=
  option_map (split_on cell_sep 0) (strip_suffix (" " ++ row_end) l).

(** The rows of a table, each one the list of its cells. *)
Definition table_rows (s : string) : list (list string) :=
  flat_map (fun l => match row_cells l with Some r => [r] | None => [] end)
    (split_lines s).

(** Number of positions of [s] where [pat] starts. *)
Fixpoint occurrences (pat s : string) : nat :=
  match s with
  | "" => O
  | String _ r => ((if prefix pat s then 1 else 0) + occurrences pat r)%nat
  end.

Inductive line_kind : Type :=
| KOpen | KRule | KRow | KClose | KOther.

Definition kind_of (l : string) : line_kind :=
  match strip_suffix (" " ++ row_end) l with
  | Some _ => KRow
  | None =>
      if String.eqb l "\hline" then KRule
      else if prefix "\begin{" l then KOpen
      else if prefix "\end{" l then KClose
      else KOther
  end.

(** The kinds of the lines of a text, in order. *)
Definition skeleton (s : string) : list line_kind :=
  map kind_of (split_lines s).

(** [Some r] when [s] is [pre ++ r]. *)
Fixpoint strip_prefix (pre s : string) : option string :=
  match pre with
  | "" => Some s
  | String a p =>
      match s with
      | "" => None
      | String b r => if Ascii.eqb a b then strip_prefix p r else None
      end
  end.

(** [Some spec] when [l] is the opening line of environment [env] with
    column specification [spec]. *)
Definition column_spec (env l : string) : option string :=
  match strip_prefix ("\begin{" ++ env ++ "}{") l with
  | Some r => strip_suffix "}" r
  | None => None
  end.

(** The column specification in the first line of a text. *)
Definition open_spec (env s : string) : option string :=
  match split_lines s with
  | l :: _ => column_spec env l
  | [] => None
  end.

(** ** The table as lines

    The same table written as a list of lines; [build_layout] below shows
    that the handler's two strings are the renderings of two such lists. *)

Inductive line : Type :=
| LOpen (env spec : string)
| LRule
| LRow (cells : list string)
| LClose (env : string).

Definition render_line (l : line) : string :=
  match l with
  | LOpen env spec => "\begin{" ++ env ++ "}{" ++ spec ++ "}"
  | LRule => "\hline"
  | LRow cells => join cell_sep cells ++ " " ++ row_end
  | LClose env => "\end{" ++ env ++ "}"
  end.

Definition render (ls : list line) : string :=
  join LF (map render_line ls).

Section Layout.

Variable rnd : nat -> Q.
Variables (style : string) (hasHeader autoNumber : bool).
Variables (fontStyle : string) (isNumeric : bool).

(** Text of the data cell in column [j] when [d] draws have been made. *)
Definition cell_text (d : nat) (j : Z) : string :=
  if isNumeric then Number_toString (generateRandomValue (rnd d))
  else "Kolumna" ++ Z_toString (j + 1).

(** Texts of [n] data cells from column [j] on. *)
Fixpoint row_texts (d : nat) (j : Z) (n : nat) : list string :=
  match n with
  | O => []
  | S m => cell_text d j :: row_texts (if isNumeric then S d else d) (j + 1) m
  end.

(** Texts of the data cells of [n] rows of [ncols] columns. *)
Fixpoint body_texts (ncols : nat) (d : nat) (n : nat) : list (list string) :=
  match n with
  | O => []
  | S m =>
      row_texts d 0 ncols
        :: body_texts ncols (if isNumeric then (d + ncols)%nat else d) m
  end.

(** The part of the texts that the preview shows. *)
Definition crop (nrows ncols : nat) (texts : list (list string)) : list (list string) :=
  map (firstn ncols) (firstn nrows texts).

Definition ruled : bool :=
  String.eqb style "horizontal" || String.eqb style "full".

(** Column specification for [shown] data columns. *)
Definition colspec (shown : nat) : string :=
  let total := if autoNumber then S shown else shown in
  if String.eqb style "full" then "|" ++ repeat "c|" total
  else if String.eqb style "horizontal" then
    if autoNumber then "c|" ++ repeat "c " shown else repeat "c " shown
  else repeat "c " total.

Definition header_cells (shown : nat) : list string :=
  (if autoNumber then [applyFontStyle "Numer wiersza" fontStyle] else [])
    ++ map (fun i => applyFontStyle ("Nagłówek " ++ Z_toString (i + 1)) fontStyle)
         (range 0 shown).

(** Cells of data row [i] with the given texts. *)
Definition data_cells (i : Z) (texts : list string) : list string :=
  (if autoNumber then [applyFontStyle (Z_toString i) fontStyle] else [])
    ++ map (fun t => applyFontStyle t fontStyle) texts.

(** Data rows from number [i] on, with a rule between two rows when the
    style has rules. *)
Fixpoint body_lines (i : Z) (texts : list (list string)) : list line :=
  match texts with
  | [] => []
  | t :: rest =>
      LRow (data_cells i t)
        :: match rest with
           | [] => []
           | _ :: _ => (if ruled then [LRule] else []) ++ body_lines (i + 1) rest
           end
  end.

Definition layout (env : string) (shown : nat) (texts : list (list string)) : list line :=
  [LOpen env (colspec shown)]
    ++ (if String.eqb style "full" then [LRule] else [])
    ++ (if hasHeader then
          LRow (header_cells shown)
            :: (if negb (String.eqb style "none") then [LRule] else [])
        else [])
    ++ body_lines 1 texts
    ++ (if String.eqb style "full" then [LRule] else [])
    ++ [LClose env].

End Layout.

(** ** The three documented border styles and what the specification says
    about their rules *)

Inductive border : Type :=
| BNone | BHorizontal | BFull.

Definition border_name (b : border) : string :=
  match b with
  | BNone => "none"
  | BHorizontal => "horizontal"
  | BFull => "full"
  end.

(** Line kinds of a table of [n] data rows: a leading rule for [BFull], a
    rule after the header unless [BNone], a rule after every data row for
    [BFull], after every data row but the last for [BHorizontal]. *)
Definition expected_skeleton (b : border) (hasHeader : bool) (n : nat) : list line_kind :=
  [KOpen]
    ++ match b with BFull => [KRule] | _ => [] end
    ++ (if hasHeader then
          KRow :: match b with BNone => [] | _ => [KRule] end
        else [])
    ++ match b with
       | BFull => List.concat (List.repeat [KRow; KRule] n)
       | BHorizontal =>
           match n with
           | O => []
           | S m => KRow :: List.concat (List.repeat [KRule; KRow] m)
           end
       | BNone => List.repeat KRow n
       end
    ++ [KClose].

(** Column specification of [shown] data columns: a bar at every boundary
    for [BFull], one bar after the row-number column for [BHorizontal], no
    bar for [BNone]. *)
Definition expected_colspec (b : border) (autoNumber : bool) (shown : nat) : string :=
  match b with
  | BFull => "|" ++ repeat "c|" (if autoNumber then S shown else shown)
  | BHorizontal => (if autoNumber then "c|" else "") ++ repeat "c " shown
  | BNone => repeat "c " (if autoNumber then S shown else shown)
  end.

(** ** What the two loops append

    [cat_sep] is the text the loop over [j] appends for the columns below
    [lim]; [chunks] is the text the loop over [i] appends for the rows up to
    [lim]; [unlines] ends every line with a line feed. *)

Fixpoint cat_sep (lim j : Z) (cells : list string) : string :=
  match cells with
  | [] => ""
  | c :: r =>
      (if j <? lim then c ++ (if j <? lim - 1 then " & " else "") else "")
        ++ cat_sep lim (j + 1) r
  end.

Fixpoint unlines (ls : list line) : string :=
  match ls with
  | [] => ""
  | l :: r => render_line l ++ LF ++ unlines r
  end.

Section Chunks.

Variables (style : string) (autoNumber : bool) (fontStyle : string).

Fixpoint chunks (lim : Z) (shown : nat) (i : Z) (texts : list (list string)) : string :=
  match texts with
  | [] => ""
  | t :: rest =>
      (if i <=? lim
       then render_line (LRow (data_cells autoNumber fontStyle i (firstn shown t))) ++ LF
       else "")
        ++ (if ruled style && (i <? lim) then "\hline" ++ LF else "")
        ++ chunks lim shown (i + 1) rest
  end.

End Chunks.

(** ** Character classes of the generated text *)

Fixpoint all_chars (P : ascii -> bool) (s : string) : bool :=
  match s with
  | "" => true
  | String c r => P c && all_chars P r
  end.

Definition is_bs (c : ascii) : bool := Ascii.eqb c "\"%char.
Definition is_amp (c : ascii) : bool := Ascii.eqb c "&"%char.
Definition is_lf (c : ascii) : bool := Ascii.eqb c (ascii_of_nat 10).

(** Neither a separator nor a line feed. *)
Definition quiet_char (c : ascii) : bool := negb (is_amp c) && negb (is_lf c).

(** Quiet and not a backslash. *)
Definition plain_char (c : ascii) : bool := negb (is_bs c) && quiet_char c.

(** Without a line feed. *)
Definition one_line (s : string) : bool := all_chars (fun c => negb (is_lf c)) s.

Definition quiet (s : string) : bool := all_chars quiet_char s.
Definition plain (s : string) : bool := all_chars plain_char s.

(** Every backslash of [s] is followed, in [s], by a character in [P]. *)
Fixpoint bs_then (P : ascii -> bool) (s : string) : bool :=
  match s with
  | "" => true
  | String c r =>
      (if is_bs c then match r with String d _ => P d | "" => false end else true)
        && bs_then P r
  end.

Definition is_t (c : ascii) : bool := Ascii.eqb c "t"%char.
Definition not_char (x c : ascii) : bool := negb (Ascii.eqb c x).

(** A cell: quiet, and a backslash only in front of a [t]. *)
Definition cell_ok (c : string) : bool := quiet c && bs_then is_t c.

Definition line_ok (l : line) : bool :=
  match l with
  | LOpen env spec => plain env && plain spec
  | LRule => true
  | LRow cells => negb (Nat.eqb (List.length cells) 0) && forallb cell_ok cells
  | LClose env => plain env
  end.

Definition kind_of_line (l : line) : line_kind :=
  match l with
  | LOpen _ _ => KOpen
  | LRule => KRule
  | LRow _ => KRow
  | LClose _ => KClose
  end.

Definition cells_of_line (l : line) : list (list string) :=
  match l with
  | LRow cells => [cells]
  | _ => []
  end.

(** Rows of texts that are not empty and hold plain texts only. *)
Definition texts_ok (texts : list (list string)) : bool :=
  forallb (fun t => negb (Nat.eqb (List.length t) 0) && forallb plain t) texts.

(** Cells of the data rows from number [i] on. *)
Fixpoint body_cells (autoNumber : bool) (fontStyle : string) (i : Z)
    (texts : list (list string)) : list (list string) :=
  match texts with
  | [] => []
  | t :: rest =>
      data_cells autoNumber fontStyle i t
        :: body_cells autoNumber fontStyle (i + 1) rest
  end.

(** Line kinds of [n] data rows, with a rule between two rows or without. *)
Definition body_kinds (with_rules : bool) (n : nat) : list line_kind :=
  match n with
  | O => []
  | S m =>
      KRow :: List.concat (List.repeat (if with_rules then [KRule; KRow] else [KRow]) m)
  end.

(** ** Reading a numeric cell *)

(** The text after the first point, when there is one. *)
Fixpoint decimals (s : string) : option string :=
  match s with
  | "" => None
  | String c r => if Ascii.eqb c "."%char then Some r else decimals r
  end.

Fixpoint last_char (s : string) : option ascii :=
  match s with
  | "" => None
  | String c "" => Some c
  | String _ r => last_char r
  end.

(** Digits with at most one point; after the point one to four digits, the
    last of which is not a zero. *)
Definition short_decimal (s : string) : bool :=
  all_chars (fun c => is_digit c || Ascii.eqb c "."%char) s
  && match decimals s with
     | None => negb (String.eqb s "")
     | Some f =>
         all_chars is_digit f
         && (1 <=? String.length f)%nat && (String.length f <=? 4)%nat
         && match last_char f with
            | Some c => negb (Ascii.eqb c "0"%char)
            | None => false
            end
     end.

Definition same_value (v : flt) (q : Q) : bool :=
  match v with
  | FNaN => false
  | Fin p => Qeq_bool p q
  end.

(** What holds of the value and the text obtained from the integer [n]
    that [toFixed] chose. *)
Definition fixed_ok (n : Z) : bool :=
  match parseFloat (with_point4 n) with
  | FNaN => false
  | Fin q =>
      (Qnum q =? n) && (Pos.eqb (Qden q) 10000)
      && short_decimal (Number_toString (Fin q))
      && same_value (parseFloat (Number_toString (Fin q))) q
  end.

(** A text that a numeric cell can hold: a short decimal that denotes
    [n / 10^4] for an integer [n] from 0 to 10000. *)
Definition numeric_text (t : string) : Prop :=
  exists n : Z,
    0 <= n <= 10000
    /\ short_decimal t = true
    /\ same_value (parseFloat t) (n # 10000) = true.

(** ** Words of the properties *)

(** One more cell, or row, when the option is set. *)
Definition extra (b : bool) : nat := if b then 1%nat else 0%nat.

(** A text that a numeric cell holds: the text of the value of a draw. *)
Definition drawn_text (rnd : nat -> Q) (t : string) : Prop :=
  exists k : nat, t = Number_toString (generateRandomValue (rnd k)) /\ numeric_text t.

Definition is_kind (k1 k2 : line_kind) : bool :=
  match k1, k2 with
  | KOpen, KOpen | KRule, KRule | KRow, KRow | KClose, KClose | KOther, KOther => true
  | _, _ => false
  end.

Definition count_kind (k : line_kind) (ks : list line_kind) : nat :=
  List.length (filter (is_kind k) ks).

(** A state before the first click: no variable assigned, nothing shown. *)
Definition vars0 : Vars :=
  mkVars NaN NaN "" false false "" false 0 0 0 0 "" "".

Definition world0 (f : Form) : World :=
  mkWorld f vars0 "" "" [] 0.

(** ** Words of the further properties *)

(** A cell made by [applyFontStyle] from a plain text. *)
Definition styled (fontStyle c : string) : Prop :=
  exists t : string,
    plain t = true
    /\ c = if String.eqb fontStyle "bold" then "\textbf{" ++ t ++ "}" else t.

(** Neither [<] nor [>]. *)
Definition markup_free (c : ascii) : bool :=
  negb (Ascii.eqb c "<"%char) && negb (Ascii.eqb c ">"%char).

Definition clean (s : string) : bool := all_chars markup_free s.

(** Every [&] of [s] is followed, in [s], by a space. *)
Fixpoint amp_then_space (s : string) : bool :=
  match s with
  | "" => true
  | String c r =>
      (if is_amp c
       then match r with String d _ => Ascii.eqb d " "%char | "" => false end
       else true)
        && amp_then_space r
  end.

(** A line whose texts hold neither [<] nor [>]. *)
Definition line_clean (l : line) : bool :=
  match l with
  | LOpen env spec => clean env && clean spec
  | LRule => true
  | LRow cells => forallb clean cells
  | LClose env => clean env
  end.

(** Value of the digits of [u] read after the value [acc]. *)
Fixpoint uint_value (acc : Z) (u : Decimal.uint) : Z :=
  match u with
  | Decimal.Nil => acc
  | Decimal.D0 l => uint_value (acc * 10 + 0) l
  | Decimal.D1 l => uint_value (acc * 10 + 1) l
  | Decimal.D2 l => uint_value (acc * 10 + 2) l
  | Decimal.D3 l => uint_value (acc * 10 + 3) l
  | Decimal.D4 l => uint_value (acc * 10 + 4) l
  | Decimal.D5 l => uint_value (acc * 10 + 5) l
  | Decimal.D6 l => uint_value (acc * 10 + 6) l
  | Decimal.D7 l => uint_value (acc * 10 + 7) l
  | Decimal.D8 l => uint_value (acc * 10 + 8) l
  | Decimal.D9 l => uint_value (acc * 10 + 9) l
  end.

(** The text does not go on with a decimal digit. *)
Definition no_digit_next (s : string) : bool :=
  match s with
  | "" => true
  | String c _ => negb (is_digit c)
  end.

(** The text does not go on with [x] or [X]. *)
Definition no_x_next (s : string) : bool :=
  match s with
  | "" => true
  | String c _ => negb (Ascii.eqb c "x"%char) && negb (Ascii.eqb c "X"%char)
  end.

(** ** JSON, as the settings are stored

    [saveSettings] writes [JSON.stringify] of an object of four strings and
    three booleans; [loadSettings] reads whatever text is stored with
    [JSON.parse].  A string is the UTF-8 text as before; a code unit that a
    [\u] escape names alone (half of a surrogate pair) is written in the
    same three-byte form as the other code points below 65536. *)

Module Json.

#[warnings="-register-all"] Inductive json : Type :=
| JNull
| JBool (b : bool)
| JNum (q : Q)
| JStr (s : string)
| JArr (items : list json)
| JObj (members : list (string * json)).

(** The quotation mark. *)
Definition dq : ascii := ascii_of_nat 34.

Definition byte (z : Z) : ascii := ascii_of_nat (Z.to_nat z).

Definition hex_digit (z : Z) : ascii :=
  if z <? 10 then byte (48 + z) else byte (87 + z).

(** [QuoteJSONString] for one character: the two-character escapes, [\u00XX]
    for the other control characters, and the character itself
    otherwise.  The text of a field is taken to be Unicode text, which
    holds no unpaired surrogate; for such a code unit [JSON.stringify]
    writes a [\u] escape instead, which is parsed to the same string. *)
Definition escape_char (c : ascii) : string :=
  let n := code c in
  if n =? 8 then "\b"
  else if n =? 9 then "\t"
  else if n =? 10 then "\n"
  else if n =? 12 then "\f"
  else if n =? 13 then "\r"
  else if n =? 34 then String "\" (String dq "")
  else if n =? 92 then "\\"
  else if n <? 32 then
    "\u00" ++ String (hex_digit (n / 16)) (String (hex_digit (n mod 16)) "")
  else String c "".

Fixpoint escape (s : string) : string :=
  match s with
  | "" => ""
  | String c r => escape_char c ++ escape r
  end.

Definition quote (s : string) : string :=
  String dq (escape s ++ String dq "").

Definition bool_text (b : bool) : string := if b then "true" else "false".

(** The generalized UTF-8 form of a code point. *)
Definition utf8 (cp : Z) : string :=
  if cp <? 128 then String (byte cp) ""
  else if cp <? 2048 then
    String (byte (192 + cp / 64)) (String (byte (128 + cp mod 64)) "")
  else if cp <? 65536 then
    String (byte (224 + cp / 4096))
      (String (byte (128 + (cp / 64) mod 64)) (String (byte (128 + cp mod 64)) ""))
  else
    String (byte (240 + cp / 262144))
      (String (byte (128 + (cp / 4096) mod 64))
         (String (byte (128 + (cp / 64) mod 64)) (String (byte (128 + cp mod 64)) ""))).

(** *** The parser: one step for each character *)

(** A container that is being read; [key] is the key whose value is
    awaited. *)
Inductive frame : Type :=
| FArr (items : list json)
| FObj (members : list (string * json)) (key : option string).

(** What may come next between two tokens. *)
Inductive expect : Type :=
| XValue
| XValueOrClose
| XKey
| XKeyOrClose
| XColon (key : string)
| XComma
| XEnd.

Inductive nphase : Type :=
| NMinus | NZero | NInt | NDot | NFrac | NE | NESign | NExp.

(** A number that is being read: sign, digits read as an integer, number of
    digits after the point, sign and value of the exponent. *)
Record numacc : Type := mkNum {
  nneg : bool;
  mant : Z;
  fdigits : Z;
  eneg : bool;
  expo : Z
}.

(** What is being read: nothing, a string (with the first half of a
    surrogate pair that a [\u] escape may have left), an escape, the
    digits of a [\u] escape, the rest of a literal name, or a number. *)
Inductive mode : Type :=
| MIdle
| MStr (acc : string) (pend : option Z)
| MEsc (acc : string) (pend : option Z)
| MHex (acc : string) (pend : option Z) (k : nat) (v : Z)
| MLit (rest : string) (v : json)
| MNum (ph : nphase) (n : numacc).

Inductive pstate : Type :=
| PErr
| PRun (m : mode) (x : expect) (stack : list frame) (res : option json).

Definition num_value (n : numacc) : Q :=
  let e := (if eneg n then - expo n else expo n) - fdigits n in
  let m := if nneg n then - mant n else mant n in
  if 0 <=? e then inject_Z (m * 10 ^ e) else Qmake m (Z.to_pos (10 ^ (- e))).

Definition final_phase (ph : nphase) : bool :=
  match ph with
  | NZero | NInt | NFrac | NExp => true
  | _ => false
  end.

(** A finished value goes to the container on top of the stack, or is the
    result. *)
Definition deliver (v : json) (stack : list frame) : pstate :=
  match stack with
  | [] => PRun MIdle XEnd [] (Some v)
  | FArr items :: st => PRun MIdle XComma (FArr (items ++ [v]) :: st) None
  | FObj members (Some k) :: st =>
      PRun MIdle XComma (FObj (members ++ [(k, v)]) None :: st) None
  | FObj _ None :: _ => PErr
  end.

Definition is_space (c : ascii) : bool :=
  (code c =? 32) || (code c =? 9) || (code c =? 10) || (code c =? 13).

Definition num0 (neg : bool) (m : Z) : numacc := mkNum neg m 0 false 0.

(** The start of a value. *)
Definition start_value (c : ascii) (x : expect) (stack : list frame) : pstate :=
  let n := code c in
  if n =? 123 then PRun MIdle XKeyOrClose (FObj [] None :: stack) None
  else if n =? 91 then PRun MIdle XValueOrClose (FArr [] :: stack) None
  else if n =? 34 then PRun (MStr "" None) x stack None
  else if n =? 45 then PRun (MNum NMinus (num0 true 0)) x stack None
  else if n =? 48 then PRun (MNum NZero (num0 false 0)) x stack None
  else if (49 <=? n) && (n <=? 57) then PRun (MNum NInt (num0 false (n - 48))) x stack None
  else if n =? 116 then PRun (MLit "rue" (JBool true)) x stack None
  else if n =? 102 then PRun (MLit "alse" (JBool false)) x stack None
  else if n =? 110 then PRun (MLit "ull" JNull) x stack None
  else PErr.

Definition close_array (stack : list frame) : pstate :=
  match stack with
  | FArr items :: st => deliver (JArr items) st
  | _ => PErr
  end.

Definition close_object (stack : list frame) : pstate :=
  match stack with
  | FObj members None :: st => deliver (JObj members) st
  | _ => PErr
  end.

(** A character between two tokens. *)
Definition step_idle (x : expect) (stack : list frame) (res : option json)
    (c : ascii) : pstate :=
  if is_space c then PRun MIdle x stack res
  else
    let n := code c in
    match x with
    | XValue => start_value c x stack
    | XValueOrClose => if n =? 93 then close_array stack else start_value c XValue stack
    | XKey => if n =? 34 then PRun (MStr "" None) XKey stack None else PErr
    | XKeyOrClose =>
        if n =? 34 then PRun (MStr "" None) XKey stack None
        else if n =? 125 then close_object stack
        else PErr
    | XColon k =>
        if n =? 58 then
          match stack with
          | FObj members None :: st => PRun MIdle XValue (FObj members (Some k) :: st) None
          | _ => PErr
          end
        else PErr
    | XComma =>
        if n =? 44 then
          match stack with
          | FArr _ :: _ => PRun MIdle XValue stack None
          | FObj _ _ :: _ => PRun MIdle XKey stack None
          | [] => PErr
          end
        else if n =? 93 then close_array stack
        else if n =? 125 then close_object stack
        else PErr
    | XEnd => PErr
    end.

(** The text of a pending first half of a pair that no second half
    followed. *)
Definition flush (pend : option Z) : string :=
  match pend with
  | Some h => utf8 h
  | None => ""
  end.

(** The end of a string: a key where a key is awaited, a value
    otherwise. *)
Definition end_string (s : string) (x : expect) (stack : list frame) : pstate :=
  match x with
  | XKey | XKeyOrClose => PRun MIdle (XColon s) stack None
  | _ => deliver (JStr s) stack
  end.

(** The code unit [v] of a [\u] escape joins the string. *)
Definition add_unit (acc : string) (pend : option Z) (v : Z) : mode :=
  if (55296 <=? v) && (v <=? 56319) then MStr (acc ++ flush pend) (Some v)
  else if (56320 <=? v) && (v <=? 57343) then
    match pend with
    | Some h => MStr (acc ++ utf8 (65536 + (h - 55296) * 1024 + (v - 56320))) None
    | None => MStr (acc ++ utf8 v) None
    end
  else MStr (acc ++ flush pend ++ utf8 v) None.

Definition is_dec (n : Z) : bool := (48 <=? n) && (n <=? 57).

(** A character that goes on with the number, if it does. *)
Definition step_num (ph : nphase) (a : numacc) (c : ascii) : option mode :=
  let n := code c in
  let digit := n - 48 in
  match ph with
  | NMinus =>
      if n =? 48 then Some (MNum NZero a)
      else if (49 <=? n) && (n <=? 57)
      then Some (MNum NInt (mkNum (nneg a) digit 0 false 0))
      else None
  | NZero =>
      if n =? 46 then Some (MNum NDot a)
      else if (n =? 101) || (n =? 69) then Some (MNum NE a)
      else None
  | NInt =>
      if is_dec n
      then Some (MNum NInt (mkNum (nneg a) (mant a * 10 + digit) 0 false 0))
      else if n =? 46 then Some (MNum NDot a)
      else if (n =? 101) || (n =? 69) then Some (MNum NE a)
      else None
  | NDot =>
      if is_dec n
      then Some (MNum NFrac (mkNum (nneg a) (mant a * 10 + digit) (fdigits a + 1) false 0))
      else None
  | NFrac =>
      if is_dec n
      then Some (MNum NFrac (mkNum (nneg a) (mant a * 10 + digit) (fdigits a + 1) false 0))
      else if (n =? 101) || (n =? 69) then Some (MNum NE a)
      else None
  | NE =>
      if n =? 43 then Some (MNum NESign a)
      else if n =? 45
      then Some (MNum NESign (mkNum (nneg a) (mant a) (fdigits a) true 0))
      else if is_dec n
      then Some (MNum NExp (mkNum (nneg a) (mant a) (fdigits a) (eneg a) digit))
      else None
  | NESign =>
      if is_dec n
      then Some (MNum NExp (mkNum (nneg a) (mant a) (fdigits a) (eneg a) digit))
      else None
  | NExp =>
      if is_dec n
      then Some (MNum NExp (mkNum (nneg a) (mant a) (fdigits a) (eneg a)
                              (expo a * 10 + digit)))
      else None
  end.

(** One character. *)
Definition step (st : pstate) (c : ascii) : pstate :=
  match st with
  | PErr => PErr
  | PRun m x stack res =>
      let n := code c in
      match m with
      | MIdle => step_idle x stack res c
      | MStr acc pend =>
          if n =? 34 then end_string (acc ++ flush pend) x stack
          else if n =? 92 then PRun (MEsc acc pend) x stack res
          else if n <? 32 then PErr
          else PRun (MStr (acc ++ flush pend ++ String c "") None) x stack res
      | MEsc acc pend =>
          let plain z := PRun (MStr (acc ++ flush pend ++ String (byte z) "") None) x stack res in
          if n =? 34 then plain 34
          else if n =? 92 then plain 92
          else if n =? 47 then plain 47
          else if n =? 98 then plain 8
          else if n =? 102 then plain 12
          else if n =? 110 then plain 10
          else if n =? 114 then plain 13
          else if n =? 116 then plain 9
          else if n =? 117 then PRun (MHex acc pend 0 0) x stack res
          else PErr
      | MHex acc pend k v =>
          match digit_val 16 c with
          | Some h =>
              match k with
              | 3%nat => PRun (add_unit acc pend (v * 16 + h)) x stack res
              | _ => PRun (MHex acc pend (S k) (v * 16 + h)) x stack res
              end
          | None => PErr
          end
      | MLit rest v =>
          match rest with
          | String e r =>
              if Ascii.eqb c e then
                match r with
                | "" => deliver v stack
                | _ => PRun (MLit r v) x stack res
                end
              else PErr
          | "" => PErr
          end
      | MNum ph a =>
          match step_num ph a c with
          | Some m' => PRun m' x stack res
          | None =>
              if final_phase ph then
                match deliver (JNum (num_value a)) stack with
                | PRun _ x' stack' res' => step_idle x' stack' res' c
                | PErr => PErr
                end
              else PErr
          end
      end
  end.

Fixpoint run (st : pstate) (s : string) : pstate :=
  match s with
  | "" => st
  | String c r => run (step st c) r
  end.

(** The result at the end of the text. *)
Definition finish (st : pstate) : option json :=
  match st with
  | PRun MIdle XEnd [] (Some v) => Some v
  | PRun (MNum ph a) _ [] _ => if final_phase ph then Some (JNum (num_value a)) else None
  | _ => None
  end.

(** [JSON.parse(text)]: the value, or [None] for the SyntaxError. *)
Definition parse (text : string) : option json :=
  finish (run (PRun MIdle XValue [] None) text).

(** [v[key]] for a value that [JSON.parse] made: the last member with this
    key of an object, and [None], for undefined, otherwise. *)
Fixpoint lookup (key : string) (members : list (string * json)) : option json :=
  match members with
  | [] => None
  | (k, v) :: r =>
      match lookup key r with
      | Some v' => Some v'
      | None => if String.eqb k key then Some v else None
      end
  end.

Definition get (v : json) (key : string) : option json :=
  match v with
  | JObj members => lookup key members
  | _ => None
  end.

(** [ToBoolean]: a number is false when its double is zero, that is when
    its magnitude is at most 2^-1075. *)
Definition truthy (v : json) : bool :=
  match v with
  | JNull => false
  | JBool b => b
  | JNum q => negb (Qle_bool (Qabs.Qabs q) (1 # (2 ^ 1075)))
  | JStr s => negb (String.eqb s "")
  | JArr _ => true
  | JObj _ => true
  end.

(** [ToBoolean] of a property that may be undefined. *)
Definition to_boolean (v : option json) : bool :=
  match v with
  | Some v => truthy v
  | None => false
  end.

End Json.

(** ** The page: the handlers beside the generator

    The page keeps, beside the world of the generator, the item
    [tableSettings] of [localStorage] ([None] when it was never written)
    and the files handed to the browser for download.  The copy handler
    ([document.execCommand]) stays outside: what it puts on the clipboard
    depends on the browser's selection. *)

Record Page : Type := mkPage {
  world : World;
  item : option string;            (* localStorage.getItem("tableSettings") *)
  files : list (string * string)   (* name and text of each download, oldest first *)
}.

(** The four fields whose [value] is assigned by [loadSettings]. *)
Inductive control : Type := CRows | CColumns | CStyle | CFontStyle.

Definition member (key text : string) : string :=
  Json.quote key ++ ":" ++ text.

(** [JSON.stringify(settings)] for the object [saveSettings] builds: the
    properties in the order they were written, no white space. *)
Definition settings_text (f : Form) : string :=
  "{" ++ join ","
           [ member "rows" (Json.quote (rows_value f));
             member "columns" (Json.quote (columns_value f));
             member "style" (Json.quote (style_value f));
             member "hasHeader" (Json.bool_text (header_checked f));
             member "autoNumber" (Json.bool_text (autoNumber_checked f));
             member "fontStyle" (Json.quote (fontStyle_value f));
             member "isNumeric" (Json.bool_text (isNumeric_checked f)) ]
      ++ "}".

Definition saveSettings (p : Page) : Page :=
  mkPage (world p) (Some (settings_text (form (world p)))) (files p).

Definition set_form (w : World) (f : Form) : World :=
  mkWorld f (vars w) (output_value w) (tablePreview w) (alerts w) (draws w).

(** A click on the generate button runs its two listeners in the order they
    were added: the generator, then [saveSettings]. *)
Definition generate (rnd : nat -> Q) (p : Page) : Page :=
  saveSettings (mkPage (click rnd (world p)) (item p) (files p)).

Definition downloadBtn (p : Page) : Page :=
  mkPage (world p) (item p) (files p ++ [("table.tex", output_value (world p))]).

Section Handlers.

(** What [form.reset()] makes of the seven fields: the defaults of the
    document for the fields that belong to the form. *)
Variable reset_fields : Form -> Form.

(** The [value] a field has after [field.value = v], where [v] is a
    property of the parsed settings or [None] for undefined: the field's
    own conversion and sanitization of the value. *)
Variable assign : control -> option Json.json -> string.

Definition resetBtn (p : Page) : Page :=
  let w := world p in
  mkPage (mkWorld (reset_fields (form w)) (vars w) "" "" (alerts w) (draws w))
    (item p) (files p).

(** [loadSettings]; [None] when [JSON.parse] throws, which happens before
    any field is assigned.  A missing item is [null], which [JSON.parse]
    reads as the text [null]. *)
Definition loadSettings (p : Page) : option Page :=
  let text := match item p with Some t => t | None => "null" end in
  match Json.parse text with
  | None => None
  | Some settings =>
      if Json.truthy settings then
        Some (mkPage
                (set_form (world p)
                   (mkForm (assign CRows (Json.get settings "rows"))
                      (assign CColumns (Json.get settings "columns"))
                      (assign CStyle (Json.get settings "style"))
                      (Json.to_boolean (Json.get settings "hasHeader"))
                      (Json.to_boolean (Json.get settings "autoNumber"))
                      (assign CFontStyle (Json.get settings "fontStyle"))
                      (Json.to_boolean (Json.get settings "isNumeric"))))
                (item p) (files p))
      else Some p
  end.

Inductive event : Type := Generate | Reset | Download.

Definition handle (rnd : nat -> Q) (e : event) (p : Page) : Page :=
  match e with
  | Generate => generate rnd p
  | Reset => resetBtn p
  | Download => downloadBtn p
  end.

(** The page after the events of [es], first to last. *)
Fixpoint session (rnd : nat -> Q) (es : list event) (p : Page) : Page :=
  match es with
  | [] => p
  | e :: r => session rnd r (handle rnd e p)
  end.

(** Each text field takes back the value it holds. *)
Definition accepts (f : Form) : Prop :=
  assign CRows (Some (Json.JStr (rows_value f))) = rows_value f
  /\ assign CColumns (Some (Json.JStr (columns_value f))) = columns_value f
  /\ assign CStyle (Some (Json.JStr (style_value f))) = style_value f
  /\ assign CFontStyle (Some (Json.JStr (fontStyle_value f))) = fontStyle_value f.

End Handlers.

(** The object [saveSettings] builds, as [JSON.parse] gives it back. *)
Definition settings_object (f : Form) : Json.json :=
  Json.JObj
    [ ("rows", Json.JStr (rows_value f));
      ("columns", Json.JStr (columns_value f));
      ("style", Json.JStr (style_value f));
      ("hasHeader", Json.JBool (header_checked f));
      ("autoNumber", Json.JBool (autoNumber_checked f));
      ("fontStyle", Json.JStr (fontStyle_value f));
      ("isNumeric", Json.JBool (isNumeric_checked f)) ].

(** Every state the parser goes through on [s] from [st] is inside a
    container, or the error. *)
Definition inside (st : Json.pstate) : bool :=
  match st with
  | Json.PErr => true
  | Json.PRun _ _ (_ :: _) _ => true
  | Json.PRun _ _ [] _ => false
  end.

Fixpoint guarded (st : Json.pstate) (s : string) : bool :=
  inside st &&
  match s with
  | "" => true
  | String c r => guarded (Json.step st c) r
  end.

(** The characters a JSON value can start with. *)
Definition opens_value (c : ascii) : bool :=
  existsb (Ascii.eqb c)
    (list_ascii_of_string "{[-0123456789tfn" ++ [Json.dq]).

Definition is_download (e : event) : bool :=
  match e with
  | Download => true
  | _ => false
  end.

(** Texts that [JSON.parse] reads as a value that is false in a
    condition: null, false, zero with either sign, the empty string. *)
Definition falsy_texts : list string :=
  ["null"; "false"; "0"; "-0"; "0.0"; Json.quote ""].

(** The field that takes every string as it is, and the empty string for
    anything else. *)
Definition text_field (c : control) (v : option Json.json) : string :=
  match v with
  | Some (Json.JStr s) => s
  | _ => ""
  end.

(** [walk st s st']: the parser goes from [st] to [st'] on [s], and never
    leaves the containers it is in on the way. *)
Definition walk (st : Json.pstate) (s : string) (st' : Json.pstate) : Prop :=
  Json.run st s = st' /\ guarded st s = true.

(** The text between the braces. *)
Definition settings_body (f : Form) : string :=
  member "rows" "" ++ Json.quote (rows_value f) ++ ","
  ++ member "columns" "" ++ Json.quote (columns_value f) ++ ","
  ++ member "style" "" ++ Json.quote (style_value f) ++ ","
  ++ member "hasHeader" "" ++ Json.bool_text (header_checked f) ++ ","
  ++ member "autoNumber" "" ++ Json.bool_text (autoNumber_checked f) ++ ","
  ++ member "fontStyle" "" ++ Json.quote (fontStyle_value f) ++ ","
  ++ member "isNumeric" "" ++ Json.bool_text (isNumeric_checked f).

(** * Proofs *)

(** ** Strings *)

Lemma sapp_assoc (a b c : string) : (a ++ b) ++ c = a ++ b ++ c.
Proof. induction a as [|x a IH]; simpl; [reflexivity | now rewrite IH]. Qed.

Lemma sapp_nil_r (a : string) : a ++ "" = a.
Proof. induction a as [|x a IH]; simpl; [reflexivity | now rewrite IH]. Qed.

Lemma slength_app (a b : string) :
  String.length (a ++ b) = (String.length a + String.length b)%nat.
Proof. induction a as [|x a IH]; simpl; [reflexivity | now rewrite IH]. Qed.

Lemma range_length (n : nat) : forall i, List.length (range i n) = n.
Proof. induction n as [|n IH]; intros i; simpl; [reflexivity | now rewrite IH]. Qed.

Lemma join_cons (sep x : string) (l : list string) :
  l <> [] -> join sep (x :: l) = x ++ sep ++ join sep l.
Proof. destruct l; [congruence | reflexivity]. Qed.

Lemma render_snoc (ls : list line) (l : line) :
  render (ls ++ [l]) = unlines ls ++ render_line l.
Proof.
  unfold render. induction ls as [|a ls IH]; [reflexivity|].
  cbn [app map unlines]. rewrite join_cons by (destruct ls; discriminate).
  now rewrite IH, !sapp_assoc.
Qed.

Lemma unlines_app (a b : list line) : unlines (a ++ b) = unlines a ++ unlines b.
Proof.
  induction a as [|x a IH]; simpl; [reflexivity|].
  now rewrite IH, !sapp_assoc.
Qed.

(** ** The loops build the layout *)

Section LoopLemmas.

Variable rnd : nat -> Q.
Variables (columns previewColumns : Z) (fontStyle : string) (isNumeric : bool).

Lemma row_texts_length (n : nat) :
  forall d j, List.length (row_texts rnd isNumeric d j n) = n.
Proof. induction n as [|n IH]; intros d j; simpl; [reflexivity | now rewrite IH]. Qed.

(** The loop over [j] appends the styled texts of the row, a separator
    after each one but the last. *)
Lemma cells_loop (n : nat) :
  forall j ro rp d,
    j + Z.of_nat n <= columns ->
    for_loop n j (cell_step rnd columns previewColumns fontStyle isNumeric)
      (ro, rp, d)
    = (ro ++ cat_sep columns j
               (map (fun t => applyFontStyle t fontStyle)
                    (row_texts rnd isNumeric d j n)),
       rp ++ cat_sep previewColumns j
               (map (fun t => applyFontStyle t fontStyle)
                    (row_texts rnd isNumeric d j n)),
       if isNumeric then (d + n)%nat else d).
Proof.
  induction n as [|n IH]; intros j ro rp d Hj.
  - simpl. rewrite !sapp_nil_r. destruct isNumeric; f_equal; lia.
  - cbn [for_loop row_texts map cat_sep].
    assert (Hlt : (j <? columns) = true) by (apply Z.ltb_lt; lia).
    rewrite Hlt. unfold cell_step at 2. unfold cell_text.
    destruct isNumeric.
    + rewrite IH by lia.
      destruct (j <? previewColumns); rewrite ?sapp_assoc; cbn [append];
        f_equal; lia.
    + rewrite IH by lia.
      destruct (j <? previewColumns); rewrite ?sapp_assoc; cbn [append];
        reflexivity.
Qed.

End LoopLemmas.

Lemma cat_sep_join (lim : Z) (cells : list string) :
  forall j, lim <= j + Z.of_nat (List.length cells) ->
    cat_sep lim j cells = join " & " (firstn (Z.to_nat (lim - j)) cells).
Proof.
  induction cells as [|c r IH]; intros j H.
  - simpl. now rewrite firstn_nil.
  - cbn [cat_sep]. cbn [List.length] in H.
    destruct (Z.ltb_spec j lim) as [Hlt|Hge].
    + replace (Z.to_nat (lim - j)) with (S (Z.to_nat (lim - (j + 1)))) by lia.
      cbn [firstn]. rewrite IH by lia.
      destruct (Z.ltb_spec j (lim - 1)) as [Hlt'|Hge'].
      * rewrite join_cons, sapp_assoc; [reflexivity|].
        destruct r as [|c2 r]; [cbn [List.length] in H; lia|].
        replace (Z.to_nat (lim - (j + 1))) with (S (Z.to_nat (lim - (j + 1) - 1))) by lia.
        cbn [firstn]. discriminate.
      * replace (Z.to_nat (lim - (j + 1))) with O by lia.
        cbn [firstn join]. now rewrite !sapp_nil_r.
    + replace (Z.to_nat (lim - j)) with O by lia.
      cbn [firstn join append]. rewrite IH by lia.
      replace (Z.to_nat (lim - (j + 1))) with O by lia. reflexivity.
Qed.

Ltac str_norm :=
  cbn [render_line]; unfold row_end, cell_sep;
  repeat (rewrite sapp_assoc || rewrite sapp_nil_r); cbn [append].

Section RowLemmas.

Variable rnd : nat -> Q.
Variables (columns previewColumns : Z) (fontStyle : string) (isNumeric : bool).
Variables (rows previewRows : Z) (style : string) (autoNumber : bool).

Hypothesis Hcols : 0 < columns.
Hypothesis Hpc : 1 <= previewColumns <= columns.
Hypothesis Hpr : previewRows <= rows.

Let ncols := Z.to_nat columns.
Let pcn := Z.to_nat previewColumns.

Lemma row_line_cells (i : Z) (texts : list string) :
  texts <> [] ->
  (if autoNumber then applyFontStyle (Z_toString i) fontStyle ++ " & " else "")
    ++ join " & " (map (fun t => applyFontStyle t fontStyle) texts)
  = join cell_sep (data_cells autoNumber fontStyle i texts).
Proof.
  intros Hne. unfold data_cells, cell_sep. destruct autoNumber.
  - cbn [app]. rewrite join_cons; [now rewrite sapp_assoc|].
    destruct texts; [congruence | discriminate].
  - reflexivity.
Qed.

Lemma firstn_row_nonempty (k : nat) (d : nat) :
  (1 <= k)%nat -> firstn k (row_texts rnd isNumeric d 0 ncols) <> [].
Proof.
  intros Hk. destruct k as [|k]; [lia|].
  pose proof (row_texts_length rnd isNumeric ncols d 0) as Hl.
  destruct (row_texts rnd isNumeric d 0 ncols); [cbn in Hl; lia | discriminate].
Qed.

(** One pass of the loop over [i]. *)
Lemma row_step_eq (i : Z) (lo lp : string) (d : nat) :
  i <= rows ->
  row_step rnd columns previewColumns fontStyle isNumeric
    rows previewRows style autoNumber i (lo, lp, d)
  = (lo ++ (render_line
              (LRow (data_cells autoNumber fontStyle i
                       (firstn ncols (row_texts rnd isNumeric d 0 ncols)))) ++ LF)
        ++ (if ruled style && (i <? rows) then "\hline" ++ LF else ""),
     lp ++ (if i <=? previewRows
            then render_line
                   (LRow (data_cells autoNumber fontStyle i
                            (firstn pcn (row_texts rnd isNumeric d 0 ncols)))) ++ LF
            else "")
        ++ (if ruled style && (i <? previewRows) then "\hline" ++ LF else ""),
     if isNumeric then (d + ncols)%nat else d).
Proof.
  intros Hi. unfold row_step.
  rewrite cells_loop by (fold ncols; lia).
  fold ncols.
  rewrite !cat_sep_join
    by (rewrite length_map, row_texts_length; unfold ncols; lia).
  rewrite !Z.sub_0_r. fold ncols pcn. rewrite !firstn_map.
  rewrite !row_line_cells by (apply firstn_row_nonempty; unfold ncols, pcn; lia).
  unfold ruled.
  destruct (String.eqb_spec style "horizontal") as [Hh|Hh];
    destruct (String.eqb_spec style "full") as [Hf|Hf];
    [rewrite Hh in Hf; discriminate | | | ];
    cbn [orb andb];
    destruct (Z.ltb_spec i rows); destruct (Z.ltb_spec i previewRows);
    destruct (Z.leb_spec i previewRows); try lia;
    str_norm; reflexivity.
Qed.

Lemma body_texts_length (n : nat) :
  forall d, List.length (body_texts rnd isNumeric ncols d n) = n.
Proof. induction n as [|n IH]; intros d; simpl; [reflexivity | now rewrite IH]. Qed.

(** The loop over [i] appends the chunks of its rows. *)
Lemma rows_loop (n : nat) :
  forall i lo lp d,
    i + Z.of_nat n - 1 <= rows ->
    for_loop n i
      (row_step rnd columns previewColumns fontStyle isNumeric
         rows previewRows style autoNumber) (lo, lp, d)
    = (lo ++ chunks style autoNumber fontStyle rows ncols i
               (body_texts rnd isNumeric ncols d n),
       lp ++ chunks style autoNumber fontStyle previewRows pcn i
               (body_texts rnd isNumeric ncols d n),
       if isNumeric then (d + n * ncols)%nat else d).
Proof.
  induction n as [|n IH]; intros i lo lp d Hn.
  - simpl. rewrite !sapp_nil_r. destruct isNumeric; f_equal; lia.
  - cbn [for_loop body_texts chunks].
    rewrite row_step_eq by lia. rewrite IH by lia.
    assert (Hle : (i <=? rows) = true) by (apply Z.leb_le; lia).
    rewrite Hle. rewrite !sapp_assoc.
    destruct isNumeric; f_equal; lia.
Qed.

End RowLemmas.

Section ChunkLemmas.

Variables (style : string) (autoNumber : bool) (fontStyle : string).

(** The chunks of the rows up to [lim] are the lines of these rows with a
    rule between two of them. *)
Lemma chunks_body (lim : Z) (shown : nat) (texts : list (list string)) :
  forall i, lim <= i + Z.of_nat (List.length texts) - 1 ->
    chunks style autoNumber fontStyle lim shown i texts
    = unlines (body_lines style autoNumber fontStyle i
                 (crop (Z.to_nat (lim - i + 1)) shown texts)).
Proof.
  induction texts as [|t rest IH]; intros i H.
  - unfold crop. now rewrite firstn_nil.
  - cbn [chunks]. cbn [List.length] in H. rewrite IH by lia.
    destruct (Z.leb_spec i lim) as [Hle|Hgt].
    + replace (Z.to_nat (lim - i + 1)) with (S (Z.to_nat (lim - (i + 1) + 1))) by lia.
      unfold crop. cbn [firstn map body_lines].
      destruct (Z.ltb_spec i lim) as [Hlt|Hge].
      * destruct rest as [|t2 rest]; [cbn [List.length] in H; lia|].
        replace (Z.to_nat (lim - (i + 1) + 1))
          with (S (Z.to_nat (lim - (i + 1)))) by lia.
        cbn [firstn map unlines]. rewrite andb_true_r.
        destruct (ruled style); cbn [app unlines]; str_norm; reflexivity.
      * replace (Z.to_nat (lim - (i + 1) + 1)) with O by lia.
        rewrite andb_false_r. cbn [firstn map unlines body_lines].
        str_norm; reflexivity.
    + replace (Z.to_nat (lim - i + 1)) with O by lia.
      replace (Z.to_nat (lim - (i + 1) + 1)) with O by lia.
      destruct (Z.ltb_spec i lim); [lia|].
      rewrite andb_false_r. reflexivity.
Qed.

End ChunkLemmas.

Lemma firstn_row_texts rnd isNumeric (ncols : nat) (d : nat) (j : Z) :
  firstn ncols (row_texts rnd isNumeric d j ncols) = row_texts rnd isNumeric d j ncols.
Proof. apply firstn_all2. now rewrite row_texts_length. Qed.

Lemma crop_all rnd isNumeric (ncols n : nat) :
  forall d, crop n ncols (body_texts rnd isNumeric ncols d n)
            = body_texts rnd isNumeric ncols d n.
Proof.
  unfold crop. induction n as [|n IH]; intros d; [reflexivity|].
  cbn [body_texts firstn map]. now rewrite IH, firstn_row_texts.
Qed.

Lemma render_layout style hasHeader autoNumber fontStyle env shown texts :
  render (layout style hasHeader autoNumber fontStyle env shown texts)
  = render_line (LOpen env (colspec style autoNumber shown)) ++ LF
      ++ (if String.eqb style "full" then "\hline" ++ LF else "")
      ++ (if hasHeader then
            render_line (LRow (header_cells autoNumber fontStyle shown)) ++ LF
              ++ (if negb (String.eqb style "none") then "\hline" ++ LF else "")
          else "")
      ++ unlines (body_lines style autoNumber fontStyle 1 texts)
      ++ (if String.eqb style "full" then "\hline" ++ LF else "")
      ++ render_line (LClose env).
Proof.
  unfold layout. rewrite !app_assoc, render_snoc, <- !app_assoc.
  rewrite !unlines_app.
  destruct (String.eqb style "full"), hasHeader, (negb (String.eqb style "none"));
    cbn [unlines app]; repeat (rewrite sapp_assoc || rewrite sapp_nil_r);
    reflexivity.
Qed.

(** The handler's header line. *)
Lemma header_line (autoNumber : bool) (fontStyle : string) (shown : Z) :
  1 <= shown ->
  (if autoNumber then applyFontStyle "Numer wiersza" fontStyle ++ " & " else "")
    ++ join " & "
         (Array_from shown
            (fun i => applyFontStyle ("Nagłówek " ++ Z_toString (i + 1)) fontStyle))
  = join cell_sep (header_cells autoNumber fontStyle (Z.to_nat shown)).
Proof.
  intros H. unfold header_cells, Array_from, cell_sep. destruct autoNumber.
  - cbn [app]. rewrite join_cons; [now rewrite sapp_assoc|].
    replace (Z.to_nat shown) with (S (Z.to_nat (shown - 1))) by lia. discriminate.
  - reflexivity.
Qed.

(** The handler's two strings are the renderings of the table and of its
    cropped part. *)
Theorem build_layout rnd d rows columns style hasHeader autoNumber fontStyle isNumeric :
  0 < rows -> 0 < columns ->
  let texts := body_texts rnd isNumeric (Z.to_nat columns) d (Z.to_nat rows) in
  full rnd d rows columns style hasHeader autoNumber fontStyle isNumeric
  = render (layout style hasHeader autoNumber fontStyle "tabular"
              (Z.to_nat columns) texts)
  /\ preview rnd d rows columns style hasHeader autoNumber fontStyle isNumeric
     = render (layout style hasHeader autoNumber fontStyle "array"
                 (Z.to_nat (Z.min columns 5))
                 (crop (Z.to_nat (Z.min rows 5)) (Z.to_nat (Z.min columns 5)) texts)).
Proof.
  intros Hr Hc texts.
  rewrite !render_layout.
  assert (Hfull :
    chunks style autoNumber fontStyle rows (Z.to_nat columns) 1 texts
    = unlines (body_lines style autoNumber fontStyle 1 texts)).
  { rewrite chunks_body by (unfold texts; rewrite body_texts_length; lia).
    replace (Z.to_nat (rows - 1 + 1)) with (Z.to_nat rows) by lia.
    unfold texts. now rewrite crop_all. }
  assert (Hprev :
    chunks style autoNumber fontStyle (Z.min rows 5) (Z.to_nat (Z.min columns 5)) 1 texts
    = unlines (body_lines style autoNumber fontStyle 1
                 (crop (Z.to_nat (Z.min rows 5)) (Z.to_nat (Z.min columns 5)) texts))).
  { rewrite chunks_body by (unfold texts; rewrite body_texts_length; lia).
    now replace (Z.to_nat (Z.min rows 5 - 1 + 1)) with (Z.to_nat (Z.min rows 5)) by lia. }
  assert (Hh1 := header_line autoNumber fontStyle columns ltac:(lia)).
  assert (Hh2 := header_line autoNumber fontStyle (Z.min columns 5) ltac:(lia)).
  unfold full, preview, build.
  assert (Hloop := fun lo lp =>
    rows_loop rnd columns (Z.min columns 5) fontStyle isNumeric rows (Z.min rows 5)
      style autoNumber Hc ltac:(lia) ltac:(lia) (Z.to_nat rows) 1 lo lp d ltac:(lia)).
  fold texts in Hloop.
  unfold colspec.
  destruct (String.eqb style "full") eqn:Ef;
    [| destruct (String.eqb style "horizontal") eqn:Eh];
    destruct (String.eqb style "none") eqn:En;
    destruct hasHeader; destruct autoNumber;
    cbv beta iota zeta; cbn [negb];
    rewrite Hloop; cbv beta iota zeta; cbn [fst latexOutput latexPreview];
    rewrite <- ?Hfull, <- ?Hprev;
    replace (Z.to_nat (columns + 1)) with (S (Z.to_nat columns)) by lia;
    replace (Z.to_nat (Z.min columns 5 + 1)) with (S (Z.to_nat (Z.min columns 5))) by lia;
    replace (columns + 1 - 1) with columns by lia;
    replace (Z.min columns 5 + 1 - 1) with (Z.min columns 5) by lia;
    split; cbn [render_line]; rewrite <- ?Hh1, <- ?Hh2;
    unfold row_end; repeat (rewrite sapp_assoc || rewrite sapp_nil_r);
    reflexivity.
Qed.

(** ** Character classes *)

Lemma all_chars_app P (a b : string) :
  all_chars P (a ++ b) = all_chars P a && all_chars P b.
Proof.
  induction a as [|x a IH]; simpl; [reflexivity|].
  now rewrite IH, andb_assoc.
Qed.

Lemma all_chars_weaken (P Q : ascii -> bool) (s : string) :
  (forall c, P c = true -> Q c = true) ->
  all_chars P s = true -> all_chars Q s = true.
Proof.
  intros HPQ. induction s as [|x s IH]; simpl; [reflexivity|].
  intros H. apply andb_true_iff in H as [H1 H2].
  now rewrite (HPQ _ H1), IH.
Qed.

Lemma plain_quiet (s : string) : plain s = true -> quiet s = true.
Proof.
  apply all_chars_weaken. unfold plain_char. intros c H.
  now apply andb_true_iff in H as [_ H].
Qed.

Lemma plain_bs_then P (s : string) : plain s = true -> bs_then P s = true.
Proof.
  unfold plain. induction s as [|x s IH]; simpl; [reflexivity|].
  intros H. apply andb_true_iff in H as [H1 H2].
  unfold plain_char in H1. apply andb_true_iff in H1 as [H1 _].
  apply negb_true_iff in H1. now rewrite H1, IH.
Qed.

Lemma bs_then_app P (a b : string) :
  bs_then P a = true -> bs_then P b = true -> bs_then P (a ++ b) = true.
Proof.
  intros Ha Hb. induction a as [|x a IH]; [exact Hb|].
  cbn [append bs_then] in *. apply andb_true_iff in Ha as [H1 H2].
  rewrite (IH H2), andb_true_r.
  destruct (is_bs x); [|reflexivity].
  destruct a; [discriminate | exact H1].
Qed.

Lemma plain_app (a b : string) : plain (a ++ b) = plain a && plain b.
Proof. apply all_chars_app. Qed.

Lemma quiet_app (a b : string) : quiet (a ++ b) = quiet a && quiet b.
Proof. apply all_chars_app. Qed.

Lemma plain_cell_ok (s : string) : plain s = true -> cell_ok s = true.
Proof.
  intros H. unfold cell_ok. now rewrite (plain_quiet _ H), (plain_bs_then _ _ H).
Qed.

(** A styled plain text is a cell. *)
Lemma applyFontStyle_ok (t fontStyle : string) :
  plain t = true -> cell_ok (applyFontStyle t fontStyle) = true.
Proof.
  intros H. unfold applyFontStyle.
  destruct (String.eqb fontStyle "bold"); [|now apply plain_cell_ok].
  unfold cell_ok. apply andb_true_iff. split.
  - change ("\textbf{" ++ t ++ "}") with ("\textbf{" ++ (t ++ "}")).
    unfold quiet. cbn [append all_chars].
    rewrite all_chars_app. fold (quiet t). now rewrite (plain_quiet _ H).
  - cbn [append bs_then]. 
    change (bs_then is_t (String "t" (String "e" (String "x" (String "t"
             (String "b" (String "f" (String "{" (t ++ "}")))))))))
      with (bs_then is_t (t ++ "}")).
    rewrite bs_then_app; [reflexivity | now apply plain_bs_then | reflexivity].
Qed.

Lemma plain_uint (u : Decimal.uint) : plain (NilEmpty.string_of_uint u) = true.
Proof. induction u; simpl; auto. Qed.

Lemma plain_Z_toString (z : Z) : plain (Z_toString z) = true.
Proof.
  unfold Z_toString. destruct (Z.to_int z) as [u|u]; simpl.
  - apply plain_uint.
  - apply plain_uint.
Qed.

Lemma plain_frac_digits (fuel : nat) : forall r, plain (frac_digits fuel r) = true.
Proof.
  induction fuel as [|f IH]; intros r; simpl; [reflexivity|].
  destruct (Qeq_bool r 0); [reflexivity|].
  now rewrite plain_app, plain_Z_toString, IH.
Qed.

Lemma plain_Number_toString (v : flt) : plain (Number_toString v) = true.
Proof.
  destruct v as [|q]; [reflexivity|]. unfold Number_toString.
  destruct (Qlt_le_dec q 0); rewrite !plain_app, plain_Z_toString;
    match goal with |- context [Qeq_bool ?r 0] => destruct (Qeq_bool r 0) end;
    rewrite ?plain_app, ?plain_frac_digits; reflexivity.
Qed.

(** ** Lines, rows and cells of a rendered table *)

Lemma split_lines_one (a : string) : one_line a = true -> split_lines a = [a].
Proof.
  unfold one_line. induction a as [|x a IH]; [reflexivity|].
  cbn [all_chars split_lines]. intros H. apply andb_true_iff in H as [H1 H2].
  unfold is_lf in H1. apply negb_true_iff in H1. now rewrite H1, (IH H2).
Qed.

Lemma split_lines_app (a b : string) :
  one_line a = true -> split_lines (a ++ LF ++ b) = a :: split_lines b.
Proof.
  unfold one_line. induction a as [|x a IH]; [reflexivity|].
  cbn [all_chars split_lines append]. intros H. apply andb_true_iff in H as [H1 H2].
  unfold is_lf in H1. apply negb_true_iff in H1. now rewrite H1, (IH H2).
Qed.

Lemma one_line_app (a b : string) : one_line (a ++ b) = one_line a && one_line b.
Proof. apply all_chars_app. Qed.

Lemma quiet_one_line (s : string) : quiet s = true -> one_line s = true.
Proof.
  apply all_chars_weaken. unfold quiet_char. intros c H.
  now apply andb_true_iff in H as [_ H].
Qed.

Lemma prefix_app (a b : string) : prefix a (a ++ b) = true.
Proof.
  induction a as [|x a IH]; [destruct b; reflexivity|].
  cbn [append prefix]. destruct (ascii_dec x x); [exact IH | congruence].
Qed.

Lemma strip_suffix_eq (suf s : string) :
  strip_suffix suf s
  = if String.eqb s suf then Some ""
    else match s with
         | "" => None
         | String c r => option_map (String c) (strip_suffix suf r)
         end.
Proof. destruct s; reflexivity. Qed.

Lemma strip_suffix_app (a suf : string) : strip_suffix suf (a ++ suf) = Some a.
Proof.
  induction a as [|x a IH].
  - cbn [append]. now rewrite strip_suffix_eq, String.eqb_refl.
  - rewrite strip_suffix_eq. cbn [append].
    destruct (String.eqb_spec (String x (a ++ suf)) suf) as [E|_].
    + apply (f_equal String.length) in E. cbn [String.length] in E.
      rewrite slength_app in E. lia.
    + now rewrite IH.
Qed.

(** A line that ends with a closing brace has no row-end marker. *)
Lemma strip_suffix_brace (x : string) :
  strip_suffix (" " ++ row_end) (x ++ "}") = None.
Proof.
  induction x as [|c x IH]; [reflexivity|].
  rewrite strip_suffix_eq.
  change (String c x ++ "}") with (String c (x ++ "}")). cbv beta iota.
  destruct (String.eqb_spec (String c (x ++ "}")) (" " ++ row_end)) as [E|_].
  - exfalso. unfold row_end in E. cbn [append] in E.
    destruct x as [|c1 [|c2 [|c3 x]]]; cbn [append] in E; discriminate.
  - now rewrite IH.
Qed.

Lemma quiet_char_not_amp (c : ascii) : quiet_char c = true -> c <> "&"%char.
Proof.
  unfold quiet_char, is_amp. intros H E. subst c. discriminate.
Qed.

Lemma prefix_sep_quiet (x : ascii) (c rest : string) :
  quiet c = true ->
  prefix cell_sep (String x (c ++ cell_sep ++ rest)) = false
  /\ prefix cell_sep (String x c) = false.
Proof.
  intros H. unfold cell_sep. cbn [prefix].
  destruct (ascii_dec " " x) as [_|_]; [|split; reflexivity].
  destruct c as [|y c]; cbn [append prefix].
  - split; reflexivity.
  - unfold quiet in H. cbn [all_chars] in H. apply andb_true_iff in H as [H _].
    apply quiet_char_not_amp in H.
    destruct (ascii_dec "&" y) as [E|_]; [congruence | split; reflexivity].
Qed.

Lemma split_on_quiet (c : string) :
  quiet c = true -> split_on cell_sep 0 c = [c].
Proof.
  induction c as [|x c IH]; [intros _; reflexivity|].
  intros H. cbn [split_on].
  destruct (prefix_sep_quiet x c "" ) as [_ Hp].
  { unfold quiet in *. cbn [all_chars] in H. now apply andb_true_iff in H as [_ H]. }
  rewrite Hp, IH; [reflexivity|].
  unfold quiet in *. cbn [all_chars] in H. now apply andb_true_iff in H as [_ H].
Qed.

Lemma split_on_app (c rest : string) :
  quiet c = true ->
  split_on cell_sep 0 (c ++ cell_sep ++ rest) = c :: split_on cell_sep 0 rest.
Proof.
  induction c as [|x c IH]; [intros _; destruct rest; reflexivity|].
  intros H. cbn [split_on append].
  assert (Hc : quiet c = true).
  { unfold quiet in *. cbn [all_chars] in H. now apply andb_true_iff in H as [_ H]. }
  destruct (prefix_sep_quiet x c rest Hc) as [Hp _].
  now rewrite Hp, (IH Hc).
Qed.

Lemma split_on_join (cells : list string) :
  cells <> [] -> forallb quiet cells = true ->
  split_on cell_sep 0 (join cell_sep cells) = cells.
Proof.
  induction cells as [|c r IH]; [congruence|].
  intros _ H. cbn [forallb] in H. apply andb_true_iff in H as [Hc Hr].
  destruct r as [|c2 r].
  - now apply split_on_quiet.
  - rewrite join_cons by discriminate. rewrite split_on_app by exact Hc.
    now rewrite IH.
Qed.

Lemma row_cells_render (cells : list string) :
  line_ok (LRow cells) = true ->
  row_cells (render_line (LRow cells)) = Some cells.
Proof.
  cbn [line_ok render_line]. intros H. apply andb_true_iff in H as [Hn Hc].
  unfold row_cells. rewrite strip_suffix_app. cbn [option_map].
  rewrite split_on_join; [reflexivity | |].
  - destruct cells; [discriminate | discriminate].
  - rewrite forallb_forall in *. intros c Hin. specialize (Hc c Hin).
    unfold cell_ok in Hc. now apply andb_true_iff in Hc as [Hc _].
Qed.

Lemma open_line_brace (env spec : string) :
  render_line (LOpen env spec) = ("\begin{" ++ env ++ "}{" ++ spec) ++ "}".
Proof. cbn [render_line]. now rewrite !sapp_assoc. Qed.

Lemma close_line_brace (env : string) :
  render_line (LClose env) = ("\end{" ++ env) ++ "}".
Proof. cbn [render_line]. now rewrite !sapp_assoc. Qed.

Lemma strip_suffix_other (l : line) :
  match l with LRow _ => False | _ => True end ->
  strip_suffix (" " ++ row_end) (render_line l) = None.
Proof.
  destruct l as [env spec| |cells|env]; intros H; try contradiction.
  - rewrite open_line_brace. apply strip_suffix_brace.
  - reflexivity.
  - rewrite close_line_brace. apply strip_suffix_brace.
Qed.

(** The kind read from a rendered line is the kind of the line. *)
Lemma kind_of_render (l : line) : kind_of (render_line l) = kind_of_line l.
Proof.
  unfold kind_of. destruct l as [env spec| |cells|env].
  - rewrite strip_suffix_other by exact I. cbn [render_line].
    now rewrite prefix_app.
  - reflexivity.
  - cbn [render_line]. now rewrite strip_suffix_app.
  - rewrite strip_suffix_other by exact I. cbn [render_line].
    now rewrite prefix_app.
Qed.

Lemma cells_of_render (l : line) :
  line_ok l = true ->
  match row_cells (render_line l) with Some r => [r] | None => [] end
  = cells_of_line l.
Proof.
  intros H. destruct l as [env spec| |cells|env].
  - unfold row_cells. now rewrite strip_suffix_other.
  - reflexivity.
  - now rewrite row_cells_render.
  - unfold row_cells. now rewrite strip_suffix_other.
Qed.

Lemma one_line_join (cells : list string) :
  forallb quiet cells = true -> one_line (join cell_sep cells) = true.
Proof.
  induction cells as [|c r IH]; [reflexivity|].
  cbn [forallb]. intros H. apply andb_true_iff in H as [Hc Hr].
  destruct r as [|c2 r]; [now apply quiet_one_line|].
  rewrite join_cons by discriminate.
  rewrite !one_line_app, (quiet_one_line _ Hc), (IH Hr). reflexivity.
Qed.

Lemma cells_quiet (cells : list string) :
  forallb cell_ok cells = true -> forallb quiet cells = true.
Proof.
  rewrite !forallb_forall. intros H c Hin. specialize (H c Hin).
  unfold cell_ok in H. now apply andb_true_iff in H as [H _].
Qed.

Lemma plain_one_line (s : string) : plain s = true -> one_line s = true.
Proof. intros H. now apply quiet_one_line, plain_quiet. Qed.

Lemma one_line_render_line (l : line) :
  line_ok l = true -> one_line (render_line l) = true.
Proof.
  destruct l as [env spec| |cells|env]; cbn [line_ok render_line]; intros H.
  - apply andb_true_iff in H as [He Hs].
    rewrite !one_line_app, (plain_one_line _ He), (plain_one_line _ Hs). reflexivity.
  - reflexivity.
  - apply andb_true_iff in H as [_ H].
    rewrite !one_line_app, (one_line_join _ (cells_quiet _ H)). reflexivity.
  - rewrite !one_line_app, (plain_one_line _ H). reflexivity.
Qed.

(** The lines read from a rendered table are the rendered lines. *)
Lemma split_lines_render (ls : list line) :
  ls <> [] -> forallb line_ok ls = true ->
  split_lines (render ls) = map render_line ls.
Proof.
  unfold render. induction ls as [|l r IH]; [congruence|].
  intros _ H. cbn [forallb] in H. apply andb_true_iff in H as [Hl Hr].
  destruct r as [|l2 r].
  - cbn [map join]. now apply split_lines_one, one_line_render_line.
  - cbn [map]. rewrite join_cons by discriminate.
    rewrite split_lines_app by now apply one_line_render_line.
    f_equal. apply IH; [discriminate | exact Hr].
Qed.

Lemma skeleton_render (ls : list line) :
  ls <> [] -> forallb line_ok ls = true ->
  skeleton (render ls) = map kind_of_line ls.
Proof.
  intros Hn H. unfold skeleton. rewrite split_lines_render by assumption.
  rewrite map_map. apply map_ext. apply kind_of_render.
Qed.

Lemma table_rows_render (ls : list line) :
  ls <> [] -> forallb line_ok ls = true ->
  table_rows (render ls) = flat_map cells_of_line ls.
Proof.
  intros Hn H. unfold table_rows. rewrite split_lines_render by assumption.
  clear Hn. induction ls as [|l r IH]; [reflexivity|].
  cbn [forallb] in H. apply andb_true_iff in H as [Hl Hr].
  cbn [map flat_map]. now rewrite cells_of_render, IH.
Qed.

(** ** The lines of the layout are well formed *)

Lemma plain_repeat (s : string) (n : nat) :
  plain s = true -> plain (repeat s n) = true.
Proof.
  intros H. induction n as [|n IH]; [reflexivity|].
  cbn [repeat]. now rewrite plain_app, H, IH.
Qed.

Lemma plain_colspec style autoNumber shown :
  plain (colspec style autoNumber shown) = true.
Proof.
  unfold colspec.
  destruct (String.eqb style "full"); [|destruct (String.eqb style "horizontal")];
    destruct autoNumber; rewrite ?plain_app, ?plain_repeat; reflexivity.
Qed.

Lemma forallb_map_ok {A : Type} (f : A -> string) (l : list A) :
  (forall x, cell_ok (f x) = true) -> forallb cell_ok (map f l) = true.
Proof.
  intros H. induction l as [|x l IH]; [reflexivity|].
  cbn [map forallb]. now rewrite H, IH.
Qed.

Lemma header_cells_ok autoNumber fontStyle shown :
  forallb cell_ok (header_cells autoNumber fontStyle shown) = true.
Proof.
  unfold header_cells. rewrite forallb_app. apply andb_true_iff. split.
  - destruct autoNumber; [|reflexivity]. cbn [forallb].
    rewrite applyFontStyle_ok; reflexivity.
  - apply forallb_map_ok. intros i. apply applyFontStyle_ok.
    now rewrite plain_app, plain_Z_toString.
Qed.

Lemma header_cells_length autoNumber fontStyle shown :
  List.length (header_cells autoNumber fontStyle shown)
  = ((if autoNumber then 1 else 0) + shown)%nat.
Proof.
  unfold header_cells. rewrite length_app, length_map, range_length.
  now destruct autoNumber.
Qed.

Lemma data_cells_ok autoNumber fontStyle i t :
  forallb plain t = true ->
  forallb cell_ok (data_cells autoNumber fontStyle i t) = true.
Proof.
  intros H. unfold data_cells. rewrite forallb_app. apply andb_true_iff. split.
  - destruct autoNumber; [|reflexivity]. cbn [forallb].
    now rewrite applyFontStyle_ok by apply plain_Z_toString.
  - rewrite forallb_forall in *. intros c Hin.
    apply in_map_iff in Hin as [t0 [<- Hin]]. apply applyFontStyle_ok. now apply H.
Qed.

Lemma data_cells_length autoNumber fontStyle i t :
  List.length (data_cells autoNumber fontStyle i t)
  = ((if autoNumber then 1 else 0) + List.length t)%nat.
Proof.
  unfold data_cells. rewrite length_app, length_map. now destruct autoNumber.
Qed.

Lemma body_lines_ok style autoNumber fontStyle texts :
  texts_ok texts = true ->
  forall i, forallb line_ok (body_lines style autoNumber fontStyle i texts) = true.
Proof.
  unfold texts_ok. induction texts as [|t rest IH]; intros H i; [reflexivity|].
  cbn [forallb] in H. apply andb_true_iff in H as [Ht Hr].
  apply andb_true_iff in Ht as [Hn Hp].
  cbn [body_lines forallb line_ok].
  rewrite (data_cells_ok _ _ _ _ Hp), data_cells_length.
  assert (Hlen : negb (Nat.eqb ((if autoNumber then 1 else 0) + List.length t) 0) = true).
  { destruct t; [discriminate|]. destruct autoNumber; reflexivity. }
  rewrite Hlen. cbn [andb].
  destruct rest as [|t2 rest]; [reflexivity|].
  rewrite forallb_app, (IH Hr). destruct (ruled style); reflexivity.
Qed.

Lemma layout_ok style hasHeader autoNumber fontStyle env shown texts :
  plain env = true -> (1 <= shown)%nat -> texts_ok texts = true ->
  forallb line_ok (layout style hasHeader autoNumber fontStyle env shown texts) = true.
Proof.
  intros He Hs Ht. unfold layout.
  rewrite !forallb_app, body_lines_ok by exact Ht.
  cbn [forallb line_ok]. rewrite He, plain_colspec.
  assert (Hh : line_ok (LRow (header_cells autoNumber fontStyle shown)) = true).
  { cbn [line_ok]. rewrite header_cells_ok, header_cells_length.
    destruct shown; [lia|]. destruct autoNumber; reflexivity. }
  destruct (String.eqb style "full"), hasHeader, (negb (String.eqb style "none"));
    cbn [forallb]; rewrite ?Hh; reflexivity.
Qed.

Lemma layout_nonempty style hasHeader autoNumber fontStyle env shown texts :
  layout style hasHeader autoNumber fontStyle env shown texts <> [].
Proof. unfold layout. discriminate. Qed.

Lemma plain_cell_text rnd isNumeric d j : plain (cell_text rnd isNumeric d j) = true.
Proof.
  unfold cell_text. destruct isNumeric.
  - apply plain_Number_toString.
  - now rewrite plain_app, plain_Z_toString.
Qed.

Lemma plain_row_texts rnd isNumeric (n : nat) :
  forall d j, forallb plain (row_texts rnd isNumeric d j n) = true.
Proof.
  induction n as [|n IH]; intros d j; [reflexivity|].
  cbn [row_texts forallb]. now rewrite plain_cell_text, IH.
Qed.

Lemma body_texts_ok rnd isNumeric (ncols n : nat) :
  (1 <= ncols)%nat ->
  forall d, texts_ok (body_texts rnd isNumeric ncols d n) = true.
Proof.
  intros Hc. unfold texts_ok. induction n as [|n IH]; intros d; [reflexivity|].
  cbn [body_texts forallb]. rewrite row_texts_length, plain_row_texts, IH.
  destruct ncols; [lia | reflexivity].
Qed.

Lemma forallb_firstn {A : Type} (P : A -> bool) (n : nat) (l : list A) :
  forallb P l = true -> forallb P (firstn n l) = true.
Proof.
  revert n. induction l as [|x l IH]; intros n H; [now rewrite firstn_nil|].
  destruct n as [|n]; [reflexivity|].
  cbn [forallb firstn] in *. apply andb_true_iff in H as [H1 H2].
  now rewrite H1, IH.
Qed.

Lemma crop_ok (nrows ncols : nat) texts :
  (1 <= ncols)%nat -> texts_ok texts = true -> texts_ok (crop nrows ncols texts) = true.
Proof.
  intros Hc. unfold texts_ok, crop. revert nrows.
  induction texts as [|t rest IH]; intros nrows H; [now rewrite firstn_nil|].
  destruct nrows as [|nrows]; [reflexivity|].
  cbn [firstn map forallb] in *. apply andb_true_iff in H as [Ht Hr].
  apply andb_true_iff in Ht as [Hn Hp].
  rewrite (IH _ Hr), (forallb_firstn _ _ _ Hp).
  destruct t; [discriminate|]. destruct ncols; [lia | reflexivity].
Qed.

(** ** Rows and kinds of the layout *)

Lemma body_lines_cells style autoNumber fontStyle texts :
  forall i, flat_map cells_of_line (body_lines style autoNumber fontStyle i texts)
            = body_cells autoNumber fontStyle i texts.
Proof.
  induction texts as [|t rest IH]; intros i; [reflexivity|].
  cbn [body_lines flat_map cells_of_line body_cells app]. f_equal.
  destruct rest as [|t2 rest]; [reflexivity|].
  rewrite flat_map_app, IH. destruct (ruled style); reflexivity.
Qed.

Lemma layout_cells style hasHeader autoNumber fontStyle env shown texts :
  flat_map cells_of_line (layout style hasHeader autoNumber fontStyle env shown texts)
  = ((if hasHeader then [header_cells autoNumber fontStyle shown] else [])
       ++ body_cells autoNumber fontStyle 1 texts)%list.
Proof.
  unfold layout. rewrite !flat_map_app, body_lines_cells.
  destruct (String.eqb style "full"), hasHeader, (negb (String.eqb style "none"));
    cbn [flat_map cells_of_line app]; rewrite ?app_nil_r; reflexivity.
Qed.

Lemma body_lines_kinds style autoNumber fontStyle texts :
  forall i, map kind_of_line (body_lines style autoNumber fontStyle i texts)
            = body_kinds (ruled style) (List.length texts).
Proof.
  induction texts as [|t rest IH]; intros i; [reflexivity|].
  cbn [body_lines map kind_of_line List.length]. unfold body_kinds. f_equal.
  destruct rest as [|t2 rest]; [reflexivity|].
  rewrite map_app, IH. cbn [List.length List.repeat List.concat body_kinds].
  destruct (ruled style); reflexivity.
Qed.

Lemma layout_kinds style hasHeader autoNumber fontStyle env shown texts :
  map kind_of_line (layout style hasHeader autoNumber fontStyle env shown texts)
  = ([KOpen]
       ++ (if String.eqb style "full" then [KRule] else [])
       ++ (if hasHeader then
             KRow :: (if negb (String.eqb style "none") then [KRule] else [])
           else [])
       ++ body_kinds (ruled style) (List.length texts)
       ++ (if String.eqb style "full" then [KRule] else [])
       ++ [KClose])%list.
Proof.
  unfold layout. rewrite !map_app, body_lines_kinds.
  destruct (String.eqb style "full"), hasHeader, (negb (String.eqb style "none"));
    reflexivity.
Qed.

Lemma crop_length (nrows ncols : nat) (texts : list (list string)) :
  List.length (crop nrows ncols texts) = Nat.min nrows (List.length texts).
Proof. unfold crop. now rewrite length_map, length_firstn. Qed.

(** ** Counting markers *)

Lemma prefix_nil (s : string) : prefix "" s = true.
Proof. destruct s; reflexivity. Qed.

Lemma prefix_lf (a b : string) :
  forall pat, one_line pat = true -> prefix pat (a ++ LF ++ b) = prefix pat a.
Proof.
  unfold one_line. induction a as [|x a IH]; intros pat H.
  - destruct pat as [|p pat]; [reflexivity|].
    cbn [all_chars] in H. apply andb_true_iff in H as [H _].
    cbn [append LF prefix].
    destruct (ascii_dec p (ascii_of_nat 10)) as [E|_]; [|reflexivity].
    subst p. discriminate.
  - destruct pat as [|p pat]; [reflexivity|].
    cbn [all_chars] in H. apply andb_true_iff in H as [_ H].
    cbn [append prefix]. destruct (ascii_dec p x); [now apply IH | reflexivity].
Qed.

(** No occurrence of a pattern without line feed lies across a line feed. *)
Lemma occ_lines (pat a b : string) :
  one_line pat = true -> pat <> "" ->
  occurrences pat (a ++ LF ++ b) = (occurrences pat a + occurrences pat b)%nat.
Proof.
  intros H Hne. induction a as [|x a IH].
  - change ("" ++ LF ++ b) with (String (ascii_of_nat 10) b).
    cbn [occurrences].
    change (String (ascii_of_nat 10) b) with ("" ++ LF ++ b).
    rewrite prefix_lf by exact H.
    destruct pat; [congruence | reflexivity].
  - change (String x a ++ LF ++ b) with (String x (a ++ LF ++ b)).
    cbn [occurrences]. rewrite IH.
    change (String x (a ++ LF ++ b)) with (String x a ++ LF ++ b).
    rewrite prefix_lf by exact H. apply Nat.add_assoc.
Qed.

Lemma occ_render (pat : string) (ls : list line) :
  one_line pat = true -> pat <> "" ->
  occurrences pat (render ls)
  = list_sum (map (fun l => occurrences pat (render_line l)) ls).
Proof.
  intros H Hne. unfold render. induction ls as [|l r IH]; [reflexivity|].
  destruct r as [|l2 r].
  - cbn [map join list_sum fold_right]. now rewrite Nat.add_0_r.
  - cbn [map]. rewrite join_cons by discriminate.
    rewrite occ_lines by assumption. cbn [map] in IH. rewrite IH. reflexivity.
Qed.

(** Where every backslash is followed by a character in [P], no pattern
    made of a backslash and a character outside [P] starts. *)
Lemma occ_app_safe (P : ascii -> bool) (q : ascii) (r a b : string) :
  bs_then P a = true -> P q = false ->
  occurrences (String "\" (String q r)) (a ++ b)
  = occurrences (String "\" (String q r)) b.
Proof.
  intros Ha Hq. induction a as [|x a IH]; [reflexivity|].
  cbn [bs_then] in Ha. apply andb_true_iff in Ha as [H1 H2].
  change (String x a ++ b) with (String x (a ++ b)).
  cbn [occurrences]. rewrite (IH H2).
  replace (prefix (String "\" (String q r)) (String x (a ++ b))) with false;
    [reflexivity|].
  cbn [prefix]. destruct (ascii_dec "\" x) as [E|_]; [|reflexivity].
  subst x. cbn in H1. destruct a as [|d a]; [discriminate|].
  cbn [append prefix]. destruct (ascii_dec q d) as [E|_]; [|reflexivity].
  subst d. congruence.
Qed.

Lemma occ_none (P : ascii -> bool) (q : ascii) (r a : string) :
  bs_then P a = true -> P q = false ->
  occurrences (String "\" (String q r)) a = 0%nat.
Proof.
  intros Ha Hq. rewrite <- (sapp_nil_r a) at 1.
  now rewrite (occ_app_safe P q r a "" Ha Hq).
Qed.

Lemma bs_then_join (cells : list string) :
  forallb cell_ok cells = true -> bs_then is_t (join cell_sep cells) = true.
Proof.
  induction cells as [|c r IH]; [reflexivity|].
  cbn [forallb]. intros H. apply andb_true_iff in H as [Hc Hr].
  unfold cell_ok in Hc. apply andb_true_iff in Hc as [_ Hc].
  destruct r as [|c2 r]; [exact Hc|].
  rewrite join_cons by discriminate.
  apply bs_then_app; [exact Hc|]. apply bs_then_app; [reflexivity | now apply IH].
Qed.

(** In a line that is not a row, a backslash is followed by the first
    letter of the directive. *)
Lemma bs_then_open (P : ascii -> bool) (env spec : string) :
  P "b"%char = true -> plain env = true -> plain spec = true ->
  bs_then P (render_line (LOpen env spec)) = true.
Proof.
  intros Hb He Hs.
  change (bs_then P (render_line (LOpen env spec)))
    with (P "b"%char && bs_then P ("begin{" ++ env ++ "}{" ++ spec ++ "}")).
  rewrite Hb. cbn [andb].
  apply plain_bs_then. now rewrite !plain_app, He, Hs.
Qed.

Lemma bs_then_close (P : ascii -> bool) (env : string) :
  P "e"%char = true -> plain env = true ->
  bs_then P (render_line (LClose env)) = true.
Proof.
  intros Hb He.
  change (bs_then P (render_line (LClose env)))
    with (P "e"%char && bs_then P ("end{" ++ env ++ "}")).
  rewrite Hb. cbn [andb].
  apply plain_bs_then. now rewrite !plain_app, He.
Qed.

(** A row-end marker occurs once in a row and not in another line. *)
Lemma occ_row_end_line (l : line) :
  line_ok l = true ->
  occurrences row_end (render_line l)
  = match l with LRow _ => 1%nat | _ => 0%nat end.
Proof.
  intros H. unfold row_end. destruct l as [env spec| |cells|env]; cbn [line_ok] in H.
  - apply andb_true_iff in H as [He Hs].
    apply (occ_none (not_char "\")); [|reflexivity].
    now apply bs_then_open.
  - reflexivity.
  - apply andb_true_iff in H as [_ H]. cbn [render_line].
    rewrite (occ_app_safe is_t); [reflexivity | now apply bs_then_join | reflexivity].
  - apply (occ_none (not_char "\")); [|reflexivity].
    now apply bs_then_close.
Qed.

(** An opening directive occurs once in the opening line and not in
    another line. *)
Lemma occ_begin_line (l : line) :
  line_ok l = true ->
  occurrences "\begin{" (render_line l)
  = match l with LOpen _ _ => 1%nat | _ => 0%nat end.
Proof.
  intros H. destruct l as [env spec| |cells|env]; cbn [line_ok] in H.
  - apply andb_true_iff in H as [He Hs]. cbn [render_line].
    change ("\begin{" ++ env ++ "}{" ++ spec ++ "}")
      with (String "\" ("begin{" ++ env ++ "}{" ++ spec ++ "}")).
    cbn [occurrences].
    change (String "\" ("begin{" ++ env ++ "}{" ++ spec ++ "}"))
      with ("\begin{" ++ env ++ "}{" ++ spec ++ "}").
    rewrite prefix_app.
    rewrite (occ_none is_t); [reflexivity | | reflexivity].
    apply plain_bs_then. now rewrite !plain_app, He, Hs.
  - reflexivity.
  - apply andb_true_iff in H as [_ H]. cbn [render_line].
    rewrite (occ_app_safe is_t); [reflexivity | now apply bs_then_join | reflexivity].
  - apply (occ_none (not_char "b")); [|reflexivity].
    now apply bs_then_close.
Qed.

(** A closing directive occurs once in the closing line and not in another
    line. *)
Lemma occ_end_line (l : line) :
  line_ok l = true ->
  occurrences "\end{" (render_line l)
  = match l with LClose _ => 1%nat | _ => 0%nat end.
Proof.
  intros H. destruct l as [env spec| |cells|env]; cbn [line_ok] in H.
  - apply andb_true_iff in H as [He Hs].
    apply (occ_none (not_char "e")); [|reflexivity].
    now apply bs_then_open.
  - reflexivity.
  - apply andb_true_iff in H as [_ H]. cbn [render_line].
    rewrite (occ_app_safe is_t); [reflexivity | now apply bs_then_join | reflexivity].
  - cbn [render_line].
    change ("\end{" ++ env ++ "}") with (String "\" ("end{" ++ env ++ "}")).
    cbn [occurrences].
    change (String "\" ("end{" ++ env ++ "}")) with ("\end{" ++ env ++ "}").
    rewrite prefix_app.
    rewrite (occ_none is_t); [reflexivity | | reflexivity].
    apply plain_bs_then. now rewrite !plain_app, H.
Qed.

(** ** Random values *)

Lemma range_In (n : nat) :
  forall i z, i <= z < i + Z.of_nat n -> In z (range i n).
Proof.
  induction n as [|n IH]; intros i z H; [lia|].
  cbn [range]. destruct (Z.eq_dec i z) as [->|Hne]; [now left|].
  right. apply IH. lia.
Qed.

Lemma fixed_ok_all : forallb fixed_ok (range 0 (Z.to_nat 10001)) = true.
Proof. vm_compute. reflexivity. Qed.

Lemma fixed_ok_range (n : Z) : 0 <= n <= 10000 -> fixed_ok n = true.
Proof.
  intros H. pose proof fixed_ok_all as Hall.
  rewrite forallb_forall in Hall. apply Hall. apply range_In.
  rewrite Z2Nat.id; lia.
Qed.

(** The integer [toFixed] chooses for a draw, and how far it is from the
    draw. *)
Lemma toFixed_bounds (x : Q) :
  (0 <= x)%Q -> (x < 1)%Q ->
  let n := Qfloor (x * 10000 + (1 # 2)) in
  0 <= n <= 10000
  /\ ((n # 10000) - (1 # 20000) <= x)%Q
  /\ (x < (n # 10000) + (1 # 20000))%Q.
Proof.
  intros H0 H1 n.
  pose proof (Qfloor_le (x * 10000 + (1 # 2))) as Hle.
  pose proof (Qlt_floor (x * 10000 + (1 # 2))) as Hlt.
  fold n in Hle, Hlt. clearbody n.
  destruct x as [xn xd]. unfold Qle, Qlt, inject_Z in *. cbn in *.
  rewrite ?Pos2Z.inj_mul in *.
  assert (Hd : 0 < Z.pos xd) by lia.
  set (dd := Z.pos xd) in *. clearbody dd.
  repeat split; nia.
Qed.

Lemma toFixed4_nonneg (x : Q) :
  (0 <= x)%Q -> toFixed4 x = with_point4 (Qfloor (x * 10000 + (1 # 2))).
Proof.
  intros H. unfold toFixed4. destruct (Qlt_le_dec x 0) as [Hlt|_]; [|reflexivity].
  exfalso. apply (Qlt_irrefl x). eapply Qlt_le_trans; eassumption.
Qed.

(** The value of a draw is [n / 10^4] for the integer [n] nearest to
    [10^4] times the draw, and its text is a short decimal. *)
Lemma generateRandomValue_spec (x : Q) :
  (0 <= x)%Q -> (x < 1)%Q ->
  let n := Qfloor (x * 10000 + (1 # 2)) in
  0 <= n <= 10000
  /\ generateRandomValue x = Fin (n # 10000)
  /\ ((n # 10000) - (1 # 20000) <= x)%Q
  /\ (x < (n # 10000) + (1 # 20000))%Q
  /\ numeric_text (Number_toString (generateRandomValue x)).
Proof.
  intros H0 H1 n.
  destruct (toFixed_bounds x H0 H1) as [Hn [Hlo Hhi]]. fold n in Hn, Hlo, Hhi.
  pose proof (fixed_ok_range n Hn) as Hok. unfold fixed_ok in Hok.
  unfold generateRandomValue. rewrite toFixed4_nonneg by exact H0. fold n.
  clearbody n.
  destruct (parseFloat (with_point4 n)) as [|q]; [discriminate|].
  apply andb_true_iff in Hok as [Hok Hsame].
  apply andb_true_iff in Hok as [Hok Hshort].
  apply andb_true_iff in Hok as [Hnum Hden].
  apply Z.eqb_eq in Hnum. apply Pos.eqb_eq in Hden.
  assert (Hq : q = n # 10000) by (destruct q; cbn in Hnum, Hden; congruence).
  subst q. repeat split; try assumption; try lia.
  exists n. repeat split; try lia; assumption.
Qed.

(** ** The two strings read back *)

Section ReadBack.

Variable rnd : nat -> Q.
Variables (d : nat) (rows columns : Z) (style : string).
Variables (hasHeader autoNumber : bool) (fontStyle : string) (isNumeric : bool).

Hypothesis Hrows : 0 < rows.
Hypothesis Hcols : 0 < columns.

Let texts := body_texts rnd isNumeric (Z.to_nat columns) d (Z.to_nat rows).
Let full_lines :=
  layout style hasHeader autoNumber fontStyle "tabular" (Z.to_nat columns) texts.
Let preview_lines :=
  layout style hasHeader autoNumber fontStyle "array" (Z.to_nat (Z.min columns 5))
    (crop (Z.to_nat (Z.min rows 5)) (Z.to_nat (Z.min columns 5)) texts).

Lemma full_render :
  full rnd d rows columns style hasHeader autoNumber fontStyle isNumeric
  = render full_lines.
Proof. apply build_layout; assumption. Qed.

Lemma preview_render :
  preview rnd d rows columns style hasHeader autoNumber fontStyle isNumeric
  = render preview_lines.
Proof. apply build_layout; assumption. Qed.

Lemma texts_good : texts_ok texts = true.
Proof. apply body_texts_ok. lia. Qed.

Lemma full_lines_ok : forallb line_ok full_lines = true.
Proof. apply layout_ok; [reflexivity | lia | apply texts_good]. Qed.

Lemma preview_lines_ok : forallb line_ok preview_lines = true.
Proof.
  apply layout_ok; [reflexivity | lia |].
  apply crop_ok; [lia | apply texts_good].
Qed.

Lemma full_rows :
  table_rows (full rnd d rows columns style hasHeader autoNumber fontStyle isNumeric)
  = ((if hasHeader then [header_cells autoNumber fontStyle (Z.to_nat columns)] else [])
       ++ body_cells autoNumber fontStyle 1 texts)%list.
Proof.
  rewrite full_render, table_rows_render;
    [apply layout_cells | apply layout_nonempty | apply full_lines_ok].
Qed.

Lemma preview_rows :
  table_rows (preview rnd d rows columns style hasHeader autoNumber fontStyle isNumeric)
  = ((if hasHeader
      then [header_cells autoNumber fontStyle (Z.to_nat (Z.min columns 5))]
      else [])
       ++ body_cells autoNumber fontStyle 1
            (crop (Z.to_nat (Z.min rows 5)) (Z.to_nat (Z.min columns 5)) texts))%list.
Proof.
  rewrite preview_render, table_rows_render;
    [apply layout_cells | apply layout_nonempty | apply preview_lines_ok].
Qed.

Lemma full_kinds :
  skeleton (full rnd d rows columns style hasHeader autoNumber fontStyle isNumeric)
  = map kind_of_line full_lines.
Proof.
  rewrite full_render.
  apply skeleton_render; [apply layout_nonempty | apply full_lines_ok].
Qed.

Lemma preview_kinds :
  skeleton (preview rnd d rows columns style hasHeader autoNumber fontStyle isNumeric)
  = map kind_of_line preview_lines.
Proof.
  rewrite preview_render.
  apply skeleton_render; [apply layout_nonempty | apply preview_lines_ok].
Qed.

Lemma texts_length : List.length texts = Z.to_nat rows.
Proof. apply body_texts_length. Qed.

Lemma cropped_length :
  List.length (crop (Z.to_nat (Z.min rows 5)) (Z.to_nat (Z.min columns 5)) texts)
  = Z.to_nat (Z.min rows 5).
Proof. rewrite crop_length, texts_length. lia. Qed.

End ReadBack.

(** ** Sizes *)

Lemma body_cells_length autoNumber fontStyle texts :
  forall i, List.length (body_cells autoNumber fontStyle i texts) = List.length texts.
Proof.
  induction texts as [|t rest IH]; intros i; [reflexivity|].
  cbn [body_cells List.length]. now rewrite IH.
Qed.

Lemma body_cells_widths (autoNumber : bool) fontStyle (w : nat) texts :
  Forall (fun t => List.length t = w) texts ->
  forall i, Forall (fun r => List.length r = ((if autoNumber then 1 else 0) + w)%nat)
              (body_cells autoNumber fontStyle i texts).
Proof.
  induction 1 as [|t rest Ht _ IH]; intros i; [constructor|].
  cbn [body_cells]. constructor; [|apply IH].
  now rewrite data_cells_length, Ht.
Qed.

Lemma body_texts_widths rnd isNumeric (ncols n : nat) :
  forall d, Forall (fun t => List.length t = ncols) (body_texts rnd isNumeric ncols d n).
Proof.
  induction n as [|n IH]; intros d; [constructor|].
  cbn [body_texts]. constructor; [apply row_texts_length | apply IH].
Qed.

Lemma crop_widths (nrows ncols w : nat) texts :
  (ncols <= w)%nat ->
  Forall (fun t => List.length t = w) texts ->
  Forall (fun t => List.length t = ncols) (crop nrows ncols texts).
Proof.
  intros Hw H. unfold crop. revert nrows.
  induction H as [|t rest Ht _ IH]; intros nrows; [rewrite firstn_nil; constructor|].
  destruct nrows as [|nrows]; [constructor|].
  cbn [firstn map]. constructor; [|apply IH].
  rewrite length_firstn, Ht. lia.
Qed.

Lemma occ_row_end_render (ls : list line) :
  forallb line_ok ls = true ->
  occurrences row_end (render ls) = List.length (flat_map cells_of_line ls).
Proof.
  intros H. rewrite occ_render by (reflexivity || discriminate).
  induction ls as [|l r IH]; [reflexivity|].
  cbn [forallb] in H. apply andb_true_iff in H as [Hl Hr].
  cbn [map list_sum fold_right flat_map]. rewrite length_app.
  fold (list_sum (map (fun l => occurrences row_end (render_line l)) r)).
  rewrite (IH Hr), (occ_row_end_line l Hl). now destruct l.
Qed.

(** C8: the full output holds one row-end marker for every data row, and
    one more for the header row when there is a header. *)
Theorem C8_row_end_markers rnd d rows columns style hasHeader autoNumber fontStyle isNumeric :
  0 < rows -> 0 < columns ->
  Z.of_nat (occurrences row_end
              (full rnd d rows columns style hasHeader autoNumber fontStyle isNumeric))
  = rows + (if hasHeader then 1 else 0).
Proof.
  intros Hr Hc.
  rewrite full_render by assumption.
  rewrite occ_row_end_render
    by (apply full_lines_ok; assumption).
  rewrite layout_cells, length_app, body_cells_length, body_texts_length.
  destruct hasHeader; cbn [List.length]; lia.
Qed.

Lemma C8_row_end_markers_witness :
  Z.of_nat (occurrences row_end (full (fun _ => 0%Q) 0 3 2 "full" true true "bold" false))
  = 3 + 1.
Proof. apply (C8_row_end_markers (fun _ => 0%Q) 0 3 2 "full" true true "bold" false); lia. Defined.

(** C6: the preview holds min(rows, 5) data rows, one more row when there
    is a header, and each of its rows holds min(columns, 5) cells, one more
    when the rows are numbered. *)
Theorem C6_preview_size rnd d rows columns style hasHeader autoNumber fontStyle isNumeric :
  0 < rows -> 0 < columns ->
  let shown :=
    table_rows (preview rnd d rows columns style hasHeader autoNumber fontStyle isNumeric) in
  Z.of_nat (List.length shown) = Z.min rows 5 + (if hasHeader then 1 else 0)
  /\ Z.of_nat (List.length (if hasHeader then tl shown else shown)) = Z.min rows 5
  /\ Forall (fun r => Z.of_nat (List.length r)
                      = Z.min columns 5 + (if autoNumber then 1 else 0)) shown.
Proof.
  intros Hr Hc shown. unfold shown. rewrite preview_rows by assumption.
  assert (Hb : List.length
                 (body_cells autoNumber fontStyle 1
                    (crop (Z.to_nat (Z.min rows 5)) (Z.to_nat (Z.min columns 5))
                       (body_texts rnd isNumeric (Z.to_nat columns) d (Z.to_nat rows))))
               = Z.to_nat (Z.min rows 5)).
  { rewrite body_cells_length. apply cropped_length; assumption. }
  split; [|split].
  - rewrite length_app, Hb. destruct hasHeader; cbn [List.length]; lia.
  - destruct hasHeader; cbn [app tl]; rewrite Hb; lia.
  - apply Forall_app. split.
    + destruct hasHeader; [|constructor].
      constructor; [|constructor].
      rewrite header_cells_length. destruct autoNumber; lia.
    + eapply Forall_impl;
        [| apply (body_cells_widths autoNumber fontStyle (Z.to_nat (Z.min columns 5)));
           apply (crop_widths _ _ (Z.to_nat columns)); [lia | apply body_texts_widths]].
      cbv beta. intros r Hlen. rewrite Hlen. destruct autoNumber; lia.
Qed.

Lemma C6_preview_size_witness :
  let shown := table_rows (preview (fun _ => 0%Q) 0 7 9 "none" true true "normal" false) in
  Z.of_nat (List.length shown) = Z.min 7 5 + 1
  /\ Z.of_nat (List.length (tl shown)) = Z.min 7 5
  /\ Forall (fun r => Z.of_nat (List.length r) = Z.min 9 5 + 1) shown.
Proof. apply (C6_preview_size (fun _ => 0%Q) 0 7 9 "none" true true "normal" false); lia. Defined.

(** ** The preview is a part of the table *)

Lemma firstn_range (k n : nat) :
  (k <= n)%nat -> forall i, firstn k (range i n) = range i k.
Proof.
  revert n. induction k as [|k IH]; intros n H i; [reflexivity|].
  destruct n as [|n]; [lia|]. cbn [range firstn]. f_equal. apply IH. lia.
Qed.

Lemma header_cells_firstn autoNumber fontStyle (k n : nat) :
  (k <= n)%nat ->
  firstn (extra autoNumber + k) (header_cells autoNumber fontStyle n)
  = header_cells autoNumber fontStyle k.
Proof.
  intros H. unfold header_cells, extra.
  destruct autoNumber; cbn [app firstn Nat.add];
    now rewrite firstn_map, firstn_range.
Qed.

Lemma data_cells_firstn autoNumber fontStyle i (k : nat) t :
  firstn (extra autoNumber + k) (data_cells autoNumber fontStyle i t)
  = data_cells autoNumber fontStyle i (firstn k t).
Proof.
  unfold data_cells, extra.
  destruct autoNumber; cbn [app firstn Nat.add]; now rewrite firstn_map.
Qed.

Lemma body_cells_crop autoNumber fontStyle (m k : nat) texts :
  forall i,
    body_cells autoNumber fontStyle i (crop m k texts)
    = map (firstn (extra autoNumber + k))
        (firstn m (body_cells autoNumber fontStyle i texts)).
Proof.
  unfold crop. revert m. induction texts as [|t rest IH]; intros m i.
  - now rewrite !firstn_nil.
  - destruct m as [|m]; [reflexivity|].
    cbn [firstn map body_cells]. now rewrite IH, data_cells_firstn.
Qed.

Lemma nth_firstn_lt {A : Type} (c k : nat) (l : list A) (d : A) :
  (c < k)%nat -> nth c (firstn k l) d = nth c l d.
Proof.
  revert k l. induction c as [|c IH]; intros k l H.
  - destruct k; [lia|]. now destruct l.
  - destruct k; [lia|]. destruct l; [reflexivity|].
    cbn [firstn nth]. apply IH. lia.
Qed.

Lemma nth_map_firstn {A : Type} (k : nat) (L : list (list A)) (r : nat) :
  nth r (map (firstn k) L) [] = firstn k (nth r L []).
Proof. rewrite <- (map_nth (firstn k)). now rewrite firstn_nil. Qed.

(** A cell of a cropped table is the cell of the table at the same
    place. *)
Lemma nth_cropped (m k : nat) (F : list (list string)) (r c : nat) :
  (r < List.length (map (firstn k) (firstn m F)))%nat ->
  (c < List.length (nth r (map (firstn k) (firstn m F)) []))%nat ->
  nth c (nth r (map (firstn k) (firstn m F)) []) "" = nth c (nth r F []) "".
Proof.
  intros Hr Hc.
  rewrite length_map, length_firstn in Hr.
  rewrite nth_map_firstn in *. rewrite length_firstn in Hc.
  rewrite nth_firstn_lt by lia. rewrite nth_firstn_lt by lia. reflexivity.
Qed.

(** C5: the rows of the preview are the first rows of the full table, each
    cut after its first cells, so a cell that both strings hold has the
    same text in both; with numeric cells this is the text of one draw. *)
Theorem C5_preview_is_prefix rnd d rows columns style hasHeader autoNumber fontStyle isNumeric :
  0 < rows -> 0 < columns ->
  let F := table_rows (full rnd d rows columns style hasHeader autoNumber fontStyle isNumeric) in
  let P := table_rows (preview rnd d rows columns style hasHeader autoNumber fontStyle isNumeric) in
  P = map (firstn (extra autoNumber + Z.to_nat (Z.min columns 5)))
        (firstn (extra hasHeader + Z.to_nat (Z.min rows 5)) F)
  /\ forall r c : nat,
       (r < List.length P)%nat -> (c < List.length (nth r P []))%nat ->
       nth c (nth r P []) "" = nth c (nth r F []) "".
Proof.
  intros Hr Hc F P.
  assert (HP : P = map (firstn (extra autoNumber + Z.to_nat (Z.min columns 5)))
                     (firstn (extra hasHeader + Z.to_nat (Z.min rows 5)) F)).
  { unfold P, F. rewrite preview_rows, full_rows by assumption.
    rewrite body_cells_crop.
    destruct hasHeader; cbn [extra app firstn map Nat.add]; [|reflexivity].
    now rewrite header_cells_firstn by lia. }
  split; [exact HP|].
  rewrite HP. apply nth_cropped.
Qed.

Lemma C5_preview_is_prefix_witness :
  let r := fun k : nat => (Z.of_nat k # 7)%Q in
  let F := table_rows (full r 0 6 7 "full" true true "bold" true) in
  let P := table_rows (preview r 0 6 7 "full" true true "bold" true) in
  P = map (firstn (extra true + Z.to_nat (Z.min 7 5)))
        (firstn (extra true + Z.to_nat (Z.min 6 5)) F)
  /\ forall r c : nat,
       (r < List.length P)%nat -> (c < List.length (nth r P []))%nat ->
       nth c (nth r P []) "" = nth c (nth r F []) "".
Proof.
  apply (C5_preview_is_prefix (fun k : nat => (Z.of_nat k # 7)%Q)
           0 6 7 "full" true true "bold" true); lia.
Defined.

(** ** Placeholder labels *)

Lemma row_texts_labels rnd (n : nat) :
  forall d j,
    row_texts rnd false d j n
    = map (fun j => "Kolumna" ++ Z_toString (j + 1)) (range j n).
Proof.
  induction n as [|n IH]; intros d j; [reflexivity|].
  cbn [row_texts range map]. now rewrite IH.
Qed.

Lemma body_cells_labels rnd autoNumber fontStyle (ncols n : nat) :
  forall d i,
    body_cells autoNumber fontStyle i (body_texts rnd false ncols d n)
    = map (fun i =>
             ((if autoNumber then [applyFontStyle (Z_toString i) fontStyle] else [])
                ++ map (fun j => applyFontStyle ("Kolumna" ++ Z_toString (j + 1)) fontStyle)
                     (range 0 ncols))%list)
        (range i n).
Proof.
  induction n as [|n IH]; intros d i; [reflexivity|].
  cbn [body_texts body_cells range map]. rewrite IH. f_equal.
  unfold data_cells. now rewrite row_texts_labels, map_map.
Qed.

(** C1, as the code has it: without numeric cells, the data cells of every
    row of the full output are the labels Kolumna1, Kolumna2, ... (the word
    and the number not separated), and the data cells of the header row are
    the labels Nagłówek 1, Nagłówek 2, ...; each label is styled by
    [applyFontStyle], and the row-number cell comes first when the rows are
    numbered. *)
Theorem C1_placeholder_labels rnd d rows columns style hasHeader autoNumber fontStyle :
  0 < rows -> 0 < columns ->
  table_rows (full rnd d rows columns style hasHeader autoNumber fontStyle false)
  = ((if hasHeader then
        [((if autoNumber then [applyFontStyle "Numer wiersza" fontStyle] else [])
            ++ map (fun j => applyFontStyle ("Nagłówek " ++ Z_toString (j + 1)) fontStyle)
                 (range 0 (Z.to_nat columns)))%list]
      else [])
       ++ map (fun i =>
                 ((if autoNumber then [applyFontStyle (Z_toString i) fontStyle] else [])
                    ++ map (fun j => applyFontStyle ("Kolumna" ++ Z_toString (j + 1)) fontStyle)
                         (range 0 (Z.to_nat columns)))%list)
            (range 1 (Z.to_nat rows)))%list.
Proof.
  intros Hr Hc. rewrite full_rows by assumption.
  now rewrite body_cells_labels.
Qed.

Lemma C1_placeholder_labels_witness :
  table_rows (full (fun _ => 0%Q) 0 2 3 "horizontal" true true "bold" false)
  = [["\textbf{Numer wiersza}"; "\textbf{Nagłówek 1}"; "\textbf{Nagłówek 2}";
      "\textbf{Nagłówek 3}"];
     ["\textbf{1}"; "\textbf{Kolumna1}"; "\textbf{Kolumna2}"; "\textbf{Kolumna3}"];
     ["\textbf{2}"; "\textbf{Kolumna1}"; "\textbf{Kolumna2}"; "\textbf{Kolumna3}"]].
Proof.
  apply (C1_placeholder_labels (fun _ => 0%Q) 0 2 3 "horizontal" true true "bold");
    lia.
Defined.

(** C1 as stated fails: the first data cell of the table of one row and two
    columns is Kolumna1, with no space before the number. *)
Lemma C1_labels_counterexample :
  table_rows (full (fun _ => 0%Q) 0 1 2 "none" false false "normal" false)
  = [["Kolumna1"; "Kolumna2"]]
  /\ table_rows (full (fun _ => 0%Q) 0 1 2 "none" false false "normal" false)
     <> [["Column 1"; "Column 2"]]
  /\ table_rows (full (fun _ => 0%Q) 0 1 2 "none" false false "normal" false)
     <> [["Kolumna 1"; "Kolumna 2"]].
Proof. vm_compute. repeat split; discriminate. Qed.

(** ** Numeric cells *)

Lemma row_texts_numeric rnd (n : nat) :
  (forall k, (0 <= rnd k)%Q /\ (rnd k < 1)%Q) ->
  forall d j, Forall (drawn_text rnd) (row_texts rnd true d j n).
Proof.
  intros Hrnd. induction n as [|n IH]; intros d j; [constructor|].
  cbn [row_texts]. constructor; [|apply IH].
  exists d. split; [reflexivity|].
  destruct (Hrnd d) as [H0 H1]. apply (generateRandomValue_spec _ H0 H1).
Qed.

Lemma body_texts_numeric rnd (ncols n : nat) :
  (forall k, (0 <= rnd k)%Q /\ (rnd k < 1)%Q) ->
  forall d, Forall (fun t => List.length t = ncols /\ Forall (drawn_text rnd) t)
              (body_texts rnd true ncols d n).
Proof.
  intros Hrnd. induction n as [|n IH]; intros d; [constructor|].
  cbn [body_texts]. constructor; [|apply IH].
  split; [apply row_texts_length | now apply row_texts_numeric].
Qed.

(** C3, as the code has it: the value of a draw x in [0,1) is n / 10^4 for
    the integer n nearest to 10^4 x, so it lies in [0,1], both ends
    included, and within 1/20000 of x; its text is a decimal with at most
    four decimals and no zero at the end (0.5 for the draw 1/2); with
    numeric cells every data cell of the full output holds such a text. *)
Theorem C3_numeric_cells rnd d rows columns style hasHeader autoNumber fontStyle :
  (forall k, (0 <= rnd k)%Q /\ (rnd k < 1)%Q) ->
  0 < rows -> 0 < columns ->
  (forall k,
     let n := Qfloor (rnd k * 10000 + (1 # 2)) in
     0 <= n <= 10000
     /\ generateRandomValue (rnd k) = Fin (n # 10000)
     /\ ((n # 10000) - (1 # 20000) <= rnd k)%Q
     /\ (rnd k < (n # 10000) + (1 # 20000))%Q
     /\ numeric_text (Number_toString (generateRandomValue (rnd k))))
  /\ (exists texts : list (list string),
        table_rows (full rnd d rows columns style hasHeader autoNumber fontStyle true)
        = ((if hasHeader
            then [header_cells autoNumber fontStyle (Z.to_nat columns)] else [])
             ++ body_cells autoNumber fontStyle 1 texts)%list
        /\ List.length texts = Z.to_nat rows
        /\ Forall (fun t => List.length t = Z.to_nat columns
                            /\ Forall (drawn_text rnd) t) texts)
  /\ Number_toString (generateRandomValue (1 # 2)) = "0.5".
Proof.
  intros Hrnd Hr Hc. split; [|split].
  - intros k. destruct (Hrnd k) as [H0 H1]. apply (generateRandomValue_spec _ H0 H1).
  - exists (body_texts rnd true (Z.to_nat columns) d (Z.to_nat rows)).
    split; [now apply full_rows|]. split; [apply body_texts_length|].
    now apply body_texts_numeric.
  - reflexivity.
Qed.

Lemma C3_numeric_cells_witness :
  let rnd := fun _ : nat => (1 # 2)%Q in
  (forall k,
     let n := Qfloor (rnd k * 10000 + (1 # 2)) in
     0 <= n <= 10000
     /\ generateRandomValue (rnd k) = Fin (n # 10000)
     /\ ((n # 10000) - (1 # 20000) <= rnd k)%Q
     /\ (rnd k < (n # 10000) + (1 # 20000))%Q
     /\ numeric_text (Number_toString (generateRandomValue (rnd k))))
  /\ (exists texts : list (list string),
        table_rows (full rnd 0 2 2 "none" false false "normal" true)
        = ((if false then [header_cells false "normal" (Z.to_nat 2)] else [])
             ++ body_cells false "normal" 1 texts)%list
        /\ List.length texts = Z.to_nat 2
        /\ Forall (fun t => List.length t = Z.to_nat 2
                            /\ Forall (drawn_text rnd) t) texts)
  /\ Number_toString (generateRandomValue (1 # 2)) = "0.5".
Proof.
  apply (C3_numeric_cells (fun _ : nat => (1 # 2)%Q) 0 2 2 "none" false false "normal").
  - intros k. unfold Qle, Qlt. simpl. lia.
  - lia.
  - lia.
Defined.

(** C3 as stated fails: a draw from 0.99995 on is rounded to 1, which is
    not below 1; the last double below 1 is such a draw. *)
Lemma C3_value_one_counterexample :
  let x := (9007199254740991 # 9007199254740992)%Q in
  (0 <= x)%Q /\ (x < 1)%Q
  /\ generateRandomValue x = Fin (10000 # 10000)
  /\ ~ (10000 # 10000 < 1)%Q
  /\ table_rows (full (fun _ => x) 0 1 1 "none" false false "normal" true) = [["1"]].
Proof.
  cbv zeta. split; [discriminate|]. split; [reflexivity|].
  split; [reflexivity|]. split; [discriminate|]. vm_compute. reflexivity.
Qed.

(** ** Border styles *)

Lemma strip_prefix_app (a b : string) : strip_prefix a (a ++ b) = Some b.
Proof.
  induction a as [|x a IH]; [reflexivity|].
  cbn [append strip_prefix]. now rewrite Ascii.eqb_refl.
Qed.

Lemma column_spec_open (env spec : string) :
  column_spec env (render_line (LOpen env spec)) = Some spec.
Proof.
  unfold column_spec. cbn [render_line].
  replace ("\begin{" ++ env ++ "}{" ++ spec ++ "}")
    with (("\begin{" ++ env ++ "}{") ++ spec ++ "}") by now rewrite !sapp_assoc.
  now rewrite strip_prefix_app, strip_suffix_app.
Qed.

Lemma open_spec_layout style hasHeader autoNumber fontStyle env shown texts :
  plain env = true -> (1 <= shown)%nat -> texts_ok texts = true ->
  open_spec env (render (layout style hasHeader autoNumber fontStyle env shown texts))
  = Some (colspec style autoNumber shown).
Proof.
  intros He Hs Ht. unfold open_spec.
  rewrite split_lines_render by (apply layout_nonempty || now apply layout_ok).
  unfold layout. cbn [app map]. apply column_spec_open.
Qed.

Lemma colspec_border (b : border) (autoNumber : bool) (shown : nat) :
  colspec (border_name b) autoNumber shown = expected_colspec b autoNumber shown.
Proof. destruct b, autoNumber; reflexivity. Qed.

Lemma concat_rule_row (m : nat) :
  (KRow :: List.concat (List.repeat [KRule; KRow] m) ++ [KRule])%list
  = List.concat (List.repeat [KRow; KRule] (S m)).
Proof.
  induction m as [|m IH]; [reflexivity|].
  cbn [List.repeat List.concat app] in *. now rewrite IH.
Qed.

Lemma concat_row (m : nat) :
  List.concat (List.repeat [KRow] m) = List.repeat KRow m.
Proof. induction m as [|m IH]; [reflexivity|]. cbn. now rewrite IH. Qed.

Lemma kinds_border (b : border) (hasHeader : bool) (n : nat) :
  ([KOpen]
     ++ (if String.eqb (border_name b) "full" then [KRule] else [])
     ++ (if hasHeader then
           KRow :: (if negb (String.eqb (border_name b) "none") then [KRule] else [])
         else [])
     ++ body_kinds (ruled (border_name b)) (S n)
     ++ (if String.eqb (border_name b) "full" then [KRule] else [])
     ++ [KClose])%list
  = expected_skeleton b hasHeader (S n).
Proof.
  unfold expected_skeleton.
  destruct b; cbn [border_name]; unfold ruled;
    match goal with
    | |- context [String.eqb ?s "full"] =>
        let v := eval vm_compute in (String.eqb s "full") in
        change (String.eqb s "full") with v
    end;
    match goal with
    | |- context [String.eqb ?s "none"] =>
        let v := eval vm_compute in (String.eqb s "none") in
        change (String.eqb s "none") with v
    end;
    match goal with
    | |- context [String.eqb ?s "horizontal"] =>
        let v := eval vm_compute in (String.eqb s "horizontal") in
        change (String.eqb s "horizontal") with v
    end;
    cbn [negb orb app]; do 2 f_equal; unfold body_kinds.
  - now rewrite (concat_row n).
  - rewrite <- concat_rule_row. f_equal. cbn [app]. f_equal.
    now rewrite <- app_assoc.
Qed.

Lemma occ_char_cons (p c : ascii) (s : string) :
  occurrences (String p "") (String c s)
  = ((if Ascii.eqb p c then 1 else 0) + occurrences (String p "") s)%nat.
Proof.
  cbn [occurrences prefix]. destruct (ascii_dec p c) as [E|E].
  - subst. now rewrite Ascii.eqb_refl, prefix_nil.
  - apply Ascii.eqb_neq in E. now rewrite E.
Qed.

Lemma occ_char_app (p : ascii) (a b : string) :
  occurrences (String p "") (a ++ b)
  = (occurrences (String p "") a + occurrences (String p "") b)%nat.
Proof.
  induction a as [|x a IH]; [reflexivity|].
  change (String x a ++ b) with (String x (a ++ b)).
  rewrite !occ_char_cons, IH. apply Nat.add_assoc.
Qed.

Lemma occ_char_repeat (p : ascii) (s : string) (n : nat) :
  occurrences (String p "") (repeat s n) = (n * occurrences (String p "") s)%nat.
Proof.
  induction n as [|n IH]; [reflexivity|].
  cbn [repeat]. rewrite occ_char_app, IH. reflexivity.
Qed.

(** The bars and the columns of a column specification. *)
Lemma expected_colspec_bars (b : border) (autoNumber : bool) (shown : nat) :
  occurrences "|" (expected_colspec b autoNumber shown)
  = match b with
    | BFull => S (extra autoNumber + shown)
    | BHorizontal => extra autoNumber
    | BNone => O
    end
  /\ occurrences "c" (expected_colspec b autoNumber shown)
     = (extra autoNumber + shown)%nat.
Proof.
  unfold expected_colspec, extra.
  destruct b, autoNumber; rewrite ?occ_char_app, !occ_char_repeat;
    change (occurrences "|" "c ") with 0%nat;
    change (occurrences "c" "c ") with 1%nat;
    change (occurrences "|" "c|") with 1%nat;
    change (occurrences "c" "c|") with 1%nat;
    change (occurrences "|" "|") with 1%nat;
    change (occurrences "c" "|") with 0%nat;
    change (occurrences "|" "") with 0%nat;
    change (occurrences "c" "") with 0%nat;
    split; lia.
Qed.

(** C7: for each of the three border styles, the column specification and
    the rule lines of the full output and of the preview are the ones the
    style prescribes, over the columns and rows that each of them shows:
    bars at every boundary, a leading rule and a rule after every data row
    for full; one bar after the row-number column, a rule between two data
    rows and none after the last for horizontal; no bar and no rule for
    none; a rule after the header row unless the style is none.  One row
    and one column in style full give the specification |c| (|c|c| with the
    row-number column), a leading rule and a rule after the row. *)
Theorem C7_border_style (b : border) rnd d rows columns hasHeader autoNumber fontStyle isNumeric :
  0 < rows -> 0 < columns ->
  let F := full rnd d rows columns (border_name b) hasHeader autoNumber fontStyle isNumeric in
  let P := preview rnd d rows columns (border_name b) hasHeader autoNumber fontStyle isNumeric in
  open_spec "tabular" F = Some (expected_colspec b autoNumber (Z.to_nat columns))
  /\ open_spec "array" P = Some (expected_colspec b autoNumber (Z.to_nat (Z.min columns 5)))
  /\ skeleton F = expected_skeleton b hasHeader (Z.to_nat rows)
  /\ skeleton P = expected_skeleton b hasHeader (Z.to_nat (Z.min rows 5))
  /\ (forall shown : nat,
        occurrences "|" (expected_colspec b autoNumber shown)
        = match b with
          | BFull => S (extra autoNumber + shown)
          | BHorizontal => extra autoNumber
          | BNone => O
          end
        /\ occurrences "c" (expected_colspec b autoNumber shown)
           = (extra autoNumber + shown)%nat)
  /\ (open_spec "tabular" (full rnd d 1 1 "full" hasHeader autoNumber fontStyle isNumeric)
      = Some (if autoNumber then "|c|c|" else "|c|")
      /\ skeleton (full rnd d 1 1 "full" hasHeader autoNumber fontStyle isNumeric)
         = ([KOpen; KRule] ++ (if hasHeader then [KRow; KRule] else [])
              ++ [KRow; KRule; KClose])%list).
Proof.
  intros Hr Hc F P. unfold F, P.
  assert (Hone :
    open_spec "tabular" (full rnd d 1 1 "full" hasHeader autoNumber fontStyle isNumeric)
    = Some (if autoNumber then "|c|c|" else "|c|")
    /\ skeleton (full rnd d 1 1 "full" hasHeader autoNumber fontStyle isNumeric)
       = ([KOpen; KRule] ++ (if hasHeader then [KRow; KRule] else [])
            ++ [KRow; KRule; KClose])%list).
  { rewrite full_kinds, full_render by lia.
    rewrite open_spec_layout, layout_kinds, body_texts_length;
      [| reflexivity | cbn; lia | apply body_texts_ok; cbn; lia].
    split; [now destruct autoNumber|]. destruct hasHeader; reflexivity. }
  rewrite full_kinds, preview_kinds by assumption.
  rewrite full_render, preview_render by assumption.
  rewrite !open_spec_layout, !layout_kinds, !colspec_border;
    try reflexivity; try lia;
    try (apply body_texts_ok; lia);
    try (apply crop_ok; [lia | apply body_texts_ok; lia]).
  rewrite cropped_length, body_texts_length by assumption.
  replace (Z.to_nat rows) with (S (Z.to_nat (rows - 1))) by lia.
  replace (Z.to_nat (Z.min rows 5)) with (S (Z.to_nat (Z.min rows 5 - 1))) by lia.
  rewrite !kinds_border.
  repeat split; try reflexivity; try apply expected_colspec_bars; apply Hone.
Qed.

Lemma C7_border_style_witness :
  let r := fun _ : nat => 0%Q in
  let F := full r 0 7 6 (border_name BHorizontal) true true "normal" false in
  let P := preview r 0 7 6 (border_name BHorizontal) true true "normal" false in
  open_spec "tabular" F = Some (expected_colspec BHorizontal true (Z.to_nat 6))
  /\ open_spec "array" P = Some (expected_colspec BHorizontal true (Z.to_nat (Z.min 6 5)))
  /\ skeleton F = expected_skeleton BHorizontal true (Z.to_nat 7)
  /\ skeleton P = expected_skeleton BHorizontal true (Z.to_nat (Z.min 7 5))
  /\ (forall shown : nat,
        occurrences "|" (expected_colspec BHorizontal true shown)
        = extra true
        /\ occurrences "c" (expected_colspec BHorizontal true shown)
           = (extra true + shown)%nat)
  /\ (open_spec "tabular" (full r 0 1 1 "full" true true "normal" false)
      = Some "|c|c|"
      /\ skeleton (full r 0 1 1 "full" true true "normal" false)
         = ([KOpen; KRule] ++ [KRow; KRule] ++ [KRow; KRule; KClose])%list).
Proof.
  apply (C7_border_style BHorizontal (fun _ : nat => 0%Q) 0 7 6 true true "normal" false);
    lia.
Defined.

(** ** Well-formed tables *)

Lemma count_kind_app k (a b : list line_kind) :
  count_kind k (a ++ b) = (count_kind k a + count_kind k b)%nat.
Proof. unfold count_kind. now rewrite filter_app, length_app. Qed.

Lemma count_kind_body (k : line_kind) (r : bool) (n : nat) :
  (k = KOpen \/ k = KClose) -> count_kind k (body_kinds r n) = 0%nat.
Proof.
  intros Hk. destruct n as [|m]; [reflexivity|]. unfold body_kinds.
  change (KRow :: ?l) with ([KRow] ++ l)%list. rewrite count_kind_app.
  replace (count_kind k [KRow]) with 0%nat by (destruct Hk; subst; reflexivity).
  cbn [Nat.add].
  induction m as [|m IH]; [reflexivity|].
  cbn [List.repeat List.concat]. rewrite count_kind_app, IH.
  destruct Hk; subst; destruct r; reflexivity.
Qed.

Lemma count_kind_layout (k : line_kind) style hasHeader autoNumber fontStyle env shown texts :
  (k = KOpen \/ k = KClose) ->
  count_kind k
    (map kind_of_line (layout style hasHeader autoNumber fontStyle env shown texts))
  = 1%nat.
Proof.
  intros Hk. rewrite layout_kinds, !count_kind_app, count_kind_body by exact Hk.
  destruct Hk; subst; destruct (String.eqb style "full"), hasHeader,
    (negb (String.eqb style "none")); reflexivity.
Qed.

Lemma occ_begin_render (ls : list line) :
  forallb line_ok ls = true ->
  occurrences "\begin{" (render ls) = count_kind KOpen (map kind_of_line ls).
Proof.
  intros H. rewrite occ_render by (reflexivity || discriminate).
  induction ls as [|l r IH]; [reflexivity|].
  cbn [forallb] in H. apply andb_true_iff in H as [Hl Hr].
  cbn [map list_sum fold_right].
  fold (list_sum (map (fun l => occurrences "\begin{" (render_line l)) r)).
  rewrite (IH Hr), (occ_begin_line l Hl).
  change (kind_of_line l :: map kind_of_line r)
    with ([kind_of_line l] ++ map kind_of_line r)%list.
  rewrite count_kind_app. now destruct l.
Qed.

Lemma occ_end_render (ls : list line) :
  forallb line_ok ls = true ->
  occurrences "\end{" (render ls) = count_kind KClose (map kind_of_line ls).
Proof.
  intros H. rewrite occ_render by (reflexivity || discriminate).
  induction ls as [|l r IH]; [reflexivity|].
  cbn [forallb] in H. apply andb_true_iff in H as [Hl Hr].
  cbn [map list_sum fold_right].
  fold (list_sum (map (fun l => occurrences "\end{" (render_line l)) r)).
  rewrite (IH Hr), (occ_end_line l Hl).
  change (kind_of_line l :: map kind_of_line r)
    with ([kind_of_line l] ++ map kind_of_line r)%list.
  rewrite count_kind_app. now destruct l.
Qed.

(** A rendered table is its opening line, a body, and its closing line. *)
Lemma render_layout_frame style hasHeader autoNumber fontStyle env shown texts :
  exists body : string,
    render (layout style hasHeader autoNumber fontStyle env shown texts)
    = "\begin{" ++ env ++ "}{" ++ colspec style autoNumber shown ++ "}" ++ LF
        ++ body ++ "\end{" ++ env ++ "}".
Proof.
  rewrite render_layout. cbn [render_line].
  eexists ((if String.eqb style "full" then "\hline" ++ LF else "")
             ++ (if hasHeader then
                   (join cell_sep (header_cells autoNumber fontStyle shown)
                      ++ " " ++ row_end) ++ LF
                     ++ (if negb (String.eqb style "none") then "\hline" ++ LF else "")
                 else "")
             ++ unlines (body_lines style autoNumber fontStyle 1 texts)
             ++ (if String.eqb style "full" then "\hline" ++ LF else "")).
  now rewrite !sapp_assoc.
Qed.

Lemma occ_ge_one (pat s : string) (a : string) :
  prefix pat s = true -> s <> "" -> (1 <= occurrences pat (a ++ s))%nat.
Proof.
  intros Hp Hs. induction a as [|x a IH].
  - destruct s as [|c s]; [congruence|]. cbn [append occurrences]. rewrite Hp. lia.
  - change (String x a ++ s) with (String x (a ++ s)). cbn [occurrences]. lia.
Qed.

(** A text that opens an [array] is nowhere inside a text that opens a
    [tabular] and holds one opening directive. *)
Lemma not_fragment (x y a b : string) :
  occurrences "\begin{" ("\begin{tabular}" ++ x) = 1%nat ->
  "\begin{tabular}" ++ x <> a ++ ("\begin{array}" ++ y) ++ b.
Proof.
  intros Hocc E. destruct a as [|c a].
  - cbn [append] in E. discriminate.
  - assert (Hp : prefix "\begin{" (String c (a ++ ("\begin{array}" ++ y) ++ b)) = true).
    { change (String c (a ++ ("\begin{array}" ++ y) ++ b))
        with (String c a ++ ("\begin{array}" ++ y) ++ b).
      rewrite <- E.
      change ("\begin{tabular}" ++ x) with ("\begin{" ++ ("tabular}" ++ x)).
      apply prefix_app. }
    rewrite E in Hocc. change (String c a ++ ?r) with (String c (a ++ r)) in Hocc.
    cbn [occurrences] in Hocc. rewrite Hp in Hocc.
    assert (Hge : (1 <= occurrences "\begin{" (a ++ ("\begin{array}" ++ y) ++ b))%nat).
    { apply occ_ge_one; [|discriminate].
      change (("\begin{array}" ++ y) ++ b) with ("\begin{" ++ (("array}" ++ y) ++ b)).
      apply prefix_app. }
    lia.
Qed.

Ltac kinds_forall :=
  repeat (apply Forall_cons; [auto|]); try apply Forall_nil.

(** C9: the full output is a [tabular] environment and the preview an
    [array] environment, each opened with the column specification of the
    style; the preview holds one opening and one closing directive and one
    row-end marker for each of its rows, its lines are an opening line,
    rows and rules, and a closing line, and it is not a part of the full
    output. *)
Theorem C9_well_formed rnd d rows columns style hasHeader autoNumber fontStyle isNumeric :
  0 < rows -> 0 < columns ->
  let F := full rnd d rows columns style hasHeader autoNumber fontStyle isNumeric in
  let P := preview rnd d rows columns style hasHeader autoNumber fontStyle isNumeric in
  (exists body : string,
     F = "\begin{tabular}{" ++ colspec style autoNumber (Z.to_nat columns) ++ "}" ++ LF
           ++ body ++ "\end{tabular}")
  /\ (exists body : string,
        P = "\begin{array}{" ++ colspec style autoNumber (Z.to_nat (Z.min columns 5))
              ++ "}" ++ LF ++ body ++ "\end{array}")
  /\ occurrences "\begin{" P = 1%nat
  /\ occurrences "\end{" P = 1%nat
  /\ occurrences row_end P = List.length (table_rows P)
  /\ (exists mid : list line_kind,
        skeleton P = (KOpen :: mid ++ [KClose])%list
        /\ Forall (fun k => k = KRow \/ k = KRule) mid)
  /\ (forall a b : string, F <> a ++ P ++ b).
Proof.
  intros Hr Hc F P.
  set (texts := body_texts rnd isNumeric (Z.to_nat columns) d (Z.to_nat rows)).
  set (lf := layout style hasHeader autoNumber fontStyle "tabular"
               (Z.to_nat columns) texts).
  set (lp := layout style hasHeader autoNumber fontStyle "array"
               (Z.to_nat (Z.min columns 5))
               (crop (Z.to_nat (Z.min rows 5)) (Z.to_nat (Z.min columns 5)) texts)).
  assert (HFok : forallb line_ok lf = true) by (apply full_lines_ok; assumption).
  assert (HPok : forallb line_ok lp = true) by (apply preview_lines_ok; assumption).
  assert (HF : F = render lf) by (apply full_render; assumption).
  assert (HP : P = render lp) by (apply preview_render; assumption).
  assert (HbF : occurrences "\begin{" F = 1%nat).
  { rewrite HF, occ_begin_render by exact HFok.
    apply count_kind_layout. now left. }
  split; [rewrite HF; apply render_layout_frame|].
  split; [rewrite HP; apply render_layout_frame|].
  split; [rewrite HP, occ_begin_render by exact HPok;
          apply count_kind_layout; now left|].
  split; [rewrite HP, occ_end_render by exact HPok;
          apply count_kind_layout; now right|].
  split.
  { rewrite HP, occ_row_end_render by exact HPok.
    now rewrite table_rows_render by (apply layout_nonempty || exact HPok). }
  split.
  { unfold P. rewrite preview_kinds, layout_kinds by assumption.
    match goal with |- context [body_kinds ?r ?len] => generalize len end.
    intros n.
    exists ((if String.eqb style "full" then [KRule] else [])
              ++ (if hasHeader then
                    KRow :: (if negb (String.eqb style "none") then [KRule] else [])
                  else [])
              ++ body_kinds (ruled style) n
              ++ (if String.eqb style "full" then [KRule] else []))%list.
    split; [cbn [app]; f_equal; now rewrite <- !app_assoc|].
    apply Forall_app. split.
    { destruct (String.eqb style "full"); kinds_forall. }
    apply Forall_app. split.
    { destruct hasHeader, (negb (String.eqb style "none")); kinds_forall. }
    apply Forall_app. split.
    { destruct n as [|m]; [constructor|]. unfold body_kinds.
      apply Forall_cons; [now left|].
      induction m as [|m IH]; [constructor|].
      cbn [List.repeat List.concat]. apply Forall_app. split; [|exact IH].
      destruct (ruled style); kinds_forall. }
    destruct (String.eqb style "full"); kinds_forall. }
  intros a b E.
  destruct (render_layout_frame style hasHeader autoNumber fontStyle "tabular"
              (Z.to_nat columns) texts) as [bf Hbf].
  destruct (render_layout_frame style hasHeader autoNumber fontStyle "array"
              (Z.to_nat (Z.min columns 5))
              (crop (Z.to_nat (Z.min rows 5)) (Z.to_nat (Z.min columns 5)) texts))
    as [bp Hbp].
  fold lf in Hbf. fold lp in Hbp.
  rewrite Hbf in HF. rewrite Hbp in HP. rewrite HF in HbF. rewrite HF, HP in E.
  revert E. apply not_fragment. exact HbF.
Qed.

Lemma C9_well_formed_witness :
  let r := fun _ : nat => 0%Q in
  let F := full r 0 6 6 "full" true true "bold" false in
  let P := preview r 0 6 6 "full" true true "bold" false in
  (exists body : string,
     F = "\begin{tabular}{" ++ colspec "full" true (Z.to_nat 6) ++ "}" ++ LF
           ++ body ++ "\end{tabular}")
  /\ (exists body : string,
        P = "\begin{array}{" ++ colspec "full" true (Z.to_nat (Z.min 6 5))
              ++ "}" ++ LF ++ body ++ "\end{array}")
  /\ occurrences "\begin{" P = 1%nat
  /\ occurrences "\end{" P = 1%nat
  /\ occurrences row_end P = List.length (table_rows P)
  /\ (exists mid : list line_kind,
        skeleton P = (KOpen :: mid ++ [KClose])%list
        /\ Forall (fun k => k = KRow \/ k = KRule) mid)
  /\ (forall a b : string, F <> a ++ P ++ b).
Proof.
  apply (C9_well_formed (fun _ : nat => 0%Q) 0 6 6 "full" true true "bold" false); lia.
Defined.

(** ** Values outside the documented ones *)

Lemma applyFontStyle_other (text fontStyle : string) :
  fontStyle <> "bold" -> applyFontStyle text fontStyle = text.
Proof.
  intros H. unfold applyFontStyle. apply String.eqb_neq in H. now rewrite H.
Qed.

Lemma body_lines_ext s1 s2 autoNumber f1 f2 texts :
  ruled s1 = ruled s2 ->
  (forall t, applyFontStyle t f1 = applyFontStyle t f2) ->
  forall i, body_lines s1 autoNumber f1 i texts = body_lines s2 autoNumber f2 i texts.
Proof.
  intros Hr Hf. induction texts as [|t rest IH]; intros i; [reflexivity|].
  cbn [body_lines]. rewrite Hr. rewrite (IH (i + 1)).
  unfold data_cells. rewrite (Hf (Z_toString i)).
  now rewrite (map_ext _ _ Hf).
Qed.

Lemma header_cells_ext autoNumber f1 f2 shown :
  (forall t, applyFontStyle t f1 = applyFontStyle t f2) ->
  header_cells autoNumber f1 shown = header_cells autoNumber f2 shown.
Proof.
  intros Hf. unfold header_cells. rewrite (Hf "Numer wiersza"). f_equal.
  apply map_ext. intros i. apply Hf.
Qed.

(** The layout reads the style through three tests and the font style
    through [applyFontStyle]. *)
Lemma layout_ext s1 s2 hasHeader autoNumber f1 f2 env shown texts :
  String.eqb s1 "full" = String.eqb s2 "full" ->
  String.eqb s1 "horizontal" = String.eqb s2 "horizontal" ->
  (hasHeader = true -> String.eqb s1 "none" = String.eqb s2 "none") ->
  (forall t, applyFontStyle t f1 = applyFontStyle t f2) ->
  layout s1 hasHeader autoNumber f1 env shown texts
  = layout s2 hasHeader autoNumber f2 env shown texts.
Proof.
  intros Hfull Hhor Hnone Hf. unfold layout, colspec.
  rewrite Hfull, Hhor.
  rewrite (body_lines_ext s1 s2 autoNumber f1 f2 texts)
    by (unfold ruled; now rewrite ?Hfull, ?Hhor).
  rewrite (header_cells_ext autoNumber f1 f2 shown Hf).
  destruct hasHeader; [now rewrite Hnone | reflexivity].
Qed.

(** C10, as the code has it: [applyFontStyle] leaves the text unchanged for
    every font style but bold, so such a font style gives the strings of
    normal; a border style other than full and horizontal gives the column
    specification and the rows of none in both strings, and without a header
    row the strings of none; with a header row and a border style other than
    none, each of the two strings is the string of none with one more line,
    the rule after the header row, and has no other rule. *)
Theorem C10_other_values rnd d rows columns style hasHeader autoNumber fontStyle isNumeric :
  0 < rows -> 0 < columns ->
  (forall text fs : string, fs <> "bold" -> applyFontStyle text fs = text)
  /\ (fontStyle <> "bold" ->
      full rnd d rows columns style hasHeader autoNumber fontStyle isNumeric
      = full rnd d rows columns style hasHeader autoNumber "normal" isNumeric
      /\ preview rnd d rows columns style hasHeader autoNumber fontStyle isNumeric
         = preview rnd d rows columns style hasHeader autoNumber "normal" isNumeric)
  /\ (style <> "full" -> style <> "horizontal" ->
      open_spec "tabular"
        (full rnd d rows columns style hasHeader autoNumber fontStyle isNumeric)
      = Some (expected_colspec BNone autoNumber (Z.to_nat columns))
      /\ open_spec "array"
           (preview rnd d rows columns style hasHeader autoNumber fontStyle isNumeric)
         = Some (expected_colspec BNone autoNumber (Z.to_nat (Z.min columns 5)))
      /\ table_rows
           (full rnd d rows columns style hasHeader autoNumber fontStyle isNumeric)
         = table_rows
             (full rnd d rows columns "none" hasHeader autoNumber fontStyle isNumeric)
      /\ table_rows
           (preview rnd d rows columns style hasHeader autoNumber fontStyle isNumeric)
         = table_rows
             (preview rnd d rows columns "none" hasHeader autoNumber fontStyle isNumeric)
      /\ full rnd d rows columns style false autoNumber fontStyle isNumeric
         = full rnd d rows columns "none" false autoNumber fontStyle isNumeric
      /\ preview rnd d rows columns style false autoNumber fontStyle isNumeric
         = preview rnd d rows columns "none" false autoNumber fontStyle isNumeric
      /\ (style <> "none" ->
          skeleton (full rnd d rows columns style true autoNumber fontStyle isNumeric)
          = (KOpen :: KRow :: KRule :: List.repeat KRow (Z.to_nat rows) ++ [KClose])%list
          /\ skeleton (preview rnd d rows columns style true autoNumber fontStyle isNumeric)
             = (KOpen :: KRow :: KRule
                  :: List.repeat KRow (Z.to_nat (Z.min rows 5)) ++ [KClose])%list
          /\ (let none_lines :=
                split_lines
                  (full rnd d rows columns "none" true autoNumber fontStyle isNumeric) in
              split_lines
                (full rnd d rows columns style true autoNumber fontStyle isNumeric)
              = (firstn 2 none_lines ++ "\hline" :: skipn 2 none_lines)%list)
          /\ (let none_lines :=
                split_lines
                  (preview rnd d rows columns "none" true autoNumber fontStyle isNumeric) in
              split_lines
                (preview rnd d rows columns style true autoNumber fontStyle isNumeric)
              = (firstn 2 none_lines ++ "\hline" :: skipn 2 none_lines)%list))).
Proof.
  intros Hr Hc. split; [exact applyFontStyle_other|]. split.
  - intros Hfs.
    assert (Hf : forall t, applyFontStyle t fontStyle = applyFontStyle t "normal").
    { intros t. now rewrite applyFontStyle_other. }
    rewrite !full_render, !preview_render by assumption.
    split; f_equal; apply layout_ext; auto.
  - intros Hnf Hnh.
    apply String.eqb_neq in Hnf. apply String.eqb_neq in Hnh.
    assert (Hcs : forall shown,
              colspec style autoNumber shown = expected_colspec BNone autoNumber shown).
    { intros shown. unfold colspec. now rewrite Hnf, Hnh. }
    assert (Hlines : forall env shown texts,
              style <> "none" ->
              map render_line (layout style true autoNumber fontStyle env shown texts)
              = (firstn 2 (map render_line
                             (layout "none" true autoNumber fontStyle env shown texts))
                   ++ "\hline"
                   :: skipn 2 (map render_line
                                 (layout "none" true autoNumber fontStyle env shown texts)))%list).
    { intros env shown texts Hnn. apply String.eqb_neq in Hnn.
      unfold layout. rewrite Hnf, Hnn.
      rewrite (body_lines_ext style "none" autoNumber fontStyle fontStyle texts)
        by (unfold ruled; now rewrite ?Hnf, ?Hnh).
      rewrite Hcs. reflexivity. }
    split; [|split; [|split; [|split; [|split; [|split]]]]].
    + rewrite full_render by assumption.
      rewrite open_spec_layout, Hcs;
        [reflexivity | reflexivity | lia | apply body_texts_ok; lia].
    + rewrite preview_render by assumption.
      rewrite open_spec_layout, Hcs;
        [reflexivity | reflexivity | lia |].
      apply crop_ok; [lia | apply body_texts_ok; lia].
    + now rewrite !full_rows by assumption.
    + now rewrite !preview_rows by assumption.
    + rewrite !full_render by assumption. f_equal.
      apply layout_ext; auto; discriminate.
    + rewrite !preview_render by assumption. f_equal.
      apply layout_ext; auto; discriminate.
    + intros Hnn.
      assert (Hnn' := Hnn). apply String.eqb_neq in Hnn'.
      split; [|split; [|split]].
      * rewrite full_kinds, layout_kinds, body_texts_length by assumption.
        unfold ruled. rewrite Hnf, Hnh, Hnn'. cbn [negb orb app].
        replace (Z.to_nat rows) with (S (Z.to_nat (rows - 1))) by lia.
        unfold body_kinds. now rewrite concat_row.
      * rewrite preview_kinds, layout_kinds, cropped_length by assumption.
        unfold ruled. rewrite Hnf, Hnh, Hnn'. cbn [negb orb app].
        replace (Z.to_nat (Z.min rows 5)) with (S (Z.to_nat (Z.min rows 5 - 1))) by lia.
        unfold body_kinds. now rewrite concat_row.
      * cbv zeta. rewrite !full_render by assumption.
        rewrite !split_lines_render
          by (apply layout_nonempty || (apply full_lines_ok; assumption)).
        now apply Hlines.
      * cbv zeta. rewrite !preview_render by assumption.
        rewrite !split_lines_render
          by (apply layout_nonempty || (apply preview_lines_ok; assumption)).
        now apply Hlines.
Qed.

Lemma C10_other_values_witness :
  let r := fun _ : nat => 0%Q in
  (forall text fs : string, fs <> "bold" -> applyFontStyle text fs = text)
  /\ ("italic" <> "bold" ->
      full r 0 7 2 "dotted" true true "italic" false
      = full r 0 7 2 "dotted" true true "normal" false
      /\ preview r 0 7 2 "dotted" true true "italic" false
         = preview r 0 7 2 "dotted" true true "normal" false)
  /\ ("dotted" <> "full" -> "dotted" <> "horizontal" ->
      open_spec "tabular" (full r 0 7 2 "dotted" true true "italic" false)
      = Some (expected_colspec BNone true (Z.to_nat 2))
      /\ open_spec "array" (preview r 0 7 2 "dotted" true true "italic" false)
         = Some (expected_colspec BNone true (Z.to_nat (Z.min 2 5)))
      /\ table_rows (full r 0 7 2 "dotted" true true "italic" false)
         = table_rows (full r 0 7 2 "none" true true "italic" false)
      /\ table_rows (preview r 0 7 2 "dotted" true true "italic" false)
         = table_rows (preview r 0 7 2 "none" true true "italic" false)
      /\ full r 0 7 2 "dotted" false true "italic" false
         = full r 0 7 2 "none" false true "italic" false
      /\ preview r 0 7 2 "dotted" false true "italic" false
         = preview r 0 7 2 "none" false true "italic" false
      /\ ("dotted" <> "none" ->
          skeleton (full r 0 7 2 "dotted" true true "italic" false)
          = (KOpen :: KRow :: KRule :: List.repeat KRow (Z.to_nat 7) ++ [KClose])%list
          /\ skeleton (preview r 0 7 2 "dotted" true true "italic" false)
             = (KOpen :: KRow :: KRule
                  :: List.repeat KRow (Z.to_nat (Z.min 7 5)) ++ [KClose])%list
          /\ (let none_lines :=
                split_lines (full r 0 7 2 "none" true true "italic" false) in
              split_lines (full r 0 7 2 "dotted" true true "italic" false)
              = (firstn 2 none_lines ++ "\hline" :: skipn 2 none_lines)%list)
          /\ (let none_lines :=
                split_lines (preview r 0 7 2 "none" true true "italic" false) in
              split_lines (preview r 0 7 2 "dotted" true true "italic" false)
              = (firstn 2 none_lines ++ "\hline" :: skipn 2 none_lines)%list))).
Proof.
  apply (C10_other_values (fun _ : nat => 0%Q) 0 7 2 "dotted" true true "italic" false);
    lia.
Defined.

(** C10 as stated fails: with a header row, a border style that is not one
    of the three documented ones does not behave as none, for the header is
    followed by a rule, in the full string and in the preview. *)
Lemma C10_unknown_style_counterexample :
  skeleton (full (fun _ => 0%Q) 0 1 1 "dotted" true false "normal" false)
  = [KOpen; KRow; KRule; KRow; KClose]
  /\ skeleton (full (fun _ => 0%Q) 0 1 1 "none" true false "normal" false)
     = [KOpen; KRow; KRow; KClose]
  /\ full (fun _ => 0%Q) 0 1 1 "dotted" true false "normal" false
     <> full (fun _ => 0%Q) 0 1 1 "none" true false "normal" false
  /\ skeleton (preview (fun _ => 0%Q) 0 1 1 "dotted" true false "normal" false)
     = [KOpen; KRow; KRule; KRow; KClose]
  /\ skeleton (preview (fun _ => 0%Q) 0 1 1 "none" true false "normal" false)
     = [KOpen; KRow; KRow; KClose]
  /\ preview (fun _ => 0%Q) 0 1 1 "dotted" true false "normal" false
     <> preview (fun _ => 0%Q) 0 1 1 "none" true false "normal" false.
Proof.
  split; [vm_compute; reflexivity|]. split; [vm_compute; reflexivity|].
  split; [apply String.eqb_neq; vm_compute; reflexivity|].
  split; [vm_compute; reflexivity|]. split; [vm_compute; reflexivity|].
  apply String.eqb_neq. vm_compute. reflexivity.
Qed.

(** ** The handler as a state transformer *)


Lemma build_draws rnd d rows columns style hasHeader autoNumber fontStyle isNumeric :
  0 < rows -> 0 < columns ->
  snd (build rnd d rows columns style hasHeader autoNumber fontStyle isNumeric)
  = if isNumeric then (d + Z.to_nat rows * Z.to_nat columns)%nat else d.
Proof.
  intros Hr Hc. unfold build.
  assert (Hloop := fun lo lp =>
    rows_loop rnd columns (Z.min columns 5) fontStyle isNumeric rows (Z.min rows 5)
      style autoNumber Hc ltac:(lia) ltac:(lia) (Z.to_nat rows) 1 lo lp d ltac:(lia)).
  destruct (String.eqb style "full"); [|destruct (String.eqb style "horizontal")];
    destruct (String.eqb style "none"); destruct hasHeader; destruct autoNumber;
    cbv beta iota zeta; cbn [negb]; rewrite Hloop; reflexivity.
Qed.

(** A click with two positive counts writes the two strings. *)
Lemma click_valid rnd (w : World) (r c : Z) :
  parseInt (rows_value (form w)) = Int r ->
  parseInt (columns_value (form w)) = Int c ->
  0 < r -> 0 < c ->
  let f := form w in
  click rnd w
  = mkWorld f
      (fst (build rnd (draws w) r c (style_value f) (header_checked f)
              (autoNumber_checked f) (fontStyle_value f) (isNumeric_checked f)))
      (full rnd (draws w) r c (style_value f) (header_checked f)
         (autoNumber_checked f) (fontStyle_value f) (isNumeric_checked f))
      (renderTablePreview
         (preview rnd (draws w) r c (style_value f) (header_checked f)
            (autoNumber_checked f) (fontStyle_value f) (isNumeric_checked f)))
      (alerts w)
      (snd (build rnd (draws w) r c (style_value f) (header_checked f)
              (autoNumber_checked f) (fontStyle_value f) (isNumeric_checked f))).
Proof.
  intros Hpr Hpc Hr Hc f. subst f. unfold click. rewrite Hpr, Hpc.
  cbn [isNaN le0 orb value_of].
  destruct (Z.leb_spec r 0); [lia|]. destruct (Z.leb_spec c 0); [lia|].
  cbn [orb]. unfold full, preview.
  destruct (build rnd (draws w) r c (style_value (form w)) (header_checked (form w))
              (autoNumber_checked (form w)) (fontStyle_value (form w))
              (isNumeric_checked (form w)))
    as [v d']. reflexivity.
Qed.

(** A click with a count that is NaN or not positive shows the alert and
    leaves the strings as they were. *)
Lemma click_invalid rnd (w : World) :
  let r := parseInt (rows_value (form w)) in
  let c := parseInt (columns_value (form w)) in
  isNaN r || isNaN c || le0 r || le0 c = true ->
  let f := form w in
  click rnd w
  = mkWorld f
      (mkVars r c (style_value f) (header_checked f) (autoNumber_checked f)
         (fontStyle_value f) (isNumeric_checked f)
         (previewRows (vars w)) (previewColumns (vars w)) (totalColumns (vars w))
         (totalPreviewColumns (vars w)) (latexOutput (vars w)) (latexPreview (vars w)))
      (output_value w) (tablePreview w) (alerts w ++ [alert_text]) (draws w).
Proof.
  intros r c H f. subst r c f. unfold click. now rewrite H.
Qed.







(** C2, as the code has it: when [parseInt] gives NaN or a number that is
    not positive for the rows or the columns field, the click shows the
    alert, makes no draw and leaves the output text, the preview and the
    two string variables as they were; otherwise it shows no alert and writes
    the table of the two parsed counts.  [parseInt] reads the leading integer
    of the field: it gives NaN for a field without one. *)
Theorem C2_invalid_counts rnd (w : World) :
  let r := parseInt (rows_value (form w)) in
  let c := parseInt (columns_value (form w)) in
  let f := form w in
  ((r = NaN \/ c = NaN
    \/ (exists z, r = Int z /\ z <= 0) \/ (exists z, c = Int z /\ z <= 0)) ->
   output_value (click rnd w) = output_value w
   /\ tablePreview (click rnd w) = tablePreview w
   /\ latexOutput (vars (click rnd w)) = latexOutput (vars w)
   /\ latexPreview (vars (click rnd w)) = latexPreview (vars w)
   /\ alerts (click rnd w) = (alerts w ++ [alert_text])%list
   /\ draws (click rnd w) = draws w)
  /\ (forall zr zc, r = Int zr -> c = Int zc -> 0 < zr -> 0 < zc ->
      alerts (click rnd w) = alerts w
      /\ output_value (click rnd w)
         = full rnd (draws w) zr zc (style_value f) (header_checked f)
             (autoNumber_checked f) (fontStyle_value f) (isNumeric_checked f)
      /\ tablePreview (click rnd w)
         = renderTablePreview
             (preview rnd (draws w) zr zc (style_value f) (header_checked f)
                (autoNumber_checked f) (fontStyle_value f) (isNumeric_checked f)))
  /\ (parseInt "" = NaN /\ parseInt "abc" = NaN /\ parseInt "-" = NaN
      /\ parseInt "0" = Int 0 /\ parseInt "-3" = Int (-3) /\ parseInt " 12" = Int 12).
Proof.
  intros r c f. split; [|split].
  - intros H.
    assert (Hbad : isNaN r || isNaN c || le0 r || le0 c = true).
    { destruct H as [H|[H|[[z [H Hz]]|[z [H Hz]]]]]; rewrite H; cbn [isNaN le0 orb].
      - reflexivity.
      - now rewrite orb_true_r.
      - apply Z.leb_le in Hz. rewrite Hz. now rewrite orb_true_r.
      - apply Z.leb_le in Hz. rewrite Hz. now rewrite !orb_true_r. }
    rewrite (click_invalid rnd w Hbad). repeat split; reflexivity.
  - intros zr zc Hpr Hpc Hr Hc.
    rewrite (click_valid rnd w zr zc Hpr Hpc Hr Hc). repeat split; reflexivity.
  - repeat split; reflexivity.
Qed.

Lemma C2_invalid_counts_witness :
  let w := mkWorld (mkForm "0" "x" "full" true true "bold" true) vars0 "old" "old" [] 0 in
  output_value (click (fun _ => 0%Q) w) = "old"
  /\ tablePreview (click (fun _ => 0%Q) w) = "old"
  /\ alerts (click (fun _ => 0%Q) w) = [alert_text].
Proof.
  cbv zeta.
  destruct (C2_invalid_counts (fun _ => 0%Q)
              (mkWorld (mkForm "0" "x" "full" true true "bold" true) vars0 "old" "old" [] 0))
    as [H _].
  destruct (H (or_intror (or_introl eq_refl))) as [H1 [H2 [_ [_ [H3 _]]]]].
  split; [exact H1|]. split; [exact H2 | exact H3].
Defined.

(** C2 as stated fails: a field that is not an integer but starts with a
    positive one, such as 2.5, is accepted, and the table of 2 rows is
    written. *)
Lemma C2_fraction_counterexample :
  let w := mkWorld (mkForm "2.5" "1" "none" false false "normal" false)
             vars0 "old" "old" [] 0 in
  parseInt "2.5" = Int 2
  /\ alerts (click (fun _ => 0%Q) w) = []
  /\ table_rows (output_value (click (fun _ => 0%Q) w)) = [["Kolumna1"]; ["Kolumna1"]]
  /\ output_value (click (fun _ => 0%Q) w) <> output_value w.
Proof.
  cbv zeta. split; [reflexivity|]. split; [reflexivity|].
  split; [vm_compute; reflexivity|].
  apply String.eqb_neq. vm_compute. reflexivity.
Qed.

(** * Further properties of the script *)

(** ** More on the cells of the two strings *)

Lemma styled_apply (fontStyle t : string) :
  plain t = true -> styled fontStyle (applyFontStyle t fontStyle).
Proof. intros H. exists t. split; [exact H | reflexivity]. Qed.

Lemma header_cells_styled autoNumber fontStyle shown :
  Forall (styled fontStyle) (header_cells autoNumber fontStyle shown).
Proof.
  unfold header_cells. apply Forall_app. split.
  - destruct autoNumber; [|constructor].
    constructor; [|constructor]. now apply styled_apply.
  - apply Forall_forall. intros c Hin. apply in_map_iff in Hin as [i [<- _]].
    apply styled_apply. now rewrite plain_app, plain_Z_toString.
Qed.

Lemma body_cells_styled autoNumber fontStyle texts :
  texts_ok texts = true ->
  forall i, Forall (Forall (styled fontStyle)) (body_cells autoNumber fontStyle i texts).
Proof.
  unfold texts_ok. induction texts as [|t rest IH]; intros H i; [constructor|].
  cbn [forallb] in H. apply andb_true_iff in H as [Ht Hr].
  apply andb_true_iff in Ht as [_ Hp].
  cbn [body_cells]. constructor; [|now apply IH].
  unfold data_cells. apply Forall_app. split.
  - destruct autoNumber; [|constructor].
    constructor; [|constructor]. apply styled_apply, plain_Z_toString.
  - apply Forall_forall. intros c Hin. apply in_map_iff in Hin as [t0 [<- Hin]].
    apply styled_apply. rewrite forallb_forall in Hp. now apply Hp.
Qed.

(** X1: every cell of the full output and of the preview (header cells,
    row-number cells and data cells) is a plain text, inside the bold
    directive when the font style is bold and as it is otherwise. *)
Theorem X1_every_cell_styled rnd d rows columns style hasHeader autoNumber fontStyle isNumeric :
  0 < rows -> 0 < columns ->
  Forall (Forall (styled fontStyle))
    (table_rows (full rnd d rows columns style hasHeader autoNumber fontStyle isNumeric))
  /\ Forall (Forall (styled fontStyle))
       (table_rows (preview rnd d rows columns style hasHeader autoNumber fontStyle isNumeric)).
Proof.
  intros Hr Hc. rewrite full_rows, preview_rows by assumption.
  split; apply Forall_app; split.
  - destruct hasHeader; constructor; [apply header_cells_styled | constructor].
  - apply body_cells_styled, body_texts_ok. lia.
  - destruct hasHeader; constructor; [apply header_cells_styled | constructor].
  - apply body_cells_styled, crop_ok; [lia | apply body_texts_ok; lia].
Qed.

Lemma X1_every_cell_styled_witness :
  Forall (Forall (styled "bold"))
    (table_rows (full (fun _ => 0%Q) 0 2 7 "full" true true "bold" true))
  /\ Forall (Forall (styled "bold"))
       (table_rows (preview (fun _ => 0%Q) 0 2 7 "full" true true "bold" true)).
Proof.
  apply (X1_every_cell_styled (fun _ => 0%Q) 0 2 7 "full" true true "bold" true); lia.
Defined.

(** X2: the full output holds one row for every data row, one more when
    there is a header, and each of its rows holds one cell for every column,
    one more when the rows are numbered. *)
Theorem X2_full_size rnd d rows columns style hasHeader autoNumber fontStyle isNumeric :
  0 < rows -> 0 < columns ->
  let shown :=
    table_rows (full rnd d rows columns style hasHeader autoNumber fontStyle isNumeric) in
  Z.of_nat (List.length shown) = rows + (if hasHeader then 1 else 0)
  /\ Forall (fun r => Z.of_nat (List.length r)
                      = columns + (if autoNumber then 1 else 0)) shown.
Proof.
  intros Hr Hc shown. unfold shown. rewrite full_rows by assumption. split.
  - rewrite length_app, body_cells_length, body_texts_length.
    destruct hasHeader; cbn [List.length]; lia.
  - apply Forall_app. split.
    + destruct hasHeader; [|constructor].
      constructor; [|constructor].
      rewrite header_cells_length. destruct autoNumber; lia.
    + eapply Forall_impl;
        [| apply (body_cells_widths autoNumber fontStyle (Z.to_nat columns));
           apply body_texts_widths].
      cbv beta. intros r Hlen. rewrite Hlen. destruct autoNumber; lia.
Qed.

Lemma X2_full_size_witness :
  let shown := table_rows (full (fun _ => 0%Q) 0 7 9 "none" true true "normal" false) in
  Z.of_nat (List.length shown) = 7 + 1
  /\ Forall (fun r => Z.of_nat (List.length r) = 9 + 1) shown.
Proof. apply (X2_full_size (fun _ => 0%Q) 0 7 9 "none" true true "normal" false); lia. Defined.

Lemma body_cells_numbers fontStyle texts :
  forall i,
    map (hd "") (body_cells true fontStyle i texts)
    = map (fun k => applyFontStyle (Z_toString k) fontStyle) (range i (List.length texts)).
Proof.
  induction texts as [|t rest IH]; intros i; [reflexivity|].
  cbn [body_cells List.length range map]. now rewrite IH.
Qed.

(** X3: when the rows are numbered, the first cells of the data rows are
    the numbers 1, 2, ..., rows in the full output and 1, ..., min(rows, 5)
    in the preview, each passed through [applyFontStyle], with numeric cells
    or without. *)
Theorem X3_row_numbers rnd d rows columns style hasHeader fontStyle isNumeric :
  0 < rows -> 0 < columns ->
  map (hd "")
    (skipn (extra hasHeader)
       (table_rows (full rnd d rows columns style hasHeader true fontStyle isNumeric)))
  = map (fun k => applyFontStyle (Z_toString k) fontStyle) (range 1 (Z.to_nat rows))
  /\ map (hd "")
       (skipn (extra hasHeader)
          (table_rows (preview rnd d rows columns style hasHeader true fontStyle isNumeric)))
     = map (fun k => applyFontStyle (Z_toString k) fontStyle)
         (range 1 (Z.to_nat (Z.min rows 5))).
Proof.
  intros Hr Hc. rewrite full_rows, preview_rows by assumption.
  split.
  - replace (skipn (extra hasHeader) _)
      with (body_cells true fontStyle 1
              (body_texts rnd isNumeric (Z.to_nat columns) d (Z.to_nat rows)))
      by (destruct hasHeader; reflexivity).
    now rewrite body_cells_numbers, body_texts_length.
  - replace (skipn (extra hasHeader) _)
      with (body_cells true fontStyle 1
              (crop (Z.to_nat (Z.min rows 5)) (Z.to_nat (Z.min columns 5))
                 (body_texts rnd isNumeric (Z.to_nat columns) d (Z.to_nat rows))))
      by (destruct hasHeader; reflexivity).
    now rewrite body_cells_numbers, cropped_length by assumption.
Qed.

Lemma X3_row_numbers_witness :
  map (hd "")
    (skipn (extra true)
       (table_rows (full (fun _ => 0%Q) 0 7 2 "none" true true "bold" true)))
  = map (fun k => applyFontStyle (Z_toString k) "bold") (range 1 (Z.to_nat 7))
  /\ map (hd "")
       (skipn (extra true)
          (table_rows (preview (fun _ => 0%Q) 0 7 2 "none" true true "bold" true)))
     = map (fun k => applyFontStyle (Z_toString k) "bold")
         (range 1 (Z.to_nat (Z.min 7 5))).
Proof. apply (X3_row_numbers (fun _ => 0%Q) 0 7 2 "none" true "bold" true); lia. Defined.

(** ** The order of the draws *)

Lemma row_texts_nth rnd (n : nat) :
  forall d j0 (j : nat),
    (j < n)%nat ->
    nth j (row_texts rnd true d j0 n) ""
    = Number_toString (generateRandomValue (rnd (d + j)%nat)).
Proof.
  induction n as [|n IH]; intros d j0 j Hj; [lia|].
  cbn [row_texts]. destruct j as [|j].
  - cbn [nth]. now rewrite Nat.add_0_r.
  - cbn [nth]. rewrite IH by lia. do 3 f_equal. lia.
Qed.

Lemma body_texts_nth rnd (ncols n : nat) :
  forall d (i j : nat),
    (i < n)%nat -> (j < ncols)%nat ->
    nth j (nth i (body_texts rnd true ncols d n) []) ""
    = Number_toString (generateRandomValue (rnd (d + i * ncols + j)%nat)).
Proof.
  induction n as [|n IH]; intros d i j Hi Hj; [lia|].
  cbn [body_texts]. destruct i as [|i].
  - cbn [nth]. rewrite row_texts_nth by exact Hj. do 3 f_equal. lia.
  - cbn [nth]. rewrite IH by lia. do 3 f_equal. lia.
Qed.

Lemma body_cells_nth autoNumber fontStyle texts :
  forall k (i j : nat),
    (i < List.length texts)%nat -> (j < List.length (nth i texts []))%nat ->
    nth (extra autoNumber + j) (nth i (body_cells autoNumber fontStyle k texts) []) ""
    = applyFontStyle (nth j (nth i texts []) "") fontStyle.
Proof.
  induction texts as [|t rest IH]; intros k i j Hi Hj; [cbn in Hi; lia|].
  cbn [body_cells]. destruct i as [|i].
  - cbn [nth] in *. unfold data_cells.
    rewrite app_nth2 by (destruct autoNumber; cbn; lia).
    replace (extra autoNumber + j
             - List.length (if autoNumber
                            then [applyFontStyle (Z_toString k) fontStyle] else []))%nat
      with j by (destruct autoNumber; cbn; lia).
    rewrite (nth_indep _ "" (applyFontStyle "" fontStyle))
      by (now rewrite length_map).
    apply (map_nth (fun x => applyFontStyle x fontStyle)).
  - cbn [nth List.length] in *. apply IH; [lia | exact Hj].
Qed.

(** X4: with numeric cells the draws are used row by row: the data cell in
    row i and column j (both counted from 0) holds the value of draw number
    i * columns + j of the click. *)
Theorem X4_draw_order rnd d rows columns style hasHeader autoNumber fontStyle (i j : nat) :
  0 < rows -> 0 < columns ->
  (i < Z.to_nat rows)%nat -> (j < Z.to_nat columns)%nat ->
  nth (extra autoNumber + j)
    (nth (extra hasHeader + i)
       (table_rows (full rnd d rows columns style hasHeader autoNumber fontStyle true)) [])
    ""
  = applyFontStyle
      (Number_toString (generateRandomValue (rnd (d + i * Z.to_nat columns + j)%nat)))
      fontStyle.
Proof.
  intros Hr Hc Hi Hj. rewrite full_rows by assumption.
  rewrite app_nth2 by (destruct hasHeader; cbn; lia).
  replace (extra hasHeader + i
           - List.length (if hasHeader
                          then [header_cells autoNumber fontStyle (Z.to_nat columns)]
                          else []))%nat
    with i by (destruct hasHeader; cbn; lia).
  assert (Hw := body_texts_widths rnd true (Z.to_nat columns) (Z.to_nat rows) d).
  rewrite Forall_forall in Hw.
  assert (Hlen : List.length
                   (nth i (body_texts rnd true (Z.to_nat columns) d (Z.to_nat rows)) [])
                 = Z.to_nat columns).
  { apply Hw, nth_In. now rewrite body_texts_length. }
  rewrite body_cells_nth by (rewrite ?body_texts_length, ?Hlen; assumption).
  now rewrite body_texts_nth.
Qed.

Lemma X4_draw_order_witness :
  let rnd := fun k : nat => (Z.of_nat k # 100)%Q in
  nth (extra true + 2)
    (nth (extra true + 1)
       (table_rows (full rnd 4 2 3 "full" true true "normal" true)) []) ""
  = applyFontStyle
      (Number_toString (generateRandomValue (rnd (4 + 1 * Z.to_nat 3 + 2)%nat))) "normal".
Proof.
  apply (X4_draw_order (fun k : nat => (Z.of_nat k # 100)%Q)
           4 2 3 "full" true true "normal" 1 2); lia.
Defined.

(** ** Small tables *)

Lemma layout_frame style hasHeader autoNumber fontStyle shown texts :
  exists mid : list line,
    (forall env',
       layout style hasHeader autoNumber fontStyle env' shown texts
       = (LOpen env' (colspec style autoNumber shown) :: mid ++ [LClose env'])%list).
Proof.
  exists ((if String.eqb style "full" then [LRule] else [])
            ++ (if hasHeader then
                  LRow (header_cells autoNumber fontStyle shown)
                    :: (if negb (String.eqb style "none") then [LRule] else [])
                else [])
            ++ body_lines style autoNumber fontStyle 1 texts
            ++ (if String.eqb style "full" then [LRule] else []))%list.
  intros env'. unfold layout. cbn [app]. f_equal. now rewrite <- !app_assoc.
Qed.

(** X5: for a table of at most 5 rows and 5 columns the preview shows the
    whole table: the lines of the two strings are the same but for the name
    of the environment in the first and in the last line. *)
Theorem X5_small_table rnd d rows columns style hasHeader autoNumber fontStyle isNumeric :
  0 < rows -> 0 < columns -> rows <= 5 -> columns <= 5 ->
  exists (spec : string) (mid : list string),
    split_lines (full rnd d rows columns style hasHeader autoNumber fontStyle isNumeric)
    = (("\begin{tabular}{" ++ spec ++ "}")%string :: mid ++ ["\end{tabular}"])%list
    /\ split_lines (preview rnd d rows columns style hasHeader autoNumber fontStyle isNumeric)
       = (("\begin{array}{" ++ spec ++ "}")%string :: mid ++ ["\end{array}"])%list.
Proof.
  intros Hr Hc Hr5 Hc5.
  set (texts := body_texts rnd isNumeric (Z.to_nat columns) d (Z.to_nat rows)).
  destruct (layout_frame style hasHeader autoNumber fontStyle (Z.to_nat columns) texts)
    as [mid Hmid].
  exists (colspec style autoNumber (Z.to_nat columns)), (map render_line mid).
  assert (HF := full_lines_ok rnd d rows columns style hasHeader autoNumber
                  fontStyle isNumeric).
  assert (HP := preview_lines_ok rnd d rows columns style hasHeader autoNumber
                  fontStyle isNumeric).
  rewrite full_render, preview_render by assumption.
  rewrite !split_lines_render
    by (apply layout_nonempty || (apply HF; assumption) || (apply HP; assumption)).
  replace (Z.min rows 5) with rows by lia.
  replace (Z.min columns 5) with columns by lia.
  rewrite crop_all. fold texts. rewrite !Hmid.
  cbn [map]. rewrite !map_app. split; reflexivity.
Qed.

Lemma X5_small_table_witness :
  exists (spec : string) (mid : list string),
    split_lines (full (fun _ => 0%Q) 0 5 5 "full" true true "bold" true)
    = (("\begin{tabular}{" ++ spec ++ "}")%string :: mid ++ ["\end{tabular}"])%list
    /\ split_lines (preview (fun _ => 0%Q) 0 5 5 "full" true true "bold" true)
       = (("\begin{array}{" ++ spec ++ "}")%string :: mid ++ ["\end{array}"])%list.
Proof. apply (X5_small_table (fun _ => 0%Q) 0 5 5 "full" true true "bold" true); lia. Defined.

(** ** Clicking twice *)

(** X6: without numeric cells, a second click on a form with two positive
    counts changes nothing: the state after two clicks is the state after
    one. *)
Theorem X6_click_twice rnd (w : World) (r c : Z) :
  parseInt (rows_value (form w)) = Int r ->
  parseInt (columns_value (form w)) = Int c ->
  0 < r -> 0 < c ->
  isNumeric_checked (form w) = false ->
  click rnd (click rnd w) = click rnd w.
Proof.
  intros Hpr Hpc Hr Hc Hnum.
  assert (H1 := click_valid rnd w r c Hpr Hpc Hr Hc). cbv zeta in H1.
  assert (Hd : draws (click rnd w) = draws w).
  { rewrite H1. cbn [draws]. rewrite build_draws by assumption. now rewrite Hnum. }
  assert (Hf : form (click rnd w) = form w) by (rewrite H1; reflexivity).
  assert (Ha : alerts (click rnd w) = alerts w) by (rewrite H1; reflexivity).
  assert (H2 := click_valid rnd (click rnd w) r c).
  rewrite Hf, Hd, Ha in H2. specialize (H2 Hpr Hpc Hr Hc). cbv zeta in H2.
  now rewrite H2, H1.
Qed.

Lemma X6_click_twice_witness :
  let w := world0 (mkForm "3" "2" "full" true true "bold" false) in
  click (fun _ => 0%Q) (click (fun _ => 0%Q) w) = click (fun _ => 0%Q) w.
Proof.
  apply (X6_click_twice (fun _ => 0%Q)
           (world0 (mkForm "3" "2" "full" true true "bold" false)) 3 2);
    try reflexivity; lia.
Defined.

(** ** Rounding a draw *)

Lemma round_of_fixed (n : Z) : Qfloor ((n # 10000) * 10000 + (1 # 2)) = n.
Proof.
  unfold Qfloor, Qplus, Qmult. cbn [Qnum Qden].
  change (Z.pos (10000 * 1 * 2)) with 20000. change (Z.pos (10000 * 1)) with 10000.
  symmetry. apply Z.div_unique with (r := 10000); lia.
Qed.

Lemma parse_fixed (n : Z) :
  0 <= n <= 10000 -> parseFloat (with_point4 n) = Fin (n # 10000).
Proof.
  intros Hn. pose proof (fixed_ok_range n Hn) as Hok. unfold fixed_ok in Hok.
  destruct (parseFloat (with_point4 n)) as [|q]; [discriminate|].
  apply andb_true_iff in Hok as [Hok _]. apply andb_true_iff in Hok as [Hok _].
  apply andb_true_iff in Hok as [Hnum Hden].
  apply Z.eqb_eq in Hnum. apply Pos.eqb_eq in Hden.
  destruct q; cbn in Hnum, Hden. congruence.
Qed.

(** X7: rounding a draw keeps the order of the draws, and a value that a
    draw was rounded to is rounded to itself. *)
Theorem X7_rounding (x y : Q) :
  (0 <= x)%Q -> (x <= y)%Q -> (y < 1)%Q ->
  exists vx vy : Q,
    generateRandomValue x = Fin vx
    /\ generateRandomValue y = Fin vy
    /\ (vx <= vy)%Q
    /\ generateRandomValue vx = Fin vx
    /\ generateRandomValue vy = Fin vy.
Proof.
  intros H0 Hxy H1.
  assert (H0y : (0 <= y)%Q) by (eapply Qle_trans; eassumption).
  assert (H1x : (x < 1)%Q) by (eapply Qle_lt_trans; eassumption).
  destruct (generateRandomValue_spec x H0 H1x) as [Hnx [Hvx _]].
  destruct (generateRandomValue_spec y H0y H1) as [Hny [Hvy _]].
  set (nx := Qfloor (x * 10000 + (1 # 2))) in *.
  set (ny := Qfloor (y * 10000 + (1 # 2))) in *.
  assert (Hle : nx <= ny).
  { apply Qfloor_resp_le. apply Qplus_le_l. apply Qmult_le_compat_r; [exact Hxy|].
    discriminate. }
  assert (Hfix : forall n, 0 <= n <= 10000 -> generateRandomValue (n # 10000) = Fin (n # 10000)).
  { intros n Hn. unfold generateRandomValue.
    rewrite toFixed4_nonneg by (unfold Qle; cbn; lia).
    rewrite round_of_fixed. now apply parse_fixed. }
  exists (nx # 10000), (ny # 10000).
  split; [exact Hvx|]. split; [exact Hvy|]. split.
  - unfold Qle. cbn [Qnum Qden]. lia.
  - split; apply Hfix; assumption.
Qed.

Lemma X7_rounding_witness :
  exists vx vy : Q,
    generateRandomValue (1 # 3) = Fin vx
    /\ generateRandomValue (2 # 3) = Fin vy
    /\ (vx <= vy)%Q
    /\ generateRandomValue vx = Fin vx
    /\ generateRandomValue vy = Fin vy.
Proof.
  apply (X7_rounding (1 # 3) (2 # 3)); unfold Qle, Qlt; simpl; lia.
Defined.

(** ** The text given to the page *)

Lemma clean_app (a b : string) : clean (a ++ b) = clean a && clean b.
Proof. apply all_chars_app. Qed.

Lemma clean_repeat (s : string) (n : nat) : clean s = true -> clean (repeat s n) = true.
Proof.
  intros H. induction n as [|n IH]; [reflexivity|].
  cbn [repeat]. now rewrite clean_app, H, IH.
Qed.

Lemma clean_uint (u : Decimal.uint) : clean (NilEmpty.string_of_uint u) = true.
Proof. induction u; simpl; auto. Qed.

Lemma clean_Z_toString (z : Z) : clean (Z_toString z) = true.
Proof.
  unfold Z_toString. destruct (Z.to_int z) as [u|u]; simpl; apply clean_uint.
Qed.

Lemma clean_frac_digits (fuel : nat) : forall r, clean (frac_digits fuel r) = true.
Proof.
  induction fuel as [|f IH]; intros r; simpl; [reflexivity|].
  destruct (Qeq_bool r 0); [reflexivity|].
  now rewrite clean_app, clean_Z_toString, IH.
Qed.

Lemma clean_Number_toString (v : flt) : clean (Number_toString v) = true.
Proof.
  destruct v as [|q]; [reflexivity|]. unfold Number_toString.
  destruct (Qlt_le_dec q 0); rewrite !clean_app, clean_Z_toString;
    match goal with |- context [Qeq_bool ?r 0] => destruct (Qeq_bool r 0) end;
    rewrite ?clean_app, ?clean_frac_digits; reflexivity.
Qed.

Lemma clean_applyFontStyle (t fontStyle : string) :
  clean t = true -> clean (applyFontStyle t fontStyle) = true.
Proof.
  intros H. unfold applyFontStyle. destruct (String.eqb fontStyle "bold"); [|exact H].
  now rewrite !clean_app, H.
Qed.

Lemma clean_join (sep : string) (l : list string) :
  clean sep = true -> forallb clean l = true -> clean (join sep l) = true.
Proof.
  intros Hs. induction l as [|x r IH]; [reflexivity|].
  cbn [forallb]. intros H. apply andb_true_iff in H as [Hx Hr].
  destruct r as [|y r]; [exact Hx|].
  rewrite join_cons by discriminate. now rewrite !clean_app, Hx, Hs, (IH Hr).
Qed.

Lemma clean_colspec style autoNumber shown : clean (colspec style autoNumber shown) = true.
Proof.
  unfold colspec.
  destruct (String.eqb style "full"); [|destruct (String.eqb style "horizontal")];
    destruct autoNumber; rewrite ?clean_app, ?clean_repeat; reflexivity.
Qed.

Lemma clean_header_cells autoNumber fontStyle shown :
  forallb clean (header_cells autoNumber fontStyle shown) = true.
Proof.
  unfold header_cells. rewrite forallb_app. apply andb_true_iff. split.
  - destruct autoNumber; [|reflexivity]. cbn [forallb].
    now rewrite clean_applyFontStyle.
  - apply forallb_forall. intros c Hin. apply in_map_iff in Hin as [i [<- _]].
    apply clean_applyFontStyle. now rewrite clean_app, clean_Z_toString.
Qed.

Lemma clean_row_texts rnd isNumeric (n : nat) :
  forall d j, forallb clean (row_texts rnd isNumeric d j n) = true.
Proof.
  induction n as [|n IH]; intros d j; [reflexivity|].
  cbn [row_texts forallb]. rewrite IH, andb_true_r. unfold cell_text.
  destruct isNumeric; [apply clean_Number_toString|].
  now rewrite clean_app, clean_Z_toString.
Qed.

Lemma clean_body_texts rnd isNumeric (ncols n : nat) :
  forall d, forallb (forallb clean) (body_texts rnd isNumeric ncols d n) = true.
Proof.
  induction n as [|n IH]; intros d; [reflexivity|].
  cbn [body_texts forallb]. now rewrite clean_row_texts, IH.
Qed.

Lemma clean_crop (nrows ncols : nat) texts :
  forallb (forallb clean) texts = true ->
  forallb (forallb clean) (crop nrows ncols texts) = true.
Proof.
  unfold crop. revert nrows. induction texts as [|t rest IH]; intros nrows H.
  - now rewrite firstn_nil.
  - destruct nrows as [|nrows]; [reflexivity|].
    cbn [firstn map forallb] in *. apply andb_true_iff in H as [Ht Hr].
    now rewrite (forallb_firstn _ _ _ Ht), (IH _ Hr).
Qed.

Lemma clean_data_cells autoNumber fontStyle i t :
  forallb clean t = true -> forallb clean (data_cells autoNumber fontStyle i t) = true.
Proof.
  intros H. unfold data_cells. rewrite forallb_app. apply andb_true_iff. split.
  - destruct autoNumber; [|reflexivity]. cbn [forallb].
    now rewrite clean_applyFontStyle by apply clean_Z_toString.
  - rewrite forallb_forall in *. intros c Hin.
    apply in_map_iff in Hin as [t0 [<- Hin]]. apply clean_applyFontStyle. now apply H.
Qed.

Lemma clean_render_line (l : line) : line_clean l = true -> clean (render_line l) = true.
Proof.
  destruct l as [env spec| |cells|env]; cbn [line_clean render_line]; intros H.
  - apply andb_true_iff in H as [He Hs]. now rewrite !clean_app, He, Hs.
  - reflexivity.
  - rewrite !clean_app, clean_join; [reflexivity | reflexivity | exact H].
  - now rewrite !clean_app, H.
Qed.

Lemma clean_render (ls : list line) :
  forallb line_clean ls = true -> clean (render ls) = true.
Proof.
  intros H. unfold render. apply clean_join; [reflexivity|].
  induction ls as [|l r IH]; [reflexivity|].
  cbn [forallb map] in *. apply andb_true_iff in H as [Hl Hr].
  now rewrite clean_render_line, IH.
Qed.

Lemma body_lines_clean style autoNumber fontStyle texts :
  forallb (forallb clean) texts = true ->
  forall i, forallb line_clean (body_lines style autoNumber fontStyle i texts) = true.
Proof.
  induction texts as [|t rest IH]; intros H i; [reflexivity|].
  cbn [forallb] in H. apply andb_true_iff in H as [Ht Hr].
  cbn [body_lines forallb line_clean]. rewrite (clean_data_cells _ _ _ _ Ht).
  destruct rest as [|t2 rest]; [reflexivity|].
  rewrite forallb_app, (IH Hr). destruct (ruled style); reflexivity.
Qed.

Lemma layout_clean style hasHeader autoNumber fontStyle env shown texts :
  clean env = true -> forallb (forallb clean) texts = true ->
  forallb line_clean (layout style hasHeader autoNumber fontStyle env shown texts) = true.
Proof.
  intros He Ht. unfold layout.
  rewrite !forallb_app, body_lines_clean by exact Ht.
  cbn [forallb line_clean]. rewrite He, clean_colspec.
  pose proof (clean_header_cells autoNumber fontStyle shown) as Hh.
  destruct (String.eqb style "full"), hasHeader, (negb (String.eqb style "none"));
    cbn [forallb line_clean]; rewrite ?Hh; reflexivity.
Qed.

Lemma ats_app (a b : string) :
  amp_then_space a = true -> amp_then_space b = true -> amp_then_space (a ++ b) = true.
Proof.
  intros Ha Hb. induction a as [|x a IH]; [exact Hb|].
  cbn [append amp_then_space] in *. apply andb_true_iff in Ha as [H1 H2].
  rewrite (IH H2), andb_true_r.
  destruct (is_amp x); [|reflexivity].
  destruct a; [discriminate | exact H1].
Qed.

Lemma ats_quiet (s : string) : quiet s = true -> amp_then_space s = true.
Proof.
  unfold quiet. induction s as [|x s IH]; [reflexivity|].
  cbn [all_chars amp_then_space]. intros H. apply andb_true_iff in H as [H1 H2].
  unfold quiet_char in H1. apply andb_true_iff in H1 as [H1 _].
  apply negb_true_iff in H1. now rewrite H1, IH.
Qed.

Lemma ats_join (cells : list string) :
  forallb quiet cells = true -> amp_then_space (join cell_sep cells) = true.
Proof.
  induction cells as [|c r IH]; [reflexivity|].
  cbn [forallb]. intros H. apply andb_true_iff in H as [Hc Hr].
  destruct r as [|c2 r]; [now apply ats_quiet|].
  rewrite join_cons by discriminate.
  apply ats_app; [now apply ats_quiet|]. apply ats_app; [reflexivity | now apply IH].
Qed.

Lemma ats_render_line (l : line) :
  line_ok l = true -> amp_then_space (render_line l) = true.
Proof.
  destruct l as [env spec| |cells|env]; cbn [line_ok render_line]; intros H.
  - apply andb_true_iff in H as [He Hs]. apply ats_quiet.
    now rewrite !quiet_app, (plain_quiet _ He), (plain_quiet _ Hs).
  - reflexivity.
  - apply andb_true_iff in H as [_ H].
    apply ats_app; [|reflexivity]. now apply ats_join, cells_quiet.
  - apply ats_quiet. now rewrite !quiet_app, (plain_quiet _ H).
Qed.

Lemma ats_render (ls : list line) :
  forallb line_ok ls = true -> amp_then_space (render ls) = true.
Proof.
  unfold render. induction ls as [|l r IH]; [reflexivity|].
  cbn [forallb]. intros H. apply andb_true_iff in H as [Hl Hr].
  destruct r as [|l2 r]; [now apply ats_render_line|].
  cbn [map]. rewrite join_cons by discriminate.
  apply ats_app; [now apply ats_render_line|].
  apply ats_app; [reflexivity | now apply IH].
Qed.

(** X8: whatever the style and font-style fields hold, the text handed to
    the page as innerHTML holds neither [<] nor [>], and each [&] in it is
    followed by a space: it holds no tag and no character reference.  The
    same is true of the full output. *)
Theorem X8_no_markup rnd d rows columns style hasHeader autoNumber fontStyle isNumeric :
  0 < rows -> 0 < columns ->
  let P := renderTablePreview
             (preview rnd d rows columns style hasHeader autoNumber fontStyle isNumeric) in
  let F := full rnd d rows columns style hasHeader autoNumber fontStyle isNumeric in
  clean P = true /\ amp_then_space P = true
  /\ clean F = true /\ amp_then_space F = true.
Proof.
  intros Hr Hc P F. unfold P, F, renderTablePreview.
  rewrite full_render, preview_render by assumption.
  assert (HF := full_lines_ok rnd d rows columns style hasHeader autoNumber
                  fontStyle isNumeric).
  assert (HP := preview_lines_ok rnd d rows columns style hasHeader autoNumber
                  fontStyle isNumeric).
  repeat split.
  - rewrite !clean_app, clean_render; [reflexivity|].
    apply layout_clean; [reflexivity|]. apply clean_crop, clean_body_texts.
  - apply ats_app; [reflexivity|]. apply ats_app; [|reflexivity].
    apply ats_render. apply HP; assumption.
  - apply clean_render, layout_clean; [reflexivity | apply clean_body_texts].
  - apply ats_render. apply HF; assumption.
Qed.

Lemma X8_no_markup_witness :
  let P := renderTablePreview
             (preview (fun _ => 0%Q) 0 7 7 "<b>" true true "<i>" true) in
  let F := full (fun _ => 0%Q) 0 7 7 "<b>" true true "<i>" true in
  clean P = true /\ amp_then_space P = true
  /\ clean F = true /\ amp_then_space F = true.
Proof. apply (X8_no_markup (fun _ => 0%Q) 0 7 7 "<b>" true true "<i>" true); lia. Defined.

(** ** Reading a count back *)

Ltac each_char c :=
  destruct c as [[] [] [] [] [] [] [] []].

Lemma digit_val_other (c : ascii) : is_digit c = false -> digit_val 10 c = None.
Proof. each_char c; intros H; try reflexivity; discriminate H. Qed.

Lemma trimStart_keep (c : ascii) (r : string) :
  is_digit c = true \/ c = "-"%char -> trimStart (String c r) = String c r.
Proof.
  intros [H| ->].
  - each_char c; try discriminate H; destruct r as [|b [|c3 r3]]; reflexivity.
  - destruct r as [|b [|c3 r3]]; reflexivity.
Qed.

Lemma digits_prefix_stop (acc : option Z) (rest : string) :
  no_digit_next rest = true -> digits_prefix 10 acc rest = acc.
Proof.
  destruct rest as [|c r]; [reflexivity|]. cbn [no_digit_next digits_prefix].
  intros H. apply negb_true_iff in H. now rewrite digit_val_other.
Qed.

Lemma digits_prefix_uint (u : Decimal.uint) (rest : string) :
  no_digit_next rest = true ->
  forall acc,
    digits_prefix 10 (Some acc) (NilEmpty.string_of_uint u ++ rest)
    = Some (uint_value acc u).
Proof.
  intros Hrest. induction u; intros acc;
    cbn [NilEmpty.string_of_uint append uint_value];
    try (change (digits_prefix 10 (Some acc) (String ?c ?s))
           with (digits_prefix 10 (Some (acc * 10 + (code c - 48))) s);
         apply IHu).
  now apply digits_prefix_stop.
Qed.

Lemma uint_value_pos (u : Decimal.uint) :
  forall a : positive, uint_value (Z.pos a) u = Z.pos (Pos.of_uint_acc u a).
Proof.
  induction u; intros a; cbn [uint_value Pos.of_uint_acc]; [reflexivity|..];
    match goal with
    | |- uint_value ?x _ = Z.pos (Pos.of_uint_acc _ ?y) =>
        replace x with (Z.pos y) by lia
    end; apply IHu.
Qed.

Lemma uint_value_zero (u : Decimal.uint) : uint_value 0 u = Z.of_uint u.
Proof.
  unfold Z.of_uint. induction u; cbn [uint_value Pos.of_uint]; [reflexivity|..];
    try exact IHu;
    match goal with
    | |- uint_value ?x _ = _ => change x with (Z.pos (Pos.of_uint_acc Decimal.Nil (Z.to_pos x)))
    end; cbn [Pos.of_uint_acc Z.to_pos Z.of_N]; apply uint_value_pos.
Qed.

Lemma to_uint_first (p : positive) (u : Decimal.uint) : Pos.to_uint p <> Decimal.D0 u.
Proof.
  intros E.
  assert (Hn : Decimal.unorm (Pos.to_uint p) = Pos.to_uint p).
  { rewrite <- DecimalPos.Unsigned.to_of, DecimalPos.Unsigned.of_to. reflexivity. }
  assert (Hcases : Decimal.nzhead (Pos.to_uint p) = Decimal.Nil
                   \/ Decimal.nzhead (Pos.to_uint p) <> Decimal.Nil).
  { destruct (Decimal.nzhead (Pos.to_uint p)); [now left | right; discriminate ..]. }
  destruct Hcases as [Hz|Hz].
  - apply DecimalFacts.unorm_0 in Hz. rewrite Hn in Hz. now apply DecimalPos.Unsigned.to_uint_nonzero in Hz.
  - apply DecimalFacts.unorm_nzhead in Hz. rewrite Hn, E in Hz.
    symmetry in Hz. now apply DecimalFacts.nzhead_nonzero in Hz.
Qed.

(** The digits of an unsigned number, followed by a text that starts with
    no digit, are read as the number; after a single 0 the text must not go
    on with x, which would announce a hexadecimal number. *)
Lemma parseInt_unsigned (u : Decimal.uint) (rest : string) :
  u <> Decimal.Nil ->
  (forall u', u = Decimal.D0 u' -> u' = Decimal.Nil /\ no_x_next rest = true) ->
  no_digit_next rest = true ->
  parseInt (NilEmpty.string_of_uint u ++ rest) = Int (Z.of_uint u)
  /\ parseInt ("-" ++ NilEmpty.string_of_uint u ++ rest) = Int (- Z.of_uint u).
Proof.
  intros Hnil Hzero Hrest. rewrite <- uint_value_zero.
  destruct u; [congruence|..]; clear Hnil;
    cbn [NilEmpty.string_of_uint append uint_value]; unfold parseInt;
    rewrite !trimStart_keep by ((left; reflexivity) || (right; reflexivity)).
  1: { destruct (Hzero u eq_refl) as [-> Hx]. cbn [NilEmpty.string_of_uint append].
       destruct rest as [|c r]; [split; reflexivity|].
       cbn [no_x_next no_digit_next] in Hx, Hrest.
       each_char c; try discriminate Hx; try discriminate Hrest;
         split; reflexivity. }
  all: cbv beta iota zeta;
    match goal with
    | |- context [digits_prefix 10 None (String ?c ?s)] =>
        change (digits_prefix 10 None (String c s))
          with (digits_prefix 10 (Some (code c - 48)) s)
    end;
    rewrite !digits_prefix_uint by exact Hrest;
    split; f_equal; try exact (Z.mul_1_l _).
Qed.

Lemma parseInt_toString (z : Z) (rest : string) :
  no_digit_next rest = true ->
  (z = 0 -> no_x_next rest = true) ->
  parseInt (Z_toString z ++ rest) = Int z.
Proof.
  intros Hrest Hx. unfold Z_toString.
  destruct z as [|p|p]; cbn [Z.to_int NilEmpty.string_of_int].
  - apply (parseInt_unsigned Decimal.zero rest); [discriminate | | exact Hrest].
    intros u' E. injection E as <-. split; [reflexivity | now apply Hx].
  - replace (Z.pos p) with (Z.of_uint (Pos.to_uint p))
      by (unfold Z.of_uint; now rewrite DecimalPos.Unsigned.of_to).
    apply parseInt_unsigned; [apply DecimalPos.Unsigned.to_uint_nonnil | | exact Hrest].
    intros u' E. now apply to_uint_first in E.
  - replace (Z.neg p) with (- Z.of_uint (Pos.to_uint p))
      by (unfold Z.of_uint; now rewrite DecimalPos.Unsigned.of_to).
    apply (parseInt_unsigned (Pos.to_uint p)); [apply DecimalPos.Unsigned.to_uint_nonnil | | exact Hrest].
    intros u' E. now apply to_uint_first in E.
Qed.

Lemma trimStart_ws (ws s : string) :
  all_chars ws1 ws = true -> trimStart (ws ++ s) = trimStart s.
Proof.
  induction ws as [|c ws IH]; intros H; [reflexivity|].
  simpl in H. apply andb_true_iff in H as [Hc Hw].
  simpl. rewrite Hc. now apply IH.
Qed.

Lemma parseInt_ws (ws s : string) :
  all_chars ws1 ws = true -> parseInt (ws ++ s) = parseInt s.
Proof. intros H. unfold parseInt. now rewrite trimStart_ws. Qed.

(** X9: [parseInt] reads back the decimal text of every integer from
    -2^53 to 2^53, the range in which every integer is a Number of the
    source, negative ones and zero included, after any run of ASCII white
    space and before any text that does not go on with a digit (nor, after
    the text [0], with [x] or [X], which would start a hexadecimal
    number). *)
Theorem X9_parseInt_reads_back (ws : string) (z : Z) (rest : string) :
  - 2 ^ 53 <= z <= 2 ^ 53 ->
  all_chars ws1 ws = true ->
  no_digit_next rest = true ->
  (z = 0 -> no_x_next rest = true) ->
  parseInt (ws ++ Z_toString z ++ rest) = Int z.
Proof.
  intros _ Hw Hr Hx. rewrite parseInt_ws by exact Hw. now apply parseInt_toString.
Qed.

Lemma X9_parseInt_reads_back_witness :
  parseInt (" " ++ LF ++ "-120" ++ ".75e3 rows") = Int (-120).
Proof.
  apply (X9_parseInt_reads_back (" " ++ LF) (-120) ".75e3 rows").
  - lia.
  - reflexivity.
  - reflexivity.
  - discriminate.
Defined.

(** X10: a click whose two count fields hold the decimal texts of positive
    integers [r] and [c], each followed by any text that does not go on
    with a digit (a unit, a fraction, an exponent), shows no alert and
    writes the table of [r] rows and [c] columns. *)
Theorem X10_counts_with_trailing_text rnd (w : World) (r c : Z) (tr tc : string) :
  rows_value (form w) = Z_toString r ++ tr ->
  columns_value (form w) = Z_toString c ++ tc ->
  no_digit_next tr = true -> no_digit_next tc = true ->
  0 < r -> 0 < c ->
  let f := form w in
  alerts (click rnd w) = alerts w
  /\ output_value (click rnd w)
     = full rnd (draws w) r c (style_value f) (header_checked f)
         (autoNumber_checked f) (fontStyle_value f) (isNumeric_checked f)
  /\ tablePreview (click rnd w)
     = renderTablePreview
         (preview rnd (draws w) r c (style_value f) (header_checked f)
            (autoNumber_checked f) (fontStyle_value f) (isNumeric_checked f)).
Proof.
  intros Er Ec Hr Hc Hr0 Hc0 f.
  assert (Pr : parseInt (rows_value (form w)) = Int r)
    by (rewrite Er; apply parseInt_toString; [exact Hr | lia]).
  assert (Pc : parseInt (columns_value (form w)) = Int c)
    by (rewrite Ec; apply parseInt_toString; [exact Hc | lia]).
  rewrite (click_valid rnd w r c Pr Pc Hr0 Hc0). repeat split.
Qed.

Lemma X10_counts_with_trailing_text_witness :
  let f := mkForm "2e3" "3.9" "full" false false "normal" false in
  let w := world0 f in
  alerts (click (fun _ => 0%Q) w) = []
  /\ output_value (click (fun _ => 0%Q) w)
     = full (fun _ => 0%Q) 0 2 3 "full" false false "normal" false
  /\ tablePreview (click (fun _ => 0%Q) w)
     = renderTablePreview (preview (fun _ => 0%Q) 0 2 3 "full" false false "normal" false).
Proof.
  intros f w.
  apply (X10_counts_with_trailing_text (fun _ => 0%Q) w 2 3 "e3" ".9");
    try reflexivity; lia.
Defined.

(** ** The stored settings *)

Import Json.

Lemma run_app st a b : run st (a ++ b) = run (run st a) b.
Proof. revert st. induction a as [|c a IH]; intros st; simpl; [reflexivity | apply IH]. Qed.

Lemma run_err s : run PErr s = PErr.
Proof. induction s; simpl; auto. Qed.

Lemma run_escape_char c acc x stack res :
  run (PRun (MStr acc None) x stack res) (escape_char c)
  = PRun (MStr (acc ++ String c "") None) x stack res.
Proof. each_char c; reflexivity. Qed.

Lemma run_escape s : forall acc x stack res,
  run (PRun (MStr acc None) x stack res) (escape s)
  = PRun (MStr (acc ++ s) None) x stack res.
Proof.
  induction s as [|c s IH]; intros acc x stack res; simpl.
  - now rewrite sapp_nil_r.
  - rewrite run_app, run_escape_char, IH, sapp_assoc. reflexivity.
Qed.

Lemma quote_app s rest : quote s ++ rest = String dq (escape s ++ String dq rest).
Proof. unfold quote. simpl. now rewrite sapp_assoc. Qed.

Lemma guarded_app st a : forall b,
  guarded st a = true -> guarded (run st a) b = true -> guarded st (a ++ b) = true.
Proof.
  revert st. induction a as [|c a IH]; intros st b Ha Hb.
  - exact Hb.
  - simpl in Ha |- *. apply andb_true_iff in Ha as [H1 H2].
    rewrite H1. simpl. now apply IH.
Qed.

Lemma walk_app st a st' b st'' :
  walk st a st' -> walk st' b st'' -> walk st (a ++ b) st''.
Proof.
  intros [R1 G1] [R2 G2]. split.
  - now rewrite run_app, R1.
  - apply guarded_app; [exact G1 | now rewrite R1].
Qed.

Lemma guarded_escape_char c acc x fr stack res :
  guarded (PRun (MStr acc None) x (fr :: stack) res) (escape_char c) = true.
Proof. each_char c; reflexivity. Qed.

Lemma walk_escape s : forall acc x fr stack res,
  walk (PRun (MStr acc None) x (fr :: stack) res) (escape s)
       (PRun (MStr (acc ++ s) None) x (fr :: stack) res).
Proof.
  intros acc x fr stack res. split; [apply run_escape|].
  revert acc. induction s as [|c s IH]; intros acc; [reflexivity|].
  simpl. apply guarded_app; [apply guarded_escape_char|].
  rewrite run_escape_char. apply IH.
Qed.

Lemma walk_char st c st' :
  inside st = true -> step st c = st' -> inside st' = true ->
  walk st (String c "") st'.
Proof.
  intros H1 E H2. split; [exact E|]. simpl. now rewrite E, H1, H2.
Qed.

Lemma walk_quote st s st1 st2 :
  inside st = true -> step st dq = st1 ->
  (exists x fr stack res, st1 = PRun (MStr "" None) x (fr :: stack) res
     /\ end_string s x (fr :: stack) = st2) ->
  inside st2 = true ->
  walk st (quote s) st2.
Proof.
  intros H0 E1 (x & fr & stack & res & -> & E2) H2.
  change (quote s) with (String dq "" ++ escape s ++ String dq "").
  eapply walk_app; [apply walk_char; [exact H0 | exact E1 | reflexivity]|].
  eapply walk_app; [apply walk_escape|].
  apply walk_char; [reflexivity | | exact H2].
  rewrite <- E2. simpl. now rewrite sapp_nil_r.
Qed.

(** A key and its colon. *)
Lemma walk_key k m st (x : expect) :
  x = XKey \/ x = XKeyOrClose ->
  walk (PRun MIdle x (FObj m None :: st) None) (member k "")
       (PRun MIdle XValue (FObj m (Some k) :: st) None).
Proof.
  intros Hx. unfold member.
  eapply walk_app with (st' := PRun MIdle (XColon k) (FObj m None :: st) None).
  - eapply walk_quote; [reflexivity | reflexivity | | reflexivity].
    exists XKey, (FObj m None), st, None.
    split; [destruct Hx; subst x; reflexivity | reflexivity].
  - apply walk_char; reflexivity.
Qed.

Lemma walk_string k m st s :
  walk (PRun MIdle XValue (FObj m (Some k) :: st) None) (quote s)
       (PRun MIdle XComma (FObj (m ++ [(k, JStr s)]) None :: st) None).
Proof.
  eapply walk_quote; [reflexivity | reflexivity | | reflexivity].
  exists XValue, (FObj m (Some k)), st, None. split; reflexivity.
Qed.

Lemma walk_bool k m st b :
  walk (PRun MIdle XValue (FObj m (Some k) :: st) None) (bool_text b)
       (PRun MIdle XComma (FObj (m ++ [(k, JBool b)]) None :: st) None).
Proof. destruct b; split; reflexivity. Qed.

Lemma walk_comma m st :
  walk (PRun MIdle XComma (FObj m None :: st) None) ","
       (PRun MIdle XKey (FObj m None :: st) None).
Proof. split; reflexivity. Qed.

Lemma settings_text_body f : settings_text f = "{" ++ settings_body f ++ "}".
Proof.
  unfold settings_text, settings_body. cbn [join]. unfold member.
  rewrite !sapp_assoc. reflexivity.
Qed.

Lemma walk_body f :
  walk (PRun MIdle XKeyOrClose [FObj [] None] None) (settings_body f)
       (PRun MIdle XComma
          [FObj [ ("rows", JStr (rows_value f));
                  ("columns", JStr (columns_value f));
                  ("style", JStr (style_value f));
                  ("hasHeader", JBool (header_checked f));
                  ("autoNumber", JBool (autoNumber_checked f));
                  ("fontStyle", JStr (fontStyle_value f));
                  ("isNumeric", JBool (isNumeric_checked f)) ] None] None).
Proof.
  unfold settings_body.
  repeat (eapply walk_app;
          [ first [ apply walk_key; auto | apply walk_string | apply walk_bool
                  | apply walk_comma ] | ]).
  apply walk_bool.
Qed.

Lemma parse_settings (f : Form) : parse (settings_text f) = Some (settings_object f).
Proof.
  unfold parse. rewrite settings_text_body.
  change (finish (run (PRun MIdle XKeyOrClose [FObj [] None] None)
                    (settings_body f ++ "}")) = Some (settings_object f)).
  rewrite run_app. rewrite (proj1 (walk_body f)). reflexivity.
Qed.

Lemma inside_finish st : inside st = true -> finish st = None.
Proof.
  destruct st as [|[] x [|fr stack] res]; try discriminate; try reflexivity.
  now destruct x.
Qed.

Lemma guarded_prefix st s : forall t u,
  guarded st s = true -> s = t ++ u -> finish (run st t) = None.
Proof.
  revert st. induction s as [|c s IH]; intros st t u G E.
  - destruct t; [|discriminate]. simpl in G |- *. apply inside_finish.
    now rewrite andb_true_r in G.
  - simpl in G. apply andb_true_iff in G as [G1 G2].
    destruct t as [|c' t]; [now apply inside_finish|].
    simpl in E. injection E as <- E. simpl. eapply IH; eauto.
Qed.

Lemma snoc_split (a : string) (c : ascii) : forall t u,
  a ++ String c "" = t ++ u -> u <> "" -> exists u', a = t ++ u'.
Proof.
  induction a as [|x a IH]; intros t u E Hu.
  - destruct t as [|y t]; [now exists ""|].
    simpl in E. injection E as _ E. destruct t; [destruct u; [congruence|discriminate]|discriminate].
  - destruct t as [|y t]; [now exists (String x a)|].
    simpl in E. injection E as <- E. destruct (IH _ _ E Hu) as [u' ->]. now exists u'.
Qed.

Lemma parse_truncated (f : Form) (t u : string) :
  settings_text f = t ++ u -> u <> "" -> parse t = None.
Proof.
  rewrite settings_text_body. intros E Hu. unfold parse.
  destruct t as [|c t]; [reflexivity|].
  remember (settings_body f) as body eqn:Hb.
  change (String "{" (body ++ "}") = String c (t ++ u)) in E.
  injection E as <- E.
  apply snoc_split in E as [u' E]; [|exact Hu]. subst body.
  change (finish (run (PRun MIdle XKeyOrClose [FObj [] None] None) t) = None).
  eapply guarded_prefix; [|exact E].
  exact (proj2 (walk_body f)).
Qed.

(** ** The page *)

Lemma click_form rnd w : form (click rnd w) = form w.
Proof.
  unfold click.
  destruct (isNaN _ || isNaN _ || le0 _ || le0 _); [reflexivity|].
  now destruct (build _ _ _ _ _ _ _ _ _).
Qed.

Lemma load_settings assign (p : Page) (f : Form) :
  item p = Some (settings_text f) ->
  loadSettings assign p
  = Some (mkPage
            (set_form (world p)
               (mkForm (assign CRows (Some (JStr (rows_value f))))
                  (assign CColumns (Some (JStr (columns_value f))))
                  (assign CStyle (Some (JStr (style_value f))))
                  (header_checked f) (autoNumber_checked f)
                  (assign CFontStyle (Some (JStr (fontStyle_value f))))
                  (isNumeric_checked f)))
            (item p) (files p)).
Proof.
  intros E. unfold loadSettings. rewrite E, parse_settings. reflexivity.
Qed.

Lemma load_accepted assign (p : Page) (f : Form) :
  item p = Some (settings_text f) -> accepts assign f ->
  loadSettings assign p = Some (mkPage (set_form (world p) f) (item p) (files p)).
Proof.
  intros E (H1 & H2 & H3 & H4). rewrite (load_settings assign p f E).
  rewrite H1, H2, H3, H4. now destruct f.
Qed.

Lemma set_form_same w : set_form w (form w) = w.
Proof. now destruct w. Qed.

(** X11: [JSON.parse] reads the text that [saveSettings] stores back as the
    object that was saved, with its seven properties in the order they
    were written, whatever characters the four strings hold (quotes,
    backslashes, control characters, bytes of any encoding); hence two
    forms that are stored as the same text are the same form. *)
Theorem X11_saved_text_parses (f : Form) :
  parse (settings_text f) = Some (settings_object f)
  /\ forall f', settings_text f' = settings_text f -> f' = f.
Proof.
  split; [apply parse_settings|].
  intros f' E. pose proof (parse_settings f) as H. rewrite <- E, parse_settings in H.
  destruct f, f'. unfold settings_object in H. simpl in H. congruence.
Qed.

Lemma X11_saved_text_parses_witness :
  let f := mkForm "3" (String dq "\") "full" true false LF true in
  parse (settings_text f) = Some (settings_object f).
Proof. intros f. exact (proj1 (X11_saved_text_parses f)). Defined.

(** X12: when the stored item is the text saved from the fields [f], and
    each of the four text fields takes back the value it had,
    [loadSettings] throws nothing and sets the seven fields to [f]; it
    changes nothing else: not the output, the preview, the variables of the
    generator, the stored item or the downloads. *)
Theorem X12_load_restores assign (p : Page) (f : Form) :
  item p = Some (settings_text f) ->
  accepts assign f ->
  loadSettings assign p = Some (mkPage (set_form (world p) f) (item p) (files p)).
Proof.
  intros E (Hrows & Hcolumns & Hstyle & Hfont).
  unfold loadSettings. rewrite E, parse_settings.
  cbn [truthy settings_object get lookup String.eqb Ascii.eqb Bool.eqb to_boolean].
  rewrite Hrows, Hcolumns, Hstyle, Hfont. now destruct f.
Qed.

Lemma X12_load_restores_witness :
  let f := mkForm "3" (String dq "\") "full" true false LF true in
  let p := mkPage (world0 (mkForm "" "" "" false false "" false))
             (Some (settings_text f)) [] in
  loadSettings text_field p = Some (mkPage (world0 f) (item p) []).
Proof.
  intros f p.
  apply (X12_load_restores text_field p f); [reflexivity|].
  repeat split.
Defined.

(** X13: a click on the generate button stores the fields also when the
    counts are refused with the alert: after any click the stored item is
    the text of the fields as they are, and loading it gives the page as
    it is. *)
Theorem X13_every_click_saves rnd assign (p : Page) :
  accepts assign (form (world p)) ->
  item (generate rnd p) = Some (settings_text (form (world p)))
  /\ loadSettings assign (generate rnd p) = Some (generate rnd p).
Proof.
  intros Ha. split; [simpl; now rewrite click_form|].
  rewrite (load_accepted assign (generate rnd p) (form (world p))).
  - unfold generate, saveSettings. simpl. rewrite click_form.
    rewrite <- (click_form rnd (world p)) at 1. now rewrite set_form_same.
  - simpl. now rewrite click_form.
  - exact Ha.
Qed.

Lemma X13_every_click_saves_witness :
  let p := mkPage (world0 (mkForm "abc" "0" "full" true false "bold" true)) None [] in
  alerts (world (generate (fun _ => 0%Q) p)) = [alert_text]
  /\ item (generate (fun _ => 0%Q) p) = Some (settings_text (form (world p)))
  /\ loadSettings text_field (generate (fun _ => 0%Q) p)
     = Some (generate (fun _ => 0%Q) p).
Proof.
  intros p. split; [reflexivity|].
  apply (X13_every_click_saves (fun _ => 0%Q) text_field p).
  repeat split.
Defined.

(** X14: the reset button empties the output and the preview but not the
    stored settings: whatever [form.reset()] makes of the fields, loading
    after a click and a reset brings back the fields of the click, with
    the output and the preview still empty. *)
Theorem X14_reset_keeps_settings rnd reset_fields assign (p : Page) :
  accepts assign (form (world p)) ->
  exists q,
    loadSettings assign (resetBtn reset_fields (generate rnd p)) = Some q
    /\ form (world q) = form (world p)
    /\ output_value (world q) = ""
    /\ tablePreview (world q) = ""
    /\ item q = Some (settings_text (form (world p))).
Proof.
  intros Ha. eexists. split.
  - apply load_accepted with (f := form (world p)); [|exact Ha].
    simpl. now rewrite click_form.
  - simpl. rewrite click_form. repeat split.
Qed.

Lemma X14_reset_keeps_settings_witness :
  let f := mkForm "2" "2" "full" true false "bold" false in
  let p := mkPage (world0 f) None [] in
  exists q,
    loadSettings text_field
      (resetBtn (fun _ => mkForm "" "" "" false false "" false)
         (generate (fun _ => 0%Q) p)) = Some q
    /\ form (world q) = f
    /\ output_value (world q) = ""
    /\ tablePreview (world q) = ""
    /\ item q = Some (settings_text f).
Proof.
  intros f p.
  apply (X14_reset_keeps_settings (fun _ => 0%Q)
           (fun _ => mkForm "" "" "" false false "" false) text_field p).
  repeat split.
Defined.

Lemma handle_item rnd reset_fields e p :
  item (handle reset_fields rnd e p) = item p
  \/ exists f, item (handle reset_fields rnd e p) = Some (settings_text f).
Proof. destruct e; simpl; eauto. Qed.

Lemma session_item rnd reset_fields es : forall p,
  item (session reset_fields rnd es p) = item p
  \/ exists f, item (session reset_fields rnd es p) = Some (settings_text f).
Proof.
  induction es as [|e es IH]; intros p; simpl; [now left|].
  destruct (IH (handle reset_fields rnd e p)) as [E|E]; [|now right].
  rewrite E. apply handle_item.
Qed.

Lemma load_item assign p q :
  item p = item q -> loadSettings assign q <> None -> loadSettings assign p <> None.
Proof.
  unfold loadSettings. intros ->.
  destruct (parse _) as [v|]; [|easy]. intros _. now destruct (truthy v).
Qed.

(** X15: the page never stores a text it cannot load.  If [loadSettings]
    does not throw on a page, it does not throw after any sequence of
    clicks on the generate, reset and download buttons either, whatever
    the draws and whatever the fields hold at each click. *)
Theorem X15_stored_text_loads rnd reset_fields assign (es : list event) (p : Page) :
  loadSettings assign p <> None ->
  loadSettings assign (session reset_fields rnd es p) <> None.
Proof.
  intros H. destruct (session_item rnd reset_fields es p) as [E|[f E]].
  - now apply (load_item assign _ p).
  - rewrite (load_settings assign _ f E). discriminate.
Qed.

Lemma X15_stored_text_loads_witness :
  let p := mkPage (world0 (mkForm "2" (String dq "{") "full" true false "bold" true))
             None [] in
  loadSettings text_field
    (session (fun f => f) (fun _ => 0%Q) [Generate; Download; Reset; Generate] p)
  <> None.
Proof.
  intros p.
  apply (X15_stored_text_loads (fun _ => 0%Q) (fun f => f) text_field
           [Generate; Download; Reset; Generate] p).
  discriminate.
Defined.

(** X16: only the download button hands a file to the browser, one at each
    click and each named [table.tex]: after any sequence of clicks on the
    three buttons the downloads are the earlier ones followed by as many
    files of that name as there were clicks on the download button. *)
Theorem X16_downloads reset_fields rnd (es : list event) (p : Page) :
  exists texts,
    files (session reset_fields rnd es p)
    = (files p ++ map (fun t => ("table.tex", t)) texts)%list
    /\ length texts = length (filter is_download es).
Proof.
  revert p. induction es as [|e es IH]; intros p; simpl.
  - exists []. now rewrite app_nil_r.
  - destruct (IH (handle reset_fields rnd e p)) as (texts & E & L).
    rewrite E. destruct e; simpl; eauto.
    exists (output_value (world p) :: texts). split.
    + now rewrite <- app_assoc.
    + simpl. now rewrite L.
Qed.

(** X17: the file of a download holds the whole table, not the preview:
    after a click with the counts [r] and [c] the text of the file is the
    full string of that click, and after a reset it is empty. *)
Theorem X17_download_text reset_fields rnd (p : Page) (r c : Z) :
  parseInt (rows_value (form (world p))) = Int r ->
  parseInt (columns_value (form (world p))) = Int c ->
  0 < r -> 0 < c ->
  let f := form (world p) in
  files (downloadBtn (generate rnd p))
  = (files p ++ [("table.tex",
                  full rnd (draws (world p)) r c (style_value f) (header_checked f)
                    (autoNumber_checked f) (fontStyle_value f) (isNumeric_checked f))])%list
  /\ files (downloadBtn (resetBtn reset_fields (generate rnd p)))
     = (files p ++ [("table.tex", "")])%list.
Proof.
  intros Hr Hc Hr0 Hc0 f. split; [|reflexivity].
  unfold downloadBtn, generate, saveSettings. cbn [files world].
  now rewrite (click_valid rnd (world p) r c Hr Hc Hr0 Hc0).
Qed.

Lemma X17_download_text_witness :
  let f := mkForm "6" "7" "full" true true "bold" false in
  let p := mkPage (world0 f) None [] in
  files (downloadBtn (generate (fun _ => 0%Q) p))
  = [("table.tex", full (fun _ => 0%Q) 0 6 7 "full" true true "bold" false)]
  /\ files (downloadBtn (resetBtn (fun g => g) (generate (fun _ => 0%Q) p)))
     = [("table.tex", "")].
Proof.
  intros f p.
  apply (X17_download_text (fun g => g) (fun _ => 0%Q) p 6 7); reflexivity.
Defined.

Lemma run_spaces ws : forall x stack res,
  all_chars is_space ws = true ->
  run (PRun MIdle x stack res) ws = PRun MIdle x stack res.
Proof.
  induction ws as [|c ws IH]; intros x stack res H; [reflexivity|].
  simpl in H. apply andb_true_iff in H as [Hc Hw].
  simpl. unfold step_idle. rewrite Hc. now apply IH.
Qed.

Lemma finish_number ph a ws :
  final_phase ph = true -> all_chars is_space ws = true ->
  finish (run (PRun (MNum ph a) XValue [] None) ws) = Some (JNum (num_value a)).
Proof.
  intros Hp Hw. destruct ws as [|c ws]; [simpl; now rewrite Hp|].
  simpl in Hw. apply andb_true_iff in Hw as [Hc Hw].
  assert (E : step (PRun (MNum ph a) XValue [] None) c
              = PRun MIdle XEnd [] (Some (JNum (num_value a)))).
  { each_char c; try discriminate Hc; destruct ph; try discriminate Hp; reflexivity. }
  change (finish (run (step (PRun (MNum ph a) XValue [] None) c) ws)
          = Some (JNum (num_value a))).
  rewrite E, run_spaces by exact Hw. reflexivity.
Qed.

Lemma parse_falsy ws lit ws' :
  all_chars is_space ws = true -> all_chars is_space ws' = true ->
  In lit falsy_texts ->
  exists v, parse (ws ++ lit ++ ws') = Some v /\ truthy v = false.
Proof.
  intros Hw Hw' Hl. unfold parse. rewrite run_app, run_spaces by exact Hw.
  simpl in Hl.
  destruct Hl as [<-|[<-|[<-|[<-|[<-|[<-|[]]]]]]].
  - exists JNull. split; [|reflexivity].
    change (finish (run (PRun MIdle XEnd [] (Some JNull)) ws') = Some JNull).
    now rewrite run_spaces.
  - exists (JBool false). split; [|reflexivity].
    change (finish (run (PRun MIdle XEnd [] (Some (JBool false))) ws') = Some (JBool false)).
    now rewrite run_spaces.
  - eexists. split; [apply (finish_number NZero (num0 false 0)); [reflexivity|exact Hw']|].
    reflexivity.
  - eexists. split; [apply (finish_number NZero (num0 true 0)); [reflexivity|exact Hw']|].
    reflexivity.
  - eexists. split; [apply (finish_number NFrac (mkNum false 0 1 false 0)); [reflexivity|exact Hw']|].
    reflexivity.
  - exists (JStr ""). split; [|reflexivity].
    change (finish (run (PRun MIdle XEnd [] (Some (JStr ""))) ws') = Some (JStr "")).
    now rewrite run_spaces.
Qed.

(** X18: [loadSettings] leaves the whole page as it is when nothing was
    ever stored, and when the stored text is one of null, false, 0, -0,
    0.0 or the empty string in quotes, with or without JSON white space
    around it. *)
Theorem X18_nothing_to_load assign (p : Page) (ws lit ws' : string) :
  item p = None
  \/ (item p = Some (ws ++ lit ++ ws')
      /\ all_chars is_space ws = true /\ all_chars is_space ws' = true
      /\ In lit falsy_texts) ->
  loadSettings assign p = Some p.
Proof.
  intros [E|(E & Hw & Hw' & Hl)]; unfold loadSettings; rewrite E.
  - reflexivity.
  - destruct (parse_falsy ws lit ws' Hw Hw' Hl) as (v & -> & ->). reflexivity.
Qed.

Lemma X18_nothing_to_load_witness :
  let p := mkPage (world0 (mkForm "2" "3" "full" true false "bold" true))
             (Some (" " ++ "-0" ++ LF)) [] in
  loadSettings text_field p = Some p.
Proof.
  intros p.
  apply (X18_nothing_to_load text_field p " " "-0" LF).
  right. repeat split. simpl. tauto.
Defined.

(** X19: a stored text that is empty, or whose first character is neither
    JSON white space nor the first character of a JSON value, makes
    [loadSettings] throw before any field is assigned. *)
Theorem X19_not_json assign (p : Page) (c : ascii) (r : string) :
  item p = Some "" \/ (item p = Some (String c r)
                       /\ is_space c = false /\ opens_value c = false) ->
  loadSettings assign p = None.
Proof.
  intros [E|(E & Hs & Ho)]; unfold loadSettings; rewrite E; [reflexivity|].
  assert (H : step (PRun MIdle XValue [] None) c = PErr)
    by (each_char c; try discriminate Hs; try discriminate Ho; reflexivity).
  assert (P : parse (String c r) = None).
  { unfold parse.
    change (finish (run (step (PRun MIdle XValue [] None) c) r) = None).
    rewrite H, run_err. reflexivity. }
  now rewrite P.
Qed.

Lemma X19_not_json_witness :
  let p := mkPage (world0 (mkForm "2" "3" "full" true false "bold" true))
             (Some "undefined") [] in
  loadSettings text_field p = None.
Proof.
  intros p.
  apply (X19_not_json text_field p "u"%char "ndefined").
  right. repeat split.
Defined.

(** X20: a stored text that is a beginning of a saved settings text, cut
    anywhere before its end, is refused as a whole: [loadSettings] throws
    and assigns no field. *)
Theorem X20_truncated assign (p : Page) (f : Form) (t u : string) :
  settings_text f = t ++ u -> u <> "" -> item p = Some t ->
  loadSettings assign p = None.
Proof.
  intros E Hu Hi. unfold loadSettings. rewrite Hi.
  now rewrite (parse_truncated f t u E Hu).
Qed.

Lemma X20_truncated_witness :
  let f := mkForm "2" "3" "full" true false "bold" true in
  let t := substring 0 40 (settings_text f) in
  loadSettings text_field (mkPage (world0 f) (Some t) []) = None.
Proof.
  intros f t.
  apply (X20_truncated text_field (mkPage (world0 f) (Some t) []) f t
           (substring 40 200 (settings_text f))).
  - reflexivity.
  - discriminate.
  - reflexivity.
Defined.
